(** * Quiz game: question-bank parser, session state machine, save/resume

    A shallow embedding of [Questions.py], of [QuizGame.py] (the class
    [QuizGame] and the menu of [main]) and of [Player.py], with the
    properties of the bank parser, of answer checking, of the save/resume
    codec, of the score board and of the menu proved over it.

    Conventions of the embedding.
    - Python [str] is [string]; the [str] methods used by the program
      ([strip], [upper], [lower], [startswith], [split(sep, 1)],
      [isdigit], [isalpha], [in]) are modelled on ASCII text: a character
      of code 128 or more is neither a letter, a digit nor white space and
      has no other case.  A statement about which texts are white space,
      letters, digits, or equal up to case is made of texts for which
      [PyStr.isascii] holds, where these methods are Python's.
    - Python [int] is [Z]; list indexing [l[k]] is [py_getitem], with
      Python's negative indices.
    - A method of [QuizGame] is a function from the object's fields to an
      outcome (a returned value or a raised exception) and the fields
      afterwards, so that what a raising call leaves behind is visible.
    - Console output ([print]) is not modelled; the argument of a [print]
      is still evaluated where it can raise.
    - [random.shuffle] is the Fisher-Yates loop of CPython's [random]
      module, the results of its successive [randbelow] draws being given
      as a list.
    - The dictionary [_all_questions] and the directory of save files are
      finite maps keyed by strings; a save file holds the record that
      [json.dump] writes, with optional fields where [load_game] reads
      them through [dict.get].
    - The scores file of [Player.py] is a text, found by its name in a
      finite map.  Writing leaves a line feed as it is, as on POSIX;
      reading in text mode gives one line feed for a carriage return and
      for a carriage return followed by a line feed.
    - [main] runs on the lines typed at the console, given as a list;
      the end of the list is the [EOFError] of [input].  The results of
      the [randbelow] draws of all the shuffles are one list.
    - An [int] is printed and read whatever its size: the limit that
      CPython 3.11 puts on the digits of a conversion between [int] and
      [str] (4300 unless it is set otherwise) is not modelled, nor are
      the errors of the operating system on a file.  The message of the
      [ValueError] of [int] and of an unpacking is cut after its fixed
      part. *)

From Stdlib Require Import ZArith Ascii String List Lia Permutation Sorted.
From Stdlib Require Import DecimalString DecimalN DecimalPos.
From stdpp Require Import gmap strings list fin_maps.

Local Open Scope string_scope.
Local Open Scope Z_scope.

(** ** Python [str] methods, on ASCII text *)

Module PyStr.

Definition code (c : ascii) : Z := Z.of_N (N_of_ascii c).

(** [c.isspace()]: tab, line feed, vertical tab, form feed, carriage
    return, the four separators 28-31, and the blank. *)
Definition isspace_char (c : ascii) : bool :=
  let n := code c in
  ((9 <=? n) && (n <=? 13)) || ((28 <=? n) && (n <=? 32)).

Definition isupper_char (c : ascii) : bool :=
  let n := code c in (65 <=? n) && (n <=? 90).

Definition islower_char (c : ascii) : bool :=
  let n := code c in (97 <=? n) && (n <=? 122).

Definition isalpha_char (c : ascii) : bool :=
  isupper_char c || islower_char c.

Definition isdigit_char (c : ascii) : bool :=
  let n := code c in (48 <=? n) && (n <=? 57).

Definition upper_char (c : ascii) : ascii :=
  if islower_char c then ascii_of_N (N_of_ascii c - 32) else c.

Definition lower_char (c : ascii) : ascii :=
  if isupper_char c then ascii_of_N (N_of_ascii c + 32) else c.

Fixpoint upper (s : string) : string :=
  match s with
  | EmptyString => EmptyString
  | String c s' => String (upper_char c) (upper s')
  end.

Fixpoint lower (s : string) : string :=
  match s with
  | EmptyString => EmptyString
  | String c s' => String (lower_char c) (lower s')
  end.

Fixpoint lstrip (s : string) : string :=
  match s with
  | EmptyString => EmptyString
  | String c s' => if isspace_char c then lstrip s' else s
  end.

Fixpoint rstrip (s : string) : string :=
  match s with
  | EmptyString => EmptyString
  | String c s' =>
      match rstrip s' with
      | EmptyString => if isspace_char c then EmptyString else String c EmptyString
      | r => String c r
      end
  end.

(** [s.strip()] *)
Definition strip (s : string) : string := rstrip (lstrip s).

Fixpoint all_chars (p : ascii -> bool) (s : string) : bool :=
  match s with
  | EmptyString => true
  | String c s' => p c && all_chars p s'
  end.

Definition is_empty (s : string) : bool :=
  match s with EmptyString => true | _ => false end.

(** [s.isdigit()] and [s.isalpha()]: false on the empty string. *)
Definition isdigit (s : string) : bool :=
  negb (is_empty s) && all_chars isdigit_char s.

Definition isalpha (s : string) : bool :=
  negb (is_empty s) && all_chars isalpha_char s.

(** [s.startswith(p)] *)
Definition startswith (s p : string) : bool := String.prefix p s.

(** [s.split(sep, 1)] for a separator of one character: the text
    before the first separator and, when there is one, the text after
    it.  The Python list has one element in the first case and two in
    the second. *)
Fixpoint split1 (sep : ascii) (s : string) : string * option string :=
  match s with
  | EmptyString => (EmptyString, None)
  | String c s' =>
      if Ascii.eqb c sep then (EmptyString, Some s')
      else let '(b, a) := split1 sep s' in (String c b, a)
  end.

(** [sep in s] for a separator of one character. *)
Fixpoint contains (sep : ascii) (s : string) : bool :=
  match s with
  | EmptyString => false
  | String c s' => Ascii.eqb c sep || contains sep s'
  end.

(** [chr(k)] as a one-character string, for a code in range. *)
Definition chr (k : Z) : string :=
  String (ascii_of_N (Z.to_N k)) EmptyString.

(** [ord(s)]: defined on strings of exactly one character. *)
Definition ord (s : string) : option Z :=
  match s with
  | String c EmptyString => Some (code c)
  | _ => None
  end.

(** [s.isascii()]: the text on which the methods above are those of
    Python, character by character. *)
Definition isascii (s : string) : bool :=
  all_chars (fun c => code c <? 128) s.

End PyStr.

(** ** Python list indexing *)

(** [l[k]]: [None] stands for the [IndexError]. *)
Definition py_getitem {A : Type} (l : list A) (k : Z) : option A :=
  let n := Z.of_nat (length l) in
  if (0 <=? k) && (k <? n) then l !! Z.to_nat k
  else if (- n <=? k) && (k <? 0) then l !! Z.to_nat (n + k)
  else None.

(** [l[k:]]: for [0 <= k] the elements from position [k] on. *)
Definition py_slice_from {A : Type} (l : list A) (k : Z) : list A :=
  let n := Z.of_nat (length l) in
  if 0 <=? k then drop (Z.to_nat k) l
  else drop (Z.to_nat (Z.max 0 (n + k))) l.

(** [l[:k]] *)
Definition py_slice_to {A : Type} (l : list A) (k : Z) : list A :=
  let n := Z.of_nat (length l) in
  if 0 <=? k then take (Z.to_nat k) l
  else take (Z.to_nat (Z.max 0 (n + k))) l.

(** ** Exceptions and outcomes *)

Inductive exn : Type :=
| FileNotFoundError (msg : string)
| ValueError (msg : string)
| IndexError (msg : string)
| TypeError (msg : string)
| KeyError (key : string).

Inductive outcome (A : Type) : Type :=
| Return (a : A)
| Raise (e : exn).
Arguments Return {A} a.
Arguments Raise {A} e.

(** ** Questions.py *)

Inductive qclass : Type :=
| BaseQuestion
| EasyQuestion
| MediumQuestion
| HardQuestion.

Record Question : Type := mkQuestion {
  q_class : qclass;
  _question_text : string;
  _answers : list string;
  _correct_answer : string
}.

Definition get_question_text (q : Question) : string := _question_text q.
Definition get_answers (q : Question) : list string := _answers q.
Definition get_correct_answer (q : Question) : string := _correct_answer q.

(** [get_points] is a method of the three subclasses only: [None] is the
    absent attribute of a plain [Question]. *)
Definition get_points (q : Question) : option Z :=
  match q_class q with
  | BaseQuestion => None
  | EasyQuestion => Some 1
  | MediumQuestion => Some 3
  | HardQuestion => Some 5
  end.

(** [getattr(q, "get_points", lambda: 1)()] *)
Definition getattr_get_points_or_1 (q : Question) : Z :=
  match get_points q with Some p => p | None => 1 end.

(** ** QuizGame.py: constants and the object's fields *)

Definition DIFF_TO_CLASS : gmap string qclass :=
  <["Easy" := EasyQuestion]>
    (<["Medium" := MediumQuestion]> (<["Hard" := HardQuestion]> ∅)).

Definition GRADE_LEVELS : list string := ["ELEMENTARY"; "HIGH SCHOOL"].
Definition DIFFICULTIES : list string := ["Easy"; "Medium"; "Hard"].

(** The dictionary [_session_meta], whose two keys are fixed. *)
Record session_meta : Type := mkMeta {
  grade_level : string;
  difficulty : string
}.

Record QuizGame : Type := mkQuizGame {
  questions_file : string;
  _all_questions : gmap string (gmap string (list Question));
  question_bank : list Question;
  score : Z;
  _current_index : Z;
  _session_meta : session_meta
}.

(** One entry of ["remaining"] and the whole record of a save file.  A
    field read with [dict.get] may be absent. *)
Record saved_question : Type := mkSaved {
  sq_question_text : string;
  sq_answers : list string;
  sq_correct : string;
  sq_points : option Z
}.

Record save_data : Type := mkSave {
  sd_meta : option session_meta;
  sd_score : option Z;
  sd_current_index : option Z;
  sd_remaining : option (list saved_question)
}.

(** The object together with the save files beside it. *)
Record world : Type := mkWorld {
  game : QuizGame;
  saves : gmap string save_data
}.

(** ** Methods as state transformers that may raise *)

Definition M (A : Type) : Type := world -> outcome A * world.

Definition ret {A : Type} (a : A) : M A := fun w => (Return a, w).

Definition bind {A B : Type} (m : M A) (k : A -> M B) : M B :=
  fun w =>
    match m w with
    | (Return a, w') => k a w'
    | (Raise e, w') => (Raise e, w')
    end.

Definition raise {A : Type} (e : exn) : M A := fun w => (Raise e, w).

Definition get_self : M QuizGame := fun w => (Return (game w), w).

Definition put_self (g : QuizGame) : M unit :=
  fun w => (Return tt, mkWorld g (saves w)).

Definition get_saves : M (gmap string save_data) :=
  fun w => (Return (saves w), w).

Definition put_saves (fs : gmap string save_data) : M unit :=
  fun w => (Return tt, mkWorld (game w) fs).

Declare Scope py_scope.
Delimit Scope py_scope with py.
Notation "x <- m ;; k" := (bind m (fun x => k))
  (at level 100, m at next level, right associativity) : py_scope.
Notation "m ;;; k" := (bind m (fun _ => k))
  (at level 100, right associativity) : py_scope.
Local Open Scope py_scope.

(** [l[k]] inside a method. *)
Definition getitem {A : Type} (l : list A) (k : Z) : M A :=
  match py_getitem l k with
  | Some a => ret a
  | None => raise (IndexError "list index out of range")
  end.

(** [d[key]] inside a method. *)
Definition dict_getitem {V : Type} (d : gmap string V) (key : string) : M V :=
  match d !! key with
  | Some v => ret v
  | None => raise (KeyError key)
  end.

(** Field updates. *)
Definition set_question_bank (l : list Question) (g : QuizGame) : QuizGame :=
  mkQuizGame (questions_file g) (_all_questions g) l (score g)
             (_current_index g) (_session_meta g).

Definition set_score (s : Z) (g : QuizGame) : QuizGame :=
  mkQuizGame (questions_file g) (_all_questions g) (question_bank g) s
             (_current_index g) (_session_meta g).

Definition set_current_index (i : Z) (g : QuizGame) : QuizGame :=
  mkQuizGame (questions_file g) (_all_questions g) (question_bank g) (score g)
             i (_session_meta g).

Definition set_session_meta (m : session_meta) (g : QuizGame) : QuizGame :=
  mkQuizGame (questions_file g) (_all_questions g) (question_bank g) (score g)
             (_current_index g) m.

Definition set_all_questions (b : gmap string (gmap string (list Question)))
    (g : QuizGame) : QuizGame :=
  mkQuizGame (questions_file g) b (question_bank g) (score g)
             (_current_index g) (_session_meta g).

Definition len {A : Type} (l : list A) : Z := Z.of_nat (length l).

(** ** The bank parser *)

Abbreviation bank := (gmap string (gmap string (list Question))).

(** [{grade: {diff: [] for diff in DIFFICULTIES} for grade in GRADE_LEVELS}] *)
Definition empty_bank : bank :=
  let per_grade : gmap string (list Question) :=
    foldr (fun diff acc => <[diff := []]> acc) ∅ DIFFICULTIES in
  foldr (fun grade acc => <[grade := per_grade]> acc) ∅ GRADE_LEVELS.

(** Truth value of an [Optional[str]]. *)
Definition truthy (o : option string) : bool :=
  match o with
  | Some s => negb (PyStr.is_empty s)
  | None => false
  end.

Definition _looks_like_qnum (line : string) : bool :=
  (2 <? Z.of_nat (String.length line))
  && PyStr.isdigit (PyStr.strip (fst (PyStr.split1 "." line))).

(** [s.split(sep, 1)[1]] *)
Definition split1_second (sep : ascii) (s : string) : outcome string :=
  match snd (PyStr.split1 sep s) with
  | Some a => Return a
  | None => Raise (IndexError "list index out of range")
  end.

(** The loop [for _ in range(4)] of [_parse_question_block], for [n]
    rounds. *)
Fixpoint parse_choices (n : nat) (lines : list string) (idx : Z)
    (answers : list string) : outcome (list string * Z) :=
  match n with
  | O => Return (answers, idx)
  | S n' =>
      match py_getitem lines idx with
      | None => Raise (IndexError "list index out of range")
      | Some raw =>
          let choice_line := PyStr.strip raw in
          let after :=
            if PyStr.contains ")" choice_line
            then match split1_second ")" choice_line with
                 | Return a => Return (PyStr.strip a)
                 | Raise e => Raise e
                 end
            else Return choice_line in
          match after with
          | Raise e => Raise e
          | Return after => parse_choices n' lines (idx + 1) (answers ++ [after])%list
          end
      end
  end.

Definition _parse_question_block (lines : list string) (start_idx : Z)
    : outcome (string * list string * string * Z) :=
  match py_getitem lines start_idx with
  | None => Raise (IndexError "list index out of range")
  | Some q_line =>
      match split1_second "." q_line with
      | Raise e => Raise e
      | Return after_dot =>
          let q_text := PyStr.strip after_dot in
          match parse_choices 4 lines (start_idx + 1) [] with
          | Raise e => Raise e
          | Return (answers, idx) =>
              match py_getitem lines idx with
              | None => Raise (IndexError "list index out of range")
              | Some raw =>
                  let ans_line := PyStr.strip raw in
                  let correct :=
                    if PyStr.contains ":" ans_line
                    then match split1_second ":" ans_line with
                         | Return a => Return (PyStr.strip a)
                         | Raise e => Raise e
                         end
                    else Return (PyStr.strip ans_line) in
                  match correct with
                  | Raise e => Raise e
                  | Return EmptyString =>
                      Raise (IndexError "string index out of range")
                  | Return (String c _) =>
                      Return (q_text, answers,
                              PyStr.upper (String c EmptyString), idx + 1)
                  end
              end
          end
      end
  end.

(** [self._all_questions[grade][difficulty].append(q)] *)
Definition bank_append (grade difficulty : string) (q : Question) (all : bank)
    : outcome bank :=
  match all !! grade with
  | None => Raise (KeyError grade)
  | Some per_grade =>
      match per_grade !! difficulty with
      | None => Raise (KeyError difficulty)
      | Some l => Return (<[grade := <[difficulty := (l ++ [q])%list]> per_grade]> all)
      end
  end.

(** The [while i < len(lines)] loop of [_load_questions_from_file].  The
    outer [None] is the exhausted fuel; [parse_loop_fuel] shows that
    [S (length lines)] rounds are always enough. *)
Fixpoint parse_loop (fuel : nat) (lines : list string) (i : Z)
    (grade difficulty : option string) (all : bank) : option (outcome bank) :=
  match fuel with
  | O => None
  | S fuel' =>
      if negb (i <? len lines) then Some (Return all)
      else
        match py_getitem lines i with
        | None => Some (Raise (IndexError "list index out of range"))
        | Some raw =>
            let line := PyStr.strip raw in
            if PyStr.is_empty line then
              parse_loop fuel' lines (i + 1) grade difficulty all
            else if PyStr.startswith (PyStr.upper line) "ELEMENTARY LEVEL" then
              parse_loop fuel' lines (i + 1) (Some "ELEMENTARY") None all
            else if PyStr.startswith (PyStr.upper line) "HIGH SCHOOL LEVEL" then
              parse_loop fuel' lines (i + 1) (Some "HIGH SCHOOL") None all
            else if PyStr.startswith line "Easy" && truthy grade then
              parse_loop fuel' lines (i + 1) grade (Some "Easy") all
            else if PyStr.startswith line "Medium" && truthy grade then
              parse_loop fuel' lines (i + 1) grade (Some "Medium") all
            else if PyStr.startswith line "Hard" && truthy grade then
              parse_loop fuel' lines (i + 1) grade (Some "Hard") all
            else if truthy grade && truthy difficulty && _looks_like_qnum line then
              match grade, difficulty with
              | Some g, Some d =>
                  match _parse_question_block lines i with
                  | Raise e => Some (Raise e)
                  | Return (q_text, answers, correct_letter, consumed) =>
                      match DIFF_TO_CLASS !! d with
                      | None => Some (Raise (KeyError d))
                      | Some cls =>
                          let q := mkQuestion cls q_text answers correct_letter in
                          match bank_append g d q all with
                          | Raise e => Some (Raise e)
                          | Return all' =>
                              parse_loop fuel' lines consumed grade difficulty all'
                          end
                      end
                  end
              | _, _ => parse_loop fuel' lines (i + 1) grade difficulty all
              end
            else parse_loop fuel' lines (i + 1) grade difficulty all
        end
  end.

(** [_load_questions_from_file], on the lines of the bank file ([None]
    when the file does not exist). *)
Definition _load_questions_from_file (questions_file : string)
    (file : option (list string)) : option (outcome bank) :=
  match file with
  | None =>
      Some (Raise (FileNotFoundError
        ("Cannot find '" ++ questions_file ++ "'. Place it beside QuizGame.py.")))
  | Some lines => parse_loop (S (length lines)) lines 0 None None empty_bank
  end.

(** [QuizGame.__init__] *)
Definition QuizGame_init (questions_file : string) (file : option (list string))
    : option (outcome QuizGame) :=
  match _load_questions_from_file questions_file file with
  | None => None
  | Some (Raise e) => Some (Raise e)
  | Some (Return all) =>
      Some (Return (mkQuizGame questions_file all [] 0 0 (mkMeta "" "")))
  end.

(** ** [random.shuffle] *)

Section Shuffle.
Context {A : Type}.

(** [x[i], x[j] = x[j], x[i]] for two positions inside the list. *)
Definition swap (x : list A) (i j : nat) : list A :=
  match x !! i, x !! j with
  | Some a, Some b => <[j := a]> (<[i := b]> x)
  | _, _ => x
  end.

(** [for i in reversed(range(1, len(x))): j = randbelow(i + 1); swap],
    entered at position [i]; a draw is reduced into [0 .. i], and a
    missing draw counts as 0. *)
Fixpoint shuffle_loop (i : nat) (draws : list nat) (x : list A) : list A :=
  match i with
  | O => x
  | S i' =>
      let j := (hd 0%nat draws) `mod` (S i) in
      shuffle_loop i' (tl draws) (swap x i j)
  end%nat.

Definition shuffle (draws : list nat) (x : list A) : list A :=
  shuffle_loop (length x - 1) draws x.
End Shuffle.

(** ** Session set-up *)

Definition msg_grade : string :=
  "grade_level must be one of ['ELEMENTARY', 'HIGH SCHOOL']".
Definition msg_difficulty : string :=
  "difficulty must be one of ['Easy', 'Medium', 'Hard']".
Definition msg_empty_pool : string :=
  "No questions found for the selected grade level and difficulty.".

(** [configure_session]; [draws] are the random draws of the shuffle. *)
Definition configure_session (draws : list nat) (grade_level difficulty : string)
    (limit : option Z) : M unit :=
  if negb (bool_decide (PyStr.upper grade_level ∈ GRADE_LEVELS)) then
    raise (ValueError msg_grade)
  else if negb (bool_decide (difficulty ∈ DIFFICULTIES)) then
    raise (ValueError msg_difficulty)
  else
    self <- get_self ;;
    per_grade <- dict_getitem (_all_questions self) (PyStr.upper grade_level) ;;
    pool <- dict_getitem per_grade difficulty ;;
    match pool with
    | [] => raise (ValueError msg_empty_pool)
    | _ =>
        let pool := shuffle draws pool in
        let pool :=
          match limit with
          | Some k => py_slice_to pool (Z.max 0 k)
          | None => pool
          end in
        put_self
          (mkQuizGame (questions_file self) (_all_questions self) pool 0 0
             (mkMeta (PyStr.upper grade_level) difficulty))
    end.

(** ** The core methods *)

(** [display_question]: [None] when the session is exhausted. *)
Definition display_question : M (option Question) :=
  self <- get_self ;;
  if len (question_bank self) <=? _current_index self then ret None
  else
    q <- getitem (question_bank self) (_current_index self) ;;
    ret (Some q).

(** The loop [for i, choice in enumerate(answers)] of [check_answer],
    entered at position [i].  A letter beyond code 127 is no string of
    this model and equals no correct letter: it is given as [None], like
    the letter of an input that matches nothing. *)
Fixpoint match_choice (user_lower : string) (i : Z) (answers : list string)
    : option string :=
  match answers with
  | [] => None
  | choice :: rest =>
      if String.eqb user_lower (PyStr.lower choice)
      then (if 65 + i <? 128 then Some (PyStr.chr (65 + i)) else None)
      else match_choice user_lower (i + 1) rest
  end.

(** The letter [user_letter] that [check_answer] resolves the input to. *)
Definition resolve_letter (answers : list string) (user_input : string)
    : option string :=
  let user_clean := PyStr.strip user_input in
  if negb (PyStr.is_empty user_clean) then
    if (Z.of_nat (String.length user_clean) =? 1) && PyStr.isalpha user_clean
    then Some (PyStr.upper user_clean)
    else match_choice (PyStr.lower user_clean) 0 answers
  else None.

(** [user_letter == correct_letter] *)
Definition letter_eqb (user_letter : option string) (correct_letter : string)
    : bool :=
  match user_letter with
  | Some l => String.eqb l correct_letter
  | None => false
  end.

Definition msg_no_current : string := "No current question to answer.".

(** [check_answer].  [hasattr(q, "get_points")] is the case [Some] of
    [get_points q].  The message of the [TypeError] of [ord] is cut after
    its fixed part. *)
Definition check_answer (user_input : string) : M bool :=
  self <- get_self ;;
  if len (question_bank self) <=? _current_index self then
    raise (IndexError msg_no_current)
  else
    q <- getitem (question_bank self) (_current_index self) ;;
    let answers := get_answers q in
    let correct_letter := PyStr.upper (get_correct_answer q) in
    let user_letter := resolve_letter answers user_input in
    let is_correct := letter_eqb user_letter correct_letter in
    (if is_correct then
       match get_points q with
       | Some p => put_self (set_score (score self + p) self)
       | None => put_self (set_score (score self + 1) self)
       end
     else
       match PyStr.ord correct_letter with
       | None =>
           raise (TypeError "ord() expected a character")
       | Some o => _ <- getitem answers (o - 65) ;; ret tt
       end) ;;;
    self <- get_self ;;
    put_self (set_current_index (_current_index self + 1) self) ;;;
    ret is_correct.

Definition get_score : M Z :=
  self <- get_self ;; ret (score self).

Definition shuffle_question_bank (draws : list nat) : M unit :=
  self <- get_self ;;
  put_self (set_current_index 0
              (set_question_bank (shuffle draws (question_bank self)) self)).

Definition reset_game : M unit :=
  self <- get_self ;;
  put_self (mkQuizGame (questions_file self) (_all_questions self) [] 0 0
              (mkMeta "" "")).

(** ** Save and resume *)

Definition save_question (q : Question) : saved_question :=
  mkSaved (get_question_text q) (get_answers q) (get_correct_answer q)
          (Some (getattr_get_points_or_1 q)).

Definition save_game (filename : string) : M unit :=
  self <- get_self ;;
  let data :=
    mkSave (Some (_session_meta self)) (Some (score self))
           (Some (_current_index self))
           (Some (map save_question
                    (py_slice_from (question_bank self) (_current_index self)))) in
  fs <- get_saves ;;
  put_saves (<[filename := data]> fs).

(** The reverse table [{1: EasyQuestion, 3: MediumQuestion, 5: HardQuestion}]
    with its default [Question]. *)
Definition class_of_points (p : Z) : qclass :=
  if p =? 1 then EasyQuestion
  else if p =? 3 then MediumQuestion
  else if p =? 5 then HardQuestion
  else BaseQuestion.

Definition restore_question (item : saved_question) : Question :=
  let q_cls := class_of_points (default 1 (sq_points item)) in
  mkQuestion q_cls (sq_question_text item) (sq_answers item) (sq_correct item).

Definition load_game (filename : string) : M unit :=
  fs <- get_saves ;;
  match fs !! filename with
  | None => raise (FileNotFoundError "No saved game found.")
  | Some data =>
      self <- get_self ;;
      put_self (set_session_meta (default (mkMeta "" "") (sd_meta data)) self) ;;;
      self <- get_self ;;
      put_self (set_score (default 0 (sd_score data)) self) ;;;
      self <- get_self ;;
      put_self (set_current_index 0 self) ;;;
      let restored := map restore_question (default [] (sd_remaining data)) in
      self <- get_self ;;
      put_self (set_question_bank restored self)
  end.

Definition bank_C3 : list string :=
  ["ELEMENTARY LEVEL"; "Easy"; "1. 2+2?"; "a) 3"; "b) 4"; "c) 5"; "d) 6";
   "Answer: B"].

(** ** Operations of a session, for the invariants *)

Inductive op : Type :=
| OpConfigure (draws : list nat) (grade_level difficulty : string) (limit : option Z)
| OpDisplay
| OpCheckAnswer (user_input : string)
| OpGetScore
| OpShuffle (draws : list nat)
| OpResetGame
| OpSaveGame (filename : string)
| OpLoadGame (filename : string).

(** The world after a call, whether it returned or raised. *)
Definition run_op (o : op) (w : world) : world :=
  match o with
  | OpConfigure draws g d limit => snd (configure_session draws g d limit w)
  | OpDisplay => snd (display_question w)
  | OpCheckAnswer u => snd (check_answer u w)
  | OpGetScore => snd (get_score w)
  | OpShuffle draws => snd (shuffle_question_bank draws w)
  | OpResetGame => snd (reset_game w)
  | OpSaveGame f => snd (save_game f w)
  | OpLoadGame f => snd (load_game f w)
  end.

(** [check_answer] called once per input, the caller going on after a
    raised exception; the outcomes are listed in call order. *)
Fixpoint answer_all (inputs : list string) (w : world)
    : list (outcome bool) * world :=
  match inputs with
  | [] => ([], w)
  | u :: rest =>
      let '(r, w') := check_answer u w in
      let '(rs, w'') := answer_all rest w' in
      (r :: rs, w'')
  end.

Definition is_return {A : Type} (r : outcome A) : Prop :=
  match r with Return _ => True | Raise _ => False end.

(** The record invariant of the data model. *)
Definition record_ok (q : Question) : Prop :=
  length (get_answers q) = 4%nat /\
  get_correct_answer q ∈ ["A"; "B"; "C"; "D"].

(** The question under the cursor. *)
Definition current_question (w : world) (q : Question) : Prop :=
  0 <= _current_index (game w) < len (question_bank (game w)) /\
  question_bank (game w) !! Z.to_nat (_current_index (game w)) = Some q.




(** What the save format records of a question. *)
Definition fields (q : Question) : string * list string * string * Z :=
  (get_question_text q, get_answers q, get_correct_answer q,
   getattr_get_points_or_1 q).


(** ** Closed forms, and the banks and sessions of the examples *)

(** The record expected of [bank_C3]. *)
Definition question_C3 : Question :=
  mkQuestion EasyQuestion "2+2?" ["3"; "4"; "5"; "6"] "B".

(** [self._all_questions[grade][difficulty]] *)
Definition bucket (all : bank) (grade difficulty : string)
    : option (list Question) :=
  per_grade ← all !! grade; per_grade !! difficulty.

(** The bank expected of [bank_C3]: [question_C3] appended to the
    ELEMENTARY/Easy list of the empty bank. *)
Definition parsed_C3 : bank :=
  <["ELEMENTARY" :=
      <["Easy" := [question_C3]]> (default ∅ (empty_bank !! "ELEMENTARY"))]>
    empty_bank.

(** A session on [question_C3] with its one question answered. *)
Definition world_C3 : world :=
  mkWorld (mkQuizGame "Question_Bank.txt" empty_bank [question_C3] 1 1
             (mkMeta "ELEMENTARY" "Easy")) ∅.

(** The state after an answer worth [p] points: the score [p] higher,
    the cursor one further, the rest as it was. *)
Definition answered (p : Z) (w : world) : world :=
  mkWorld
    (mkQuizGame (questions_file (game w)) (_all_questions (game w))
       (question_bank (game w)) (score (game w) + p)
       (_current_index (game w) + 1) (_session_meta (game w)))
    (saves w).

(** [is_correct] of [check_answer], for the question [q]. *)
Definition is_correct (q : Question) (user_input : string) : bool :=
  letter_eqb (resolve_letter (get_answers q) user_input)
             (PyStr.upper (get_correct_answer q)).

(** The option that the wrong-answer message shows, or the exception
    that looking it up raises. *)
Definition shown_answer (q : Question) : outcome string :=
  match PyStr.ord (PyStr.upper (get_correct_answer q)) with
  | None => Raise (TypeError "ord() expected a character")
  | Some o =>
      match py_getitem (get_answers q) (o - 65) with
      | None => Raise (IndexError "list index out of range")
      | Some a => Return a
      end
  end.

(** A save file with one remaining question, stored with 2 points. *)
Definition item_C2 : saved_question :=
  mkSaved "2+2?" ["3"; "4"; "5"; "6"] "B" (Some 2).

Definition save_C2 : save_data :=
  mkSave (Some (mkMeta "ELEMENTARY" "Easy")) (Some 0) (Some 0) (Some [item_C2]).

Definition world_C2 : world :=
  mkWorld (mkQuizGame "Question_Bank.txt" empty_bank [] 0 0 (mkMeta "" ""))
          {["savegame.json" := save_C2]}.

(** Closed goals, by evaluation. *)
Ltac by_compute :=
  first [ vm_compute; reflexivity
        | apply (bool_decide_eq_true_1 _); vm_compute; reflexivity ].

(** The object built from [bank_C3]. *)
Definition game_C3 : QuizGame :=
  mkQuizGame "Question_Bank.txt" parsed_C3 [] 0 0 (mkMeta "" "").

Definition fresh_C3 : world := mkWorld game_C3 ∅.

(** The session that [configure_session] sets up on [bank_C3]. *)
Definition session_C3 : world :=
  mkWorld (mkQuizGame "Question_Bank.txt" parsed_C3 [question_C3] 0 0
             (mkMeta "ELEMENTARY" "Easy")) ∅.



(** The bank of [bank_C3] with the answer line [Answer: E], its question,
    and the session set up on it. *)
Definition bank_E : list string :=
  ["ELEMENTARY LEVEL"; "Easy"; "1. 2+2?"; "a) 3"; "b) 4"; "c) 5"; "d) 6";
   "Answer: E"].

Definition question_E : Question :=
  mkQuestion EasyQuestion "2+2?" ["3"; "4"; "5"; "6"] "E".

Definition parsed_E : bank :=
  <["ELEMENTARY" :=
      <["Easy" := [question_E]]> (default ∅ (empty_bank !! "ELEMENTARY"))]>
    empty_bank.

Definition fresh_E : world :=
  mkWorld (mkQuizGame "Question_Bank.txt" parsed_E [] 0 0 (mkMeta "" "")) ∅.

Definition session_E : world :=
  mkWorld (mkQuizGame "Question_Bank.txt" parsed_E [question_E] 0 0
             (mkMeta "ELEMENTARY" "Easy")) ∅.


(** The question of an answer line [Answer: @], and a question restored
    from a save file whose correct letter is in lower case. *)
Definition question_at : Question :=
  mkQuestion EasyQuestion "2+2?" ["3"; "4"; "5"; "6"] "@".

Definition question_b : Question :=
  mkQuestion EasyQuestion "2+2?" ["3"; "4"; "5"; "6"] "b".


(** ** Shapes of parsed banks, runs of answers and of operations *)

(** Lines, and the option texts of a question, in ASCII. *)
Definition ascii_lines (lines : list string) : Prop :=
  Forall (fun line => PyStr.isascii line = true) lines.

Definition ascii_options (q : Question) : Prop :=
  ascii_lines (get_answers q).

(** A record as the parser builds it in the section [d]: four options,
    a correct letter of one character that upper-casing leaves alone, and
    the class of the section. *)
Definition parsed_ok (d : string) (q : Question) : Prop :=
  length (get_answers q) = 4%nat /\
  (exists c, get_correct_answer q = String c EmptyString /\
             PyStr.upper_char c = c) /\
  DIFF_TO_CLASS !! d = Some (q_class q).

(** A bank as the parser returns it: the six sections exist and hold
    records of their section only. *)
Definition bank_ok (all : bank) : Prop :=
  (forall g d, g ∈ GRADE_LEVELS -> d ∈ DIFFICULTIES ->
     is_Some (bucket all g d)) /\
  (forall g d l, bucket all g d = Some l -> Forall (parsed_ok d) l).

(** The section state of the scan: no tag or one of the fixed tags. *)
Definition tag_ok (tags : list string) (o : option string) : Prop :=
  match o with
  | None => True
  | Some t => t ∈ tags
  end.

(** A line that is no grade header. *)
Definition no_grade_header (raw : string) : Prop :=
  PyStr.startswith (PyStr.upper (PyStr.strip raw)) "ELEMENTARY LEVEL" = false /\
  PyStr.startswith (PyStr.upper (PyStr.strip raw)) "HIGH SCHOOL LEVEL" = false.

(** The verdicts of the inputs on the questions, pair by pair, and the
    points they earn together. *)
Fixpoint marks (qs : list Question) (inputs : list string) : list bool :=
  match qs, inputs with
  | q :: qs', u :: inputs' => is_correct q u :: marks qs' inputs'
  | _, _ => []
  end.

Fixpoint points_earned (qs : list Question) (inputs : list string) : Z :=
  match qs, inputs with
  | q :: qs', u :: inputs' =>
      (if is_correct q u then getattr_get_points_or_1 q else 0)
      + points_earned qs' inputs'
  | _, _ => 0
  end.

(** Operations run one after the other, raised exceptions caught. *)
Definition run_ops (ops : list op) (w : world) : world :=
  foldl (fun w o => run_op o w) w ops.

(** ** Player.py: the player *)

Module Player.

Record t : Type := mk {
  _name : string;
  _grade_level : string;
  _score : Z
}.

(** [Player.__init__] *)
Definition init (name grade_level : string) : t := mk name grade_level 0.

Definition get_name (p : t) : string := _name p.
Definition get_grade_level (p : t) : string := _grade_level p.
Definition get_score (p : t) : Z := _score p.

Definition add_score (points : Z) (p : t) : t :=
  mk (_name p) (_grade_level p) (_score p + points).

Definition reset_score (p : t) : t := mk (_name p) (_grade_level p) 0.

End Player.

(** ** The prompt and the play loop *)

(** [_prompt_answer], reading the lines typed on the console one by one;
    [None] is the [EOFError] of [input] when no line is left. *)
Fixpoint _prompt_answer (stdin : list string) : option (string * list string) :=
  match stdin with
  | [] => None
  | line :: rest =>
      let user_in := PyStr.strip line in
      if PyStr.is_empty user_in then _prompt_answer rest
      else if String.eqb (PyStr.lower user_in) "s" then Some ("S", rest)
      else if (Z.of_nat (String.length user_in) =? 1)
              && bool_decide (PyStr.upper user_in ∈ ["A"; "B"; "C"; "D"])
      then Some (PyStr.upper user_in, rest)
      else Some (user_in, rest)
  end.

(** How [play] ends: its loop left normally, an exception of the session
    came through, or the console ran out of lines. *)
Inductive play_end : Type :=
| PlayDone
| PlayRaised (e : exn)
| PlayEOF.

(** The loop [while True] of [play]; the outer [None] is the exhausted
    fuel, which [play_loop_fuel] shows never to happen with more rounds
    than lines. *)
Fixpoint play_loop (fuel : nat) (stdin : list string) (w : world)
    : option (play_end * world * list string) :=
  match fuel with
  | O => None
  | S fuel' =>
      match display_question w with
      | (Raise e, w1) => Some (PlayRaised e, w1, stdin)
      | (Return None, w1) => Some (PlayDone, w1, stdin)
      | (Return (Some _), w1) =>
          match _prompt_answer stdin with
          | None => Some (PlayEOF, w1, [])
          | Some (answer, stdin') =>
              match check_answer answer w1 with
              | (Raise e, w2) => Some (PlayRaised e, w2, stdin')
              | (Return _, w2) => play_loop fuel' stdin' w2
              end
          end
      end
  end.

(** The trimming of the session at the start of [play]. *)
Definition play_trim (num_questions : option Z) (w : world) : world :=
  match num_questions with
  | Some n =>
      let remaining :=
        py_slice_from (question_bank (game w)) (_current_index (game w)) in
      let remaining := py_slice_to remaining (Z.max 0 n) in
      mkWorld (set_current_index 0 (set_question_bank remaining (game w)))
              (saves w)
  | None => w
  end.

(** [play]: the end, the session, the lines not read, and the player. *)
Definition play (player : Player.t) (num_questions : option Z)
    (stdin : list string) (w : world)
    : option (play_end * world * list string * Player.t) :=
  match play_loop (S (length stdin)) stdin (play_trim num_questions w) with
  | None => None
  | Some (PlayDone, w1, stdin') =>
      Some (PlayDone, w1, stdin',
            Player.add_score (score (game w1)) (Player.reset_score player))
  | Some (e, w1, stdin') => Some (e, w1, stdin', player)
  end.

(** A line that [_prompt_answer] skips. *)
Definition blank (line : string) : Prop := PyStr.strip line = "".

(** ** Player.py: the score board *)

Definition LF : ascii := "010"%char.
Definition CR : ascii := "013"%char.

Definition msg_int_literal : string :=
  "invalid literal for int() with base 10".
Definition msg_too_many : string := "too many values to unpack".
Definition msg_not_enough : string := "not enough values to unpack".

(** The decimal digits of a natural number, without leading zeros. *)
Definition decimal (n : N) : string := NilZero.string_of_uint (N.to_uint n).

(** [str(z)], and the text that an f-string puts for an [int]. *)
Definition py_str_int (z : Z) : string :=
  let digits := decimal (Z.abs_N z) in
  if z <? 0 then String "-" digits else digits.

(** The scan of [int(s)] over digits and single underscores: the number
    of digits, their value and the text left; [None] when an underscore
    is doubled or ends the run. *)
Fixpoint int_scan (after_underscore : bool) (digits : Z) (acc : Z)
    (s : string) : option (Z * Z * string) :=
  match s with
  | EmptyString =>
      if after_underscore then None else Some (digits, acc, EmptyString)
  | String c rest =>
      if PyStr.isdigit_char c
      then int_scan false (digits + 1) (10 * acc + (PyStr.code c - 48)) rest
      else if Ascii.eqb c "_"
      then if after_underscore then None else int_scan true digits acc rest
      else if after_underscore then None else Some (digits, acc, s)
  end.

(** The white space that [int] skips around the number. *)
Definition int_space (c : ascii) : bool :=
  let n := PyStr.code c in ((9 <=? n) && (n <=? 13)) || (n =? 32).

Fixpoint skip_int_space (s : string) : string :=
  match s with
  | EmptyString => EmptyString
  | String c rest => if int_space c then skip_int_space rest else s
  end.

(** [int(s)] for a [str]: white space, a sign, digits with single
    underscores between them, white space. *)
Definition py_int (s : string) : outcome Z :=
  let t := skip_int_space s in
  let '(negative, body) :=
    match t with
    | String c rest =>
        if Ascii.eqb c "-" then (true, rest)
        else if Ascii.eqb c "+" then (false, rest)
        else (false, t)
    | EmptyString => (false, t)
    end in
  if PyStr.startswith body "_" then Raise (ValueError msg_int_literal)
  else
    match int_scan false 0 0 body with
    | None => Raise (ValueError msg_int_literal)
    | Some (digits, n, rest) =>
        if PyStr.all_chars int_space rest && negb (digits =? 0)
        then Return (if negative then - n else n)
        else Raise (ValueError msg_int_literal)
    end.

(** The first part of a split, one character longer. *)
Definition cons_head (c : ascii) (parts : list string) : list string :=
  match parts with
  | [] => [String c EmptyString]
  | p :: ps => String c p :: ps
  end.

(** [s.split(", ")] *)
Fixpoint split_comma_space (s : string) : list string :=
  match s with
  | EmptyString => [EmptyString]
  | String c rest =>
      match rest with
      | String c2 rest2 =>
          if Ascii.eqb c "," && Ascii.eqb c2 " "
          then EmptyString :: split_comma_space rest2
          else cons_head c (split_comma_space rest)
      | EmptyString => cons_head c (split_comma_space rest)
      end
  end.

(** [", " in s] *)
Fixpoint contains_comma_space (s : string) : bool :=
  match s with
  | EmptyString => false
  | String c rest =>
      match rest with
      | String c2 _ =>
          (Ascii.eqb c "," && Ascii.eqb c2 " ") || contains_comma_space rest
      | EmptyString => false
      end
  end.

(** What a file opened for reading in text mode gives for the text
    stored: a carriage return, with the line feed after it if there is
    one, is read as one line feed. *)
Fixpoint universal_newlines (after_cr : bool) (s : string) : string :=
  match s with
  | EmptyString => EmptyString
  | String c rest =>
      if Ascii.eqb c CR then String LF (universal_newlines true rest)
      else if Ascii.eqb c LF
      then if after_cr then universal_newlines false rest
           else String LF (universal_newlines false rest)
      else String c (universal_newlines false rest)
  end.

(** The lines of a text as the iteration over a file gives them, each
    with its line feed; the last one has none when the text does not end
    in one. *)
Fixpoint readlines (s : string) : list string :=
  match s with
  | EmptyString => []
  | String c rest =>
      if Ascii.eqb c LF then String LF EmptyString :: readlines rest
      else cons_head c (readlines rest)
  end.

Definition score_entry : Type := string * string * Z.

(** The body of the loop of [load_scores]. *)
Definition parse_score_line (line : string) : outcome score_entry :=
  match split_comma_space (PyStr.strip line) with
  | [name; grade_level; score] =>
      match py_int score with
      | Return n => Return (name, grade_level, n)
      | Raise e => Raise e
      end
  | _ :: _ :: _ :: _ :: _ => Raise (ValueError msg_too_many)
  | _ => Raise (ValueError msg_not_enough)
  end.

Fixpoint load_lines (lines : list string) (scores : list score_entry)
    : outcome (list score_entry) :=
  match lines with
  | [] => Return scores
  | line :: rest =>
      match parse_score_line line with
      | Return e => load_lines rest (scores ++ [e])%list
      | Raise e => Raise e
      end
  end.

(** [load_scores], over the text files by name; a missing file is the
    [FileNotFoundError] that the function catches. *)
Definition load_scores (filename : string) (fs : gmap string string)
    : outcome (list score_entry) :=
  match fs !! filename with
  | None => Return []
  | Some text => load_lines (readlines (universal_newlines false text)) []
  end.

(** [save_score]: the file is opened for appending, which creates it,
    and gets one more line. *)
Definition save_score (player : Player.t) (filename : string)
    (fs : gmap string string) : gmap string string :=
  let old := default EmptyString (fs !! filename) in
  <[filename := old ++ Player.get_name player ++ ", "
                    ++ Player.get_grade_level player ++ ", "
                    ++ py_str_int (Player.get_score player)
                    ++ String LF EmptyString]> fs.

(** [list.sort(key=lambda x: x[2], reverse=True)]: the sort is stable,
    entries of equal score keep their order. *)
Fixpoint insert_by_score (x : score_entry) (l : list score_entry)
    : list score_entry :=
  match l with
  | [] => [x]
  | y :: l' => if x.2 <? y.2 then y :: insert_by_score x l' else x :: l
  end.

Definition sort_by_score (l : list score_entry) : list score_entry :=
  foldr insert_by_score [] l.

(** [show_leaderboard]: the entries of the rows printed, in their order. *)
Definition show_leaderboard (filename : string) (fs : gmap string string)
    : outcome (list score_entry) :=
  match load_scores filename fs with
  | Return scores => Return (sort_by_score scores)
  | Raise e => Raise e
  end.


(** Text that ends where a line ends. *)
Fixpoint whole_lines (s : string) : bool :=
  match s with
  | EmptyString => true
  | String c rest =>
      match rest with
      | EmptyString => Ascii.eqb c LF
      | String _ _ => whole_lines rest
      end
  end.

(** Text within one line. *)
Definition line_break (c : ascii) : bool := Ascii.eqb c LF || Ascii.eqb c CR.

Definition no_line_break (s : string) : bool :=
  PyStr.all_chars (fun c => negb (line_break c)) s.

(** The characters of the text of an [int]. *)
Definition sign_or_digit (c : ascii) : bool :=
  PyStr.isdigit_char c || Ascii.eqb c "-".

(** The entry that [save_score] writes for a player. *)
Definition entry_of (player : Player.t) : score_entry :=
  (Player.get_name player, Player.get_grade_level player,
   Player.get_score player).

(** A player whose entry [load_scores] reads back as it is: name and
    grade level are ASCII text, the name does not start with white space,
    and neither of the two holds the separator or a line break. *)
Definition loadable (player : Player.t) : bool :=
  PyStr.isascii (Player.get_name player)
  && PyStr.isascii (Player.get_grade_level player)
  && String.eqb (PyStr.lstrip (Player.get_name player)) (Player.get_name player)
  && negb (contains_comma_space (Player.get_name player))
  && no_line_break (Player.get_name player)
  && negb (contains_comma_space (Player.get_grade_level player))
  && no_line_break (Player.get_grade_level player).

(** One [save_score] after the other. *)
Definition save_scores (players : list Player.t) (filename : string)
    (fs : gmap string string) : gmap string string :=
  foldl (fun fs player => save_score player filename fs) fs players.

(** The score boards of the examples. *)
Definition scores_E : gmap string string :=
  {[ "scores.txt" :=
       "Ann, ELEMENTARY, 5" ++ String LF "Cy, HIGH SCHOOL, 12"
       ++ String LF "" ]}.

Definition scores_blank : gmap string string :=
  {[ "scores.txt" := "Ann, ELEMENTARY, 5" ++ String LF (String LF "") ]}.

(** ** QuizGame.py: the menu *)

Definition QUESTIONS_FILE : string := "Question_Bank.txt".
Definition SAVE_FILE : string := "savegame.json".
Definition SCORES_FILE : string := "scores.txt".

(** The program with what is around it: the game object and the save
    files, the scores files, the lines not yet read from the console and
    the draws not yet taken from the random generator. *)
Record machine : Type := mkMachine {
  session : world;
  board : gmap string string;
  console : list string;
  random : list nat
}.

(** [_choose]: the outer [None] is the [EOFError] of [input]; the
    [ValueError] of [int] is caught. *)
Fixpoint _choose (options : list string) (stdin : list string)
    : option (outcome string * list string) :=
  match stdin with
  | [] => None
  | line :: rest =>
      match py_int line with
      | Return sel =>
          if (1 <=? sel) && (sel <=? len options)
          then match py_getitem options (sel - 1) with
               | Some o => Some (Return o, rest)
               | None =>
                   Some (Raise (IndexError "list index out of range"), rest)
               end
          else _choose options rest
      | Raise _ => _choose options rest
      end
  end.

(** [input(...).strip() or "Player"] *)
Definition player_name (line : string) : string :=
  if PyStr.is_empty (PyStr.strip line) then "Player" else PyStr.strip line.

(** [int(limit) if limit else None], the [ValueError] caught. *)
Definition limit_of (line : string) : option Z :=
  let limit := PyStr.strip line in
  if PyStr.is_empty limit then None
  else match py_int limit with
       | Return n => Some n
       | Raise _ => None
       end.

(** The loop of a session in [main]: it is left when no question is
    left or after the game is saved on an answer [S]. *)
Fixpoint session_loop (fuel : nat) (stdin : list string) (w : world)
    : option (play_end * world * list string) :=
  match fuel with
  | O => None
  | S fuel' =>
      match display_question w with
      | (Raise e, w1) => Some (PlayRaised e, w1, stdin)
      | (Return None, w1) => Some (PlayDone, w1, stdin)
      | (Return (Some _), w1) =>
          match _prompt_answer stdin with
          | None => Some (PlayEOF, w1, [])
          | Some (answer, stdin') =>
              if String.eqb (PyStr.upper answer) "S"
              then match save_game SAVE_FILE w1 with
                   | (Raise e, w2) => Some (PlayRaised e, w2, stdin')
                   | (Return _, w2) => Some (PlayDone, w2, stdin')
                   end
              else match check_answer answer w1 with
                   | (Raise e, w2) => Some (PlayRaised e, w2, stdin')
                   | (Return _, w2) => session_loop fuel' stdin' w2
                   end
          end
      end
  end.

(** After the loop: a session played to its end puts the score on the
    player and the player on the score board. *)
Definition record_score (player : Player.t) (w : world)
    (fs : gmap string string) : Player.t * gmap string string :=
  if len (question_bank (game w)) <=? _current_index (game w)
  then
    let player :=
      Player.add_score (score (game w)) (Player.reset_score player) in
    (player, save_score player SCORES_FILE fs)
  else (player, fs).

(** The session of [player] from the first question shown on. *)
Definition run_session (player : Player.t) (m : machine)
    : option (play_end * machine) :=
  match session_loop (S (length (console m))) (console m) (session m) with
  | None => None
  | Some (PlayDone, w, stdin) =>
      Some (PlayDone,
            mkMachine w (record_score player w (board m)).2 stdin (random m))
  | Some (e, w, stdin) => Some (e, mkMachine w (board m) stdin (random m))
  end.

(** The draws that the shuffle of [configure_session] takes. *)
Definition draws_taken (w : world) (grade_level difficulty : string) : nat :=
  match bucket (_all_questions (game w)) (PyStr.upper grade_level)
          difficulty with
  | Some pool => length pool - 1
  | None => 0
  end.

(** Choice 1 of the menu, from the prompt for the name on; [PlayDone] is
    the return to the menu. *)
Definition new_session (m : machine) : option (play_end * machine) :=
  match console m with
  | [] => Some (PlayEOF, m)
  | name_line :: stdin =>
      let name := player_name name_line in
      match _choose GRADE_LEVELS stdin with
      | None => Some (PlayEOF, mkMachine (session m) (board m) [] (random m))
      | Some (Raise e, stdin) =>
          Some (PlayRaised e,
                mkMachine (session m) (board m) stdin (random m))
      | Some (Return grade, stdin) =>
          match _choose DIFFICULTIES stdin with
          | None =>
              Some (PlayEOF, mkMachine (session m) (board m) [] (random m))
          | Some (Raise e, stdin) =>
              Some (PlayRaised e,
                    mkMachine (session m) (board m) stdin (random m))
          | Some (Return diff, stdin) =>
              match stdin with
              | [] =>
                  Some (PlayEOF,
                        mkMachine (session m) (board m) [] (random m))
              | limit_line :: stdin =>
                  let limit_int := limit_of limit_line in
                  let player := Player.init name grade in
                  match configure_session (random m) grade diff limit_int
                          (session m) with
                  | (Raise (ValueError _), w) =>
                      Some (PlayDone, mkMachine w (board m) stdin (random m))
                  | (Raise e, w) =>
                      Some (PlayRaised e,
                            mkMachine w (board m) stdin (random m))
                  | (Return _, w) =>
                      run_session player
                        (mkMachine w (board m) stdin
                           (drop (draws_taken (session m) grade diff)
                                 (random m)))
                  end
              end
          end
      end
  end.

(** [game._session_meta.get("grade_level", "ELEMENTARY") or "ELEMENTARY"] *)
Definition resumed_grade (w : world) : string :=
  let g := grade_level (_session_meta (game w)) in
  if PyStr.is_empty g then "ELEMENTARY" else g.

(** Choice 2 of the menu; whatever [load_game] raises is caught. *)
Definition resume_session (m : machine) : option (play_end * machine) :=
  match load_game SAVE_FILE (session m) with
  | (Raise _, w) =>
      Some (PlayDone, mkMachine w (board m) (console m) (random m))
  | (Return _, w) =>
      match console m with
      | [] => Some (PlayEOF, mkMachine w (board m) [] (random m))
      | name_line :: stdin =>
          let player := Player.init (player_name name_line) (resumed_grade w) in
          run_session player (mkMachine w (board m) stdin (random m))
      end
  end.

(** How [main] ends: by choice 4, by an exception that nothing catches,
    or by the [EOFError] of an [input]. *)
Inductive main_end : Type :=
| MainExit
| MainRaised (e : exn)
| MainEOF.

(** The loop of [main]; choice 3 shows the leaderboard and catches what
    that raises, which leaves every file as it is. *)
Fixpoint main_loop (fuel : nat) (m : machine) : option (main_end * machine) :=
  match fuel with
  | O => None
  | S fuel' =>
      match console m with
      | [] => Some (MainEOF, m)
      | line :: stdin =>
          let choice := PyStr.strip line in
          let m := mkMachine (session m) (board m) stdin (random m) in
          let after (r : option (play_end * machine)) :=
            match r with
            | None => None
            | Some (PlayDone, m') => main_loop fuel' m'
            | Some (PlayRaised e, m') => Some (MainRaised e, m')
            | Some (PlayEOF, m') => Some (MainEOF, m')
            end in
          if String.eqb choice "1" then after (new_session m)
          else if String.eqb choice "2" then after (resume_session m)
          else if String.eqb choice "3" then main_loop fuel' m
          else if String.eqb choice "4" then Some (MainExit, m)
          else main_loop fuel' m
      end
  end.

(** [main], on the lines of the bank file if there is one: how it ends,
    and the save files, the scores files and the lines not read then. *)
Definition main (file : option (list string))
    (save_files : gmap string save_data) (score_files : gmap string string)
    (stdin : list string) (draws : list nat)
    : option (main_end * gmap string save_data * gmap string string
              * list string) :=
  match QuizGame_init QUESTIONS_FILE file with
  | None => None
  | Some (Raise e) => Some (MainRaised e, save_files, score_files, stdin)
  | Some (Return g) =>
      match main_loop (S (length stdin))
              (mkMachine (mkWorld g save_files) score_files stdin draws) with
      | None => None
      | Some (e, m) => Some (e, saves (session m), board m, console m)
      end
  end.

(** A line on which the session loop of [main] saves and stops. *)
Definition save_line (line : string) : Prop :=
  PyStr.lower (PyStr.strip line) = "s".


(** A line that [_choose] passes over. *)
Definition not_a_choice (options : list string) (line : string) : Prop :=
  match py_int line with
  | Return sel => ~ (1 <= sel <= len options)
  | Raise _ => True
  end.

(** The record that [save_game] writes for a game. *)
Definition saved_state (g : QuizGame) : save_data :=
  mkSave (Some (_session_meta g)) (Some (score g)) (Some (_current_index g))
         (Some (map save_question
                  (py_slice_from (question_bank g) (_current_index g)))).

(** A game whose texts (meta, questions, options, correct letters) are
    ASCII. *)
Definition ascii_question (q : Question) : Prop :=
  PyStr.isascii (get_question_text q) = true /\
  ascii_options q /\
  PyStr.isascii (get_correct_answer q) = true.

Definition ascii_game (g : QuizGame) : Prop :=
  PyStr.isascii (grade_level (_session_meta g)) = true /\
  PyStr.isascii (difficulty (_session_meta g)) = true /\
  Forall ascii_question (question_bank g).

(** Save files that each hold what [save_game] wrote for such a game. *)
Definition written_by_save_game (fs : gmap string save_data) : Prop :=
  map_Forall (fun _ data => exists g, ascii_game g /\ data = saved_state g)
             fs.

(** The exceptions that [main] lets through once the bank is loaded. *)
Definition escapes (e : exn) : Prop :=
  match e with
  | IndexError _ | TypeError _ => True
  | _ => False
  end.



(** * Properties *)

(** ** The parser terminates *)

Lemma py_getitem_in_range {A : Type} (l : list A) (k : Z) :
  0 <= k < len l -> py_getitem l k = l !! Z.to_nat k.
Proof.
  intros Hk. unfold py_getitem, len in *.
  destruct (0 <=? k) eqn:H0; [|lia].
  destruct (k <? Z.of_nat (length l)) eqn:H1; [reflexivity|lia].
Qed.

Lemma py_getitem_is_Some {A : Type} (l : list A) (k : Z) :
  is_Some (py_getitem l k) <-> - len l <= k < len l.
Proof.
  unfold py_getitem, len.
  destruct (0 <=? k) eqn:E1, (k <? Z.of_nat (length l)) eqn:E2,
    (- Z.of_nat (length l) <=? k) eqn:E3, (k <? 0) eqn:E4; simpl;
    rewrite ?lookup_lt_is_Some;
    (split; [intros H; try (exfalso; by apply is_Some_None in H)|intros H]);
    lia.
Qed.

Lemma parse_choices_idx n lines idx acc answers idx' :
  parse_choices n lines idx acc = Return (answers, idx') ->
  idx' = idx + Z.of_nat n.
Proof.
  revert idx acc. induction n as [|n IH]; intros idx acc H; simpl in H.
  - inversion H. lia.
  - destruct (py_getitem lines idx); [|discriminate].
    destruct (PyStr.contains ")" (PyStr.strip s)).
    + destruct (split1_second ")" (PyStr.strip s)); [|discriminate].
      apply IH in H. lia.
    + apply IH in H. lia.
Qed.

Lemma _parse_question_block_consumed lines i q_text answers correct consumed :
  _parse_question_block lines i = Return (q_text, answers, correct, consumed) ->
  consumed = i + 6.
Proof.
  unfold _parse_question_block. intros H.
  destruct (py_getitem lines i); [|discriminate].
  destruct (split1_second "." s); [|discriminate].
  destruct (parse_choices 4 lines (i + 1) []) as [[ans idx]|] eqn:Hc;
    [|discriminate].
  apply parse_choices_idx in Hc.
  destruct (py_getitem lines idx); [|discriminate].
  destruct (PyStr.contains ":" (PyStr.strip s0)).
  - destruct (split1_second ":" (PyStr.strip s0)); [|discriminate].
    destruct (PyStr.strip a0); [discriminate|]. inversion H. lia.
  - destruct (PyStr.strip (PyStr.strip s0)); [discriminate|]. inversion H. lia.
Qed.

Lemma parse_loop_fuel fuel lines i grade difficulty all :
  0 <= i -> Z.max 0 (len lines - i) < Z.of_nat fuel ->
  is_Some (parse_loop fuel lines i grade difficulty all).
Proof.
  revert i grade difficulty all.
  induction fuel as [|fuel IH]; intros i grade difficulty all Hi Hf.
  - lia.
  - cbn [parse_loop].
    destruct (negb (i <? len lines)) eqn:Hend; [eauto|].
    apply negb_false_iff, Z.ltb_lt in Hend.
    destruct (py_getitem lines i) as [raw|]; [|eauto].
    repeat (match goal with
            | |- is_Some (parse_loop fuel _ (i + 1) _ _ _) => apply IH; lia
            | |- is_Some (Some _) => eauto
            | |- is_Some (if ?b then _ else _) => destruct b
            end).
    destruct grade as [g|]; [|apply IH; lia].
    destruct difficulty as [d|]; [|apply IH; lia].
    destruct (_parse_question_block lines i) as [[[[qt ans] cl] consumed]|] eqn:Hb;
      [|eauto].
    apply _parse_question_block_consumed in Hb.
    destruct (DIFF_TO_CLASS !! d); [|eauto].
    destruct (bank_append g d _ all); [|eauto].
    apply IH; lia.
Qed.

(** Reading a bank file always ends: with a bank or with an exception. *)
Lemma _load_questions_from_file_total questions_file file :
  is_Some (_load_questions_from_file questions_file file).
Proof.
  unfold _load_questions_from_file. destruct file as [lines|]; [|eauto].
  apply parse_loop_fuel; unfold len; lia.
Qed.

(** ** C3: the one-question bank *)

Lemma parsed_C3_other_sections g d :
  g ∈ GRADE_LEVELS -> d ∈ DIFFICULTIES ->
  (g, d) <> ("ELEMENTARY", "Easy") -> bucket parsed_C3 g d = Some [].
Proof.
  intros Hg Hd Hne. unfold GRADE_LEVELS, DIFFICULTIES in *.
  repeat match goal with
         | H : _ ∈ _ :: _ |- _ => apply elem_of_cons in H; destruct H as [->|H]
         | H : _ ∈ [] |- _ => apply elem_of_nil in H; destruct H
         end;
    try (exfalso; apply Hne; reflexivity); vm_compute; reflexivity.
Qed.

(** C3. The bank made of the header [ELEMENTARY LEVEL], the header [Easy]
    and the block [1. 2+2?], [a) 3], [b) 4], [c) 5], [d) 6], [Answer: B]
    parses to exactly one record: under ELEMENTARY/Easy, with text
    [2+2?], options [3], [4], [5], [6], correct option [B] and 1 point;
    the five other sections stay empty. *)
Theorem C3_one_question_bank :
  _load_questions_from_file "Question_Bank.txt" (Some bank_C3)
    = Some (Return parsed_C3) /\
  bucket parsed_C3 "ELEMENTARY" "Easy" = Some [question_C3] /\
  get_question_text question_C3 = "2+2?" /\
  get_answers question_C3 = ["3"; "4"; "5"; "6"] /\
  get_correct_answer question_C3 = "B" /\
  get_points question_C3 = Some 1 /\
  (forall g d, g ∈ GRADE_LEVELS -> d ∈ DIFFICULTIES ->
     (g, d) <> ("ELEMENTARY", "Easy") -> bucket parsed_C3 g d = Some []).
Proof.
  split; [vm_compute; reflexivity|].
  split; [vm_compute; reflexivity|].
  split; [reflexivity|]. split; [reflexivity|].
  split; [reflexivity|]. split; [reflexivity|].
  apply parsed_C3_other_sections.
Qed.

(** ** The shuffle permutes *)

Section ShuffleFacts.
Context {A : Type}.
Implicit Types x : list A.

Lemma insert_cons_Permutation x j a b :
  x !! j = Some b -> a :: x ≡ₚ b :: <[j := a]> x.
Proof.
  revert j. induction x as [|c x IH]; intros [|j] H; simpl in *;
    try discriminate.
  - injection H as ->. apply perm_swap.
  - rewrite (perm_swap c a x). rewrite (IH j H). apply perm_swap.
Qed.

Lemma swap_Permutation x i j : swap x i j ≡ₚ x.
Proof.
  unfold swap.
  destruct (x !! i) as [a|] eqn:Hi; [|reflexivity].
  destruct (x !! j) as [b|] eqn:Hj; [|reflexivity].
  revert i j Hi Hj.
  induction x as [|c x IH]; intros [|i] [|j] Hi Hj; simpl in *;
    try discriminate.
  - injection Hi as ->. injection Hj as ->. reflexivity.
  - injection Hi as ->. symmetry. by apply insert_cons_Permutation.
  - injection Hj as ->. symmetry. by apply insert_cons_Permutation.
  - f_equiv. by apply IH.
Qed.

Lemma swap_length x i j : length (swap x i j) = length x.
Proof.
  unfold swap. destruct (x !! i), (x !! j); try reflexivity.
  by rewrite !length_insert.
Qed.

Lemma shuffle_loop_Permutation i draws x : shuffle_loop i draws x ≡ₚ x.
Proof.
  revert draws x. induction i as [|i IH]; intros draws x; simpl.
  - reflexivity.
  - rewrite IH. apply swap_Permutation.
Qed.

Lemma shuffle_Permutation draws x : shuffle draws x ≡ₚ x.
Proof. apply shuffle_loop_Permutation. Qed.

Lemma shuffle_length draws x : length (shuffle draws x) = length x.
Proof. apply Permutation_length, shuffle_Permutation. Qed.

Lemma swap_lookup x i j a b :
  x !! i = Some a -> x !! j = Some b ->
  swap x i j !! i = Some b.
Proof.
  intros Hi Hj. unfold swap. rewrite Hi, Hj.
  destruct (decide (i = j)) as [->|Hne].
  - rewrite list_lookup_insert_eq; [congruence|].
    rewrite length_insert. eapply lookup_lt_Some, Hi.
  - rewrite list_lookup_insert_ne by congruence.
    apply list_lookup_insert_eq. eapply lookup_lt_Some, Hi.
Qed.

Lemma swap_drop x i j n :
  (i < n)%nat -> (j < n)%nat -> drop n (swap x i j) = drop n x.
Proof.
  intros Hi Hj. unfold swap.
  destruct (x !! i), (x !! j); try reflexivity.
  rewrite !drop_insert_lt by lia. reflexivity.
Qed.

Lemma swap_take_Permutation x i j n :
  (i < n)%nat -> (j < n)%nat -> take n (swap x i j) ≡ₚ take n x.
Proof.
  intros Hi Hj.
  apply (Permutation_app_inv_r (drop n x)).
  rewrite <- (swap_drop x i j n Hi Hj) at 1.
  rewrite !take_drop. apply swap_Permutation.
Qed.

(** The loop reaches every arrangement of the positions it visits. *)
Lemma shuffle_loop_reaches (n : nat) x (target : list A) :
  (n < length x)%nat ->
  take (S n) x ≡ₚ take (S n) target ->
  drop (S n) x = drop (S n) target ->
  exists draws, shuffle_loop n draws x = target.
Proof.
  revert x. induction n as [|n IH]; intros x Hn Hp Hd.
  - exists []. cbn [shuffle_loop].
    rewrite <- (take_drop 1 x), <- (take_drop 1 target), Hd. f_equal.
    destruct x as [|a x]; [cbn in Hn; lia|].
    destruct target as [|b t].
    { apply Permutation_nil_r in Hp. discriminate Hp. }
    cbn in Hp |- *. rewrite !take_0 in *.
    apply Permutation_singleton_inj in Hp. congruence.
  - assert (Hlt : (S n < length target)%nat).
    { apply Permutation_length in Hp. rewrite !length_take in Hp. lia. }
    destruct (lookup_lt_is_Some_2 target (S n) Hlt) as [t Ht].
    destruct (lookup_lt_is_Some_2 x (S n) Hn) as [a Ha].
    assert (Hin : t ∈ take (S (S n)) x).
    { rewrite Hp. apply list_elem_of_lookup. exists (S n).
      rewrite lookup_take_lt by lia. exact Ht. }
    apply list_elem_of_lookup in Hin as [j Hj].
    assert (Hjlt : (j < S (S n))%nat).
    { apply lookup_lt_Some in Hj. rewrite length_take in Hj. lia. }
    rewrite lookup_take_lt in Hj by exact Hjlt.
    set (x' := swap x (S n) j).
    assert (Hx' : x' !! S n = Some t) by exact (swap_lookup x (S n) j a t Ha Hj).
    assert (Hd' : drop (S (S n)) x' = drop (S (S n)) x)
      by (apply swap_drop; lia).
    assert (Hp' : take (S (S n)) x' ≡ₚ take (S (S n)) x)
      by (apply swap_take_Permutation; lia).
    destruct (IH x') as [draws Hdraws].
    + unfold x'. rewrite swap_length. lia.
    + apply (Permutation_app_inv_r [t]).
      rewrite <- (take_S_r x' (S n) t Hx'), <- (take_S_r target (S n) t Ht).
      rewrite Hp'. exact Hp.
    + rewrite (drop_S x' t (S n) Hx'), (drop_S target t (S n) Ht).
      rewrite Hd', Hd. reflexivity.
    + exists (j :: draws). cbn [shuffle_loop hd tl].
      rewrite Nat.mod_small by lia. exact Hdraws.
Qed.

(** Every arrangement of the list is the result of the shuffle for some
    draws. *)
Lemma shuffle_reaches x (target : list A) :
  target ≡ₚ x -> exists draws, shuffle draws x = target.
Proof.
  intros Hp. unfold shuffle. destruct x as [|a x].
  - apply Permutation_nil_r in Hp. subst. exists []. reflexivity.
  - pose proof (Permutation_length Hp) as Hl. cbn [length] in *.
    apply shuffle_loop_reaches.
    + cbn [length]. lia.
    + replace (S (S (length x) - 1)) with (S (length x)) by lia.
      rewrite !take_ge by (cbn [length]; lia). symmetry. exact Hp.
    + rewrite !drop_ge by (cbn [length]; lia). reflexivity.
Qed.
End ShuffleFacts.

(** C9. [shuffle_question_bank] shuffles the whole pool, answered
    questions included.  Whatever the draws, the pool afterwards is a
    permutation of the whole pool before, the cursor is 0, and score and
    meta are as before; and every arrangement of the whole pool, wherever
    the cursor stood, is what the call leaves for some draws. *)
Theorem C9_shuffle_whole_pool (draws : list nat) (w : world) :
  (let '(r, w') := shuffle_question_bank draws w in
   r = Return tt /\
   question_bank (game w') ≡ₚ question_bank (game w) /\
   _current_index (game w') = 0 /\
   score (game w') = score (game w) /\
   _session_meta (game w') = _session_meta (game w)) /\
  (forall arrangement : list Question,
     arrangement ≡ₚ question_bank (game w) ->
     exists draws' : list nat,
       question_bank (game (snd (shuffle_question_bank draws' w)))
       = arrangement).
Proof.
  split.
  - simpl. repeat split. apply shuffle_Permutation.
  - intros arrangement Hp.
    destruct (shuffle_reaches _ _ Hp) as [draws' Hd].
    exists draws'. exact Hd.
Qed.

(** The shuffle really moves questions: a pool of two with the draw 0
    comes out reversed, the answered first question back in play. *)
Example shuffle_two :
  shuffle [0%nat] ["q1"; "q2"] = ["q2"; "q1"].
Proof. reflexivity. Qed.

(** ** C7: answering an exhausted session *)

Lemma check_answer_no_current (user_input : string) (w : world) :
  len (question_bank (game w)) <= _current_index (game w) ->
  check_answer user_input w = (Raise (IndexError msg_no_current), w).
Proof.
  intros H. unfold check_answer, bind, get_self, raise.
  apply Z.leb_le in H. rewrite H. reflexivity.
Qed.

(** C7. When the session is exhausted, [check_answer] raises the
    no-current-question error and leaves the whole state (pool, cursor,
    score, meta) as it was. *)
Theorem C7_check_answer_exhausted (user_input : string) (w : world) :
  len (question_bank (game w)) <= _current_index (game w) ->
  check_answer user_input w = (Raise (IndexError msg_no_current), w) /\
  question_bank (game (snd (check_answer user_input w))) = question_bank (game w) /\
  _current_index (game (snd (check_answer user_input w))) = _current_index (game w) /\
  score (game (snd (check_answer user_input w))) = score (game w) /\
  _session_meta (game (snd (check_answer user_input w))) = _session_meta (game w).
Proof.
  intros H. rewrite (check_answer_no_current user_input w H).
  repeat split.
Qed.

Lemma C7_check_answer_exhausted_witness :
  check_answer "b" world_C3 = (Raise (IndexError msg_no_current), world_C3).
Proof.
  apply (C7_check_answer_exhausted "b" world_C3). vm_compute. discriminate.
Defined.

(** ** [check_answer] on a current question, in closed form *)

Lemma check_answer_current (user_input : string) (w : world) (q : Question) :
  current_question w q ->
  check_answer user_input w =
    if is_correct q user_input
    then (Return true, answered (getattr_get_points_or_1 q) w)
    else match shown_answer q with
         | Raise e => (Raise e, w)
         | Return _ => (Return false, answered 0 w)
         end.
Proof.
  intros [Hr Hq]. destruct w as [g fs]. simpl in *.
  unfold check_answer, bind, get_self. simpl.
  destruct (len (question_bank g) <=? _current_index g) eqn:Hle;
    [apply Z.leb_le in Hle; lia|].
  unfold getitem. rewrite py_getitem_in_range by exact Hr. rewrite Hq.
  unfold ret, is_correct, shown_answer. simpl.
  destruct (letter_eqb _ _).
  - unfold getattr_get_points_or_1.
    destruct (get_points q); reflexivity.
  - destruct (PyStr.ord _); [|reflexivity].
    unfold getitem, bind.
    destruct (py_getitem (get_answers q) _); [|reflexivity].
    unfold answered. simpl. rewrite Z.add_0_r. reflexivity.
Qed.

(** ** C1, C2: save and resume *)

Lemma fields_restore_save (q : Question) :
  fields (restore_question (save_question q)) = fields q.
Proof.
  destruct q as [[] t a c]; reflexivity.
Qed.

(** C1. Saving a session and loading the file back gives the same score
    and meta, the cursor 0, and a pool whose records have, one by one,
    the text, options, correct letter and points of [pool[cursor:]] of the
    saved session. *)
Theorem C1_load_save_round_trip (filename : string) (w : world) :
  let w1 := snd (save_game filename w) in
  let w2 := snd (load_game filename w1) in
  fst (save_game filename w) = Return tt /\
  fst (load_game filename w1) = Return tt /\
  score (game w2) = score (game w) /\
  _session_meta (game w2) = _session_meta (game w) /\
  _current_index (game w2) = 0 /\
  map fields (question_bank (game w2)) =
    map fields (py_slice_from (question_bank (game w)) (_current_index (game w))).
Proof.
  destruct w as [g fs].
  unfold save_game, load_game, bind, get_self, get_saves, put_saves, put_self.
  cbn [fst snd game saves]. rewrite lookup_insert_eq.
  cbn [fst snd game saves sd_meta sd_score sd_remaining default from_option id
       set_session_meta set_score set_current_index set_question_bank
       score _session_meta _current_index question_bank].
  repeat split.
  rewrite !map_map. apply map_ext. intros q. apply fields_restore_save.
Qed.

(** The class itself is not saved: a plain [Question] comes back as an
    [EasyQuestion], which has the same fields. *)
Example restore_plain_question :
  restore_question (save_question (mkQuestion BaseQuestion "t" ["x"] "A"))
    = mkQuestion EasyQuestion "t" ["x"] "A".
Proof. reflexivity. Qed.

Lemma load_game_found (filename : string) (w : world) (data : save_data) :
  saves w !! filename = Some data ->
  load_game filename w =
    (Return tt,
     mkWorld
       (mkQuizGame (questions_file (game w)) (_all_questions (game w))
          (map restore_question (default [] (sd_remaining data)))
          (default 0 (sd_score data)) 0
          (default (mkMeta "" "") (sd_meta data)))
       (saves w)).
Proof.
  intros H. destruct w as [g fs]. simpl in H.
  unfold load_game, bind, get_saves. cbn [fst snd game saves]. rewrite H.
  reflexivity.
Qed.

(** C2, as the code has it. A saved record whose points are an integer
    other than 1, 3 and 5 is rebuilt as a plain [Question], which keeps
    text, options and correct letter but no point value; a correct
    [check_answer] on it adds exactly 1 to the score. *)
Theorem C2_untiered_record_scores_one (filename : string) (w : world)
    (data : save_data) (items : list saved_question) (i : nat)
    (item : saved_question) (p : Z) :
  saves w !! filename = Some data ->
  sd_remaining data = Some items ->
  items !! i = Some item ->
  sq_points item = Some p ->
  p <> 1 -> p <> 3 -> p <> 5 ->
  let q := mkQuestion BaseQuestion (sq_question_text item) (sq_answers item)
             (sq_correct item) in
  question_bank (game (snd (load_game filename w))) !! i = Some q /\
  get_points q = None /\
  forall (w' : world) (user_input : string),
    current_question w' q ->
    fst (check_answer user_input w') = Return true ->
    score (game (snd (check_answer user_input w'))) = score (game w') + 1.
Proof.
  intros Hf Hr Hi Hp H1 H3 H5 q. split; [|split].
  - rewrite (load_game_found _ _ _ Hf). cbn [snd game question_bank].
    rewrite Hr. cbn [default from_option id]. rewrite list_lookup_fmap, Hi.
    cbn [fmap option_fmap option_map].
    unfold restore_question, class_of_points. rewrite Hp.
    cbn [default from_option id].
    destruct (p =? 1) eqn:E1; [apply Z.eqb_eq in E1; lia|].
    destruct (p =? 3) eqn:E3; [apply Z.eqb_eq in E3; lia|].
    destruct (p =? 5) eqn:E5; [apply Z.eqb_eq in E5; lia|].
    reflexivity.
  - reflexivity.
  - intros w' u Hq. rewrite (check_answer_current u w' q Hq).
    destruct (is_correct q u).
    + intros _. reflexivity.
    + destruct (shown_answer q); cbn [fst]; discriminate.
Qed.

Lemma C2_untiered_record_scores_one_witness :
  let q := mkQuestion BaseQuestion "2+2?" ["3"; "4"; "5"; "6"] "B" in
  question_bank (game (snd (load_game "savegame.json" world_C2))) !! 0%nat
    = Some q /\
  get_points q = None /\
  forall (w' : world) (user_input : string),
    current_question w' q ->
    fst (check_answer user_input w') = Return true ->
    score (game (snd (check_answer user_input w'))) = score (game w') + 1.
Proof.
  apply (C2_untiered_record_scores_one "savegame.json" world_C2 save_C2
           [item_C2] 0%nat item_C2 2);
    first [ vm_compute; reflexivity | lia ].
Defined.

(** C2 as stated fails: a record saved with 2 points is loaded, answered
    correctly, and the score goes up by 1, not by 2. *)
Lemma C2_counterexample :
  let w1 := snd (load_game "savegame.json" world_C2) in
  sq_points item_C2 = Some 2 /\
  fst (check_answer "B" w1) = Return true /\
  ~ (score (game (snd (check_answer "B" w1))) = score (game w1) + 2).
Proof.
  vm_compute. repeat split. discriminate.
Qed.

(** ** C4: refused configurations *)

(** C4, as the code has it. For a grade given in ASCII text,
    [configure_session] raises the invalid-selection error when the
    grade, once upper-cased, is not one of the two grade tags, or when
    the difficulty is not one of the three difficulty tags, and the
    empty-pool error when the bank has no question for a valid
    combination; each time the state is left as it was. *)
Theorem C4_configure_session_refusals (draws : list nat)
    (grade_level difficulty : string) (limit : option Z) (w : world) :
  PyStr.isascii grade_level = true ->
  (PyStr.upper grade_level ∉ GRADE_LEVELS ->
   configure_session draws grade_level difficulty limit w
     = (Raise (ValueError msg_grade), w)) /\
  (PyStr.upper grade_level ∈ GRADE_LEVELS -> difficulty ∉ DIFFICULTIES ->
   configure_session draws grade_level difficulty limit w
     = (Raise (ValueError msg_difficulty), w)) /\
  (PyStr.upper grade_level ∈ GRADE_LEVELS -> difficulty ∈ DIFFICULTIES ->
   bucket (_all_questions (game w)) (PyStr.upper grade_level) difficulty
     = Some [] ->
   configure_session draws grade_level difficulty limit w
     = (Raise (ValueError msg_empty_pool), w)).
Proof.
  intros _. unfold configure_session. repeat split.
  - intros Hg. rewrite bool_decide_eq_false_2 by exact Hg. reflexivity.
  - intros Hg Hd. rewrite bool_decide_eq_true_2 by exact Hg.
    rewrite bool_decide_eq_false_2 by exact Hd. reflexivity.
  - intros Hg Hd Hb. rewrite bool_decide_eq_true_2 by exact Hg.
    rewrite bool_decide_eq_true_2 by exact Hd. cbn [negb].
    unfold bucket in Hb. unfold bind, get_self, dict_getitem.
    destruct (_all_questions (game w) !! PyStr.upper grade_level)
      as [per_grade|]; [|discriminate].
    cbn in Hb. cbn [ret]. unfold ret. rewrite Hb. reflexivity.
Qed.

Example QuizGame_init_C3 :
  QuizGame_init "Question_Bank.txt" (Some bank_C3) = Some (Return game_C3).
Proof. vm_compute. reflexivity. Qed.

Lemma C4_configure_session_refusals_witness :
  configure_session [] "MIDDLE SCHOOL" "Easy" None fresh_C3
    = (Raise (ValueError msg_grade), fresh_C3) /\
  configure_session [] "ELEMENTARY" "easy" None fresh_C3
    = (Raise (ValueError msg_difficulty), fresh_C3) /\
  configure_session [] "HIGH SCHOOL" "Hard" None fresh_C3
    = (Raise (ValueError msg_empty_pool), fresh_C3).
Proof.
  split; [|split].
  - apply (C4_configure_session_refusals [] "MIDDLE SCHOOL" "Easy" None fresh_C3
             eq_refl).
    by_compute.
  - apply (C4_configure_session_refusals [] "ELEMENTARY" "easy" None fresh_C3
             eq_refl);
      by_compute.
  - apply (C4_configure_session_refusals [] "HIGH SCHOOL" "Hard" None fresh_C3
             eq_refl);
      by_compute.
Defined.

(** C4 as stated fails: the grade [elementary] is not one of the two grade
    tags, yet [configure_session] accepts it, because it upper-cases the
    grade first, and sets the session up. *)
Lemma C4_counterexample :
  ("elementary" ∉ GRADE_LEVELS) /\
  fst (configure_session [] "elementary" "Easy" None fresh_C3) = Return tt /\
  snd (configure_session [] "elementary" "Easy" None fresh_C3) <> fresh_C3.
Proof.
  split; [by_compute|]. split; [by_compute|].
  intros H. apply (f_equal (fun w => length (question_bank (game w)))) in H.
  vm_compute in H. discriminate.
Qed.

(** ** C5: how an input is resolved *)









Example configure_session_C3 :
  configure_session [] "ELEMENTARY" "Easy" None fresh_C3
    = (Return tt, session_C3).
Proof. vm_compute. reflexivity. Qed.




(** ** C6, C10: the effect of [check_answer], and when it raises *)

Lemma current_question_exists (w : world) :
  0 <= _current_index (game w) < len (question_bank (game w)) ->
  exists q, current_question w q.
Proof.
  intros H.
  destruct (question_bank (game w) !! Z.to_nat (_current_index (game w)))
    as [q|] eqn:E.
  - exists q. split; assumption.
  - apply lookup_ge_None in E. unfold len in H. lia.
Qed.

Lemma check_answer_returns (user_input : string) (w w' : world) (q : Question)
    (b : bool) :
  current_question w q ->
  check_answer user_input w = (Return b, w') ->
  b = is_correct q user_input /\
  w' = answered (if b then getattr_get_points_or_1 q else 0) w.
Proof.
  intros Hq. rewrite (check_answer_current _ _ _ Hq).
  destruct (is_correct q user_input).
  - intros [= <- <-]. split; reflexivity.
  - destruct (shown_answer q); [|discriminate].
    intros [= <- <-]. split; reflexivity.
Qed.

Lemma shown_answer_record_ok (q : Question) :
  record_ok q -> exists a, shown_answer q = Return a.
Proof.
  destruct q as [cls t ans c]. unfold record_ok, shown_answer.
  cbn [get_answers get_correct_answer _answers _correct_answer].
  intros [Hlen Hc].
  destruct ans as [|a0 [|a1 [|a2 [|a3 [|a4 ans]]]]]; try discriminate.
  repeat match goal with
         | H : _ ∈ _ :: _ |- _ => apply elem_of_cons in H; destruct H as [->|H]
         | H : _ ∈ [] |- _ => apply elem_of_nil in H; destruct H
         end; eexists; vm_compute; reflexivity.
Qed.




Lemma configure_session_cases (draws : list nat) (grade_level difficulty : string)
    (limit : option Z) (w : world) :
  (exists e,
     configure_session draws grade_level difficulty limit w = (Raise e, w)) \/
  (exists pool,
     configure_session draws grade_level difficulty limit w =
       (Return tt,
        mkWorld
          (mkQuizGame (questions_file (game w)) (_all_questions (game w)) pool
             0 0 (mkMeta (PyStr.upper grade_level) difficulty))
          (saves w))).
Proof.
  unfold configure_session.
  destruct (negb (bool_decide (PyStr.upper grade_level ∈ GRADE_LEVELS)));
    [left; eexists; reflexivity|].
  destruct (negb (bool_decide (difficulty ∈ DIFFICULTIES)));
    [left; eexists; reflexivity|].
  unfold bind, get_self, dict_getitem.
  destruct (_all_questions (game w) !! PyStr.upper grade_level) as [per_grade|];
    [|left; eexists; reflexivity].
  cbn [ret]. unfold ret.
  destruct (per_grade !! difficulty) as [pool|]; [|left; eexists; reflexivity].
  destruct pool as [|q pool]; [left; eexists; reflexivity|].
  right. eexists. reflexivity.
Qed.

Lemma display_question_state (w : world) : snd (display_question w) = w.
Proof.
  unfold display_question, bind, get_self, getitem. cbn [fst snd].
  destruct (len (question_bank (game w)) <=? _current_index (game w));
    [reflexivity|].
  destruct (py_getitem _ _); reflexivity.
Qed.





Example QuizGame_init_E :
  QuizGame_init "Question_Bank.txt" (Some bank_E) = Some (Return (game fresh_E)).
Proof. vm_compute. reflexivity. Qed.

Example configure_session_E :
  configure_session [] "ELEMENTARY" "Easy" None fresh_E = (Return tt, session_E).
Proof. vm_compute. reflexivity. Qed.



(** ** C8: showing the current question *)

Lemma display_question_None (w : world) :
  fst (display_question w) = Return None <->
  len (question_bank (game w)) <= _current_index (game w).
Proof.
  unfold display_question, bind, get_self, getitem. cbn [fst snd].
  destruct (len (question_bank (game w)) <=? _current_index (game w)) eqn:E.
  - apply Z.leb_le in E. split; [intros _; exact E|reflexivity].
  - apply Z.leb_gt in E. split; [|lia].
    destruct (py_getitem _ _); cbn; discriminate.
Qed.

Lemma display_question_current (w : world) (q : Question) :
  current_question w q -> fst (display_question w) = Return (Some q).
Proof.
  intros [Hr Hq]. unfold display_question, bind, get_self, getitem.
  cbn [fst snd].
  destruct (len (question_bank (game w)) <=? _current_index (game w)) eqn:E;
    [apply Z.leb_le in E; lia|].
  rewrite py_getitem_in_range by exact Hr. rewrite Hq. reflexivity.
Qed.

Lemma answer_all_returns (inputs : list string) (w : world) :
  0 <= _current_index (game w) ->
  Forall is_return (fst (answer_all inputs w)) ->
  _current_index (game (snd (answer_all inputs w)))
    = _current_index (game w) + len inputs /\
  question_bank (game (snd (answer_all inputs w))) = question_bank (game w).
Proof.
  revert w. induction inputs as [|u rest IH]; intros w H0 Hall.
  - cbn. unfold len. cbn. split; [lia|reflexivity].
  - cbn [answer_all] in *.
    destruct (check_answer u w) as [r w1] eqn:E1.
    destruct (answer_all rest w1) as [rs w2] eqn:E2.
    cbn [fst snd] in *. apply Forall_cons in Hall as [Hr Hrs].
    destruct r as [b|e]; [|destruct Hr].
    destruct (Z.le_gt_cases (len (question_bank (game w)))
                (_current_index (game w))) as [Hle|Hlt].
    { rewrite (check_answer_no_current _ _ Hle) in E1. discriminate. }
    destruct (current_question_exists w) as [q Hq]; [lia|].
    destruct (check_answer_returns _ _ _ _ _ Hq E1) as [_ ->].
    specialize (IH (answered (if b then getattr_get_points_or_1 q else 0) w)).
    rewrite E2 in IH. cbn [fst snd] in IH.
    destruct IH as [IHc IHq]; [cbn; lia|exact Hrs|].
    rewrite IHc, IHq. cbn. unfold len. cbn [length]. split; [lia|reflexivity].
Qed.

(** C8, as the code has it. [display_question] leaves the state as it
    is, returns the question under the cursor when there is one, and
    returns [None] exactly when [cursor >= len(pool)]; so, for a freshly
    configured session, after [len(pool)] calls to [check_answer] none of
    which raised, [display_question] returns [None]. *)
Theorem C8_display_question (w : world) :
  snd (display_question w) = w /\
  (fst (display_question w) = Return None <->
   len (question_bank (game w)) <= _current_index (game w)) /\
  (forall q, current_question w q ->
     fst (display_question w) = Return (Some q)) /\
  (forall (draws : list nat) (grade_level difficulty : string)
     (limit : option Z) (inputs : list string),
     fst (configure_session draws grade_level difficulty limit w) = Return tt ->
     let w0 := snd (configure_session draws grade_level difficulty limit w) in
     length inputs = length (question_bank (game w0)) ->
     Forall is_return (fst (answer_all inputs w0)) ->
     fst (display_question (snd (answer_all inputs w0))) = Return None).
Proof.
  split; [apply display_question_state|].
  split; [apply display_question_None|].
  split; [apply display_question_current|].
  intros draws g d limit inputs Hconf w0 Hlen Hall. subst w0.
  destruct (configure_session_cases draws g d limit w) as [[e He]|[pool He]];
    rewrite He in *; [discriminate|].
  cbn [fst snd] in *.
  apply display_question_None.
  edestruct (answer_all_returns inputs) as [Hc Hq]; [|exact Hall|].
  - cbn. lia.
  - rewrite Hc, Hq. cbn in *. unfold len. lia.
Qed.

Lemma C8_display_question_witness :
  fst (display_question (snd (answer_all ["b"] session_C3))) = Return None.
Proof.
  pose proof (C8_display_question fresh_C3) as (_ & _ & _ & H).
  specialize (H [] "ELEMENTARY" "Easy" None ["b"]).
  rewrite configure_session_C3 in H. apply H.
  - reflexivity.
  - reflexivity.
  - vm_compute. repeat constructor.
Defined.

(** C8 as stated fails: on the freshly configured session of the bank
    whose answer line reads [Answer: E], the pool has one question, the
    one call [check_answer "A"] raises and does not advance, and
    [display_question] still returns the question. *)
Lemma C8_counterexample :
  configure_session [] "ELEMENTARY" "Easy" None fresh_E = (Return tt, session_E) /\
  length (question_bank (game session_E)) = 1%nat /\
  fst (display_question (snd (answer_all ["A"] session_E)))
    = Return (Some question_E) /\
  fst (display_question (snd (answer_all ["A"] session_E))) <> Return None.
Proof.
  split; [exact configure_session_E|]. split; [reflexivity|].
  split; [vm_compute; reflexivity|]. vm_compute. discriminate.
Qed.

(** ** C10: when [check_answer] raises *)




Example parse_answer_at :
  match _load_questions_from_file "Question_Bank.txt"
          (Some ["ELEMENTARY LEVEL"; "Easy"; "1. 2+2?"; "a) 3"; "b) 4";
                 "c) 5"; "d) 6"; "Answer: @"]) with
  | Some (Return all) => bucket all "ELEMENTARY" "Easy"
  | _ => None
  end = Some [question_at].
Proof. vm_compute. reflexivity. Qed.

Example restore_lower_case_letter :
  restore_question (mkSaved "2+2?" ["3"; "4"; "5"; "6"] "b" (Some 1))
    = question_b.
Proof. reflexivity. Qed.


(** * Further properties of the code *)

(** ** [configure_session] on a valid selection *)

Lemma py_slice_to_nonneg {A : Type} (l : list A) (k : Z) :
  0 <= k -> py_slice_to l k = take (Z.to_nat k) l.
Proof.
  intros H. unfold py_slice_to. destruct (0 <=? k) eqn:E; [reflexivity|].
  apply Z.leb_gt in E. lia.
Qed.

Lemma configure_session_valid (draws : list nat) (grade_level difficulty : string)
    (limit : option Z) (w : world) (bkt : list Question) :
  PyStr.upper grade_level ∈ GRADE_LEVELS -> difficulty ∈ DIFFICULTIES ->
  bucket (_all_questions (game w)) (PyStr.upper grade_level) difficulty
    = Some bkt ->
  bkt <> [] ->
  configure_session draws grade_level difficulty limit w =
    (Return tt,
     mkWorld
       (mkQuizGame (questions_file (game w)) (_all_questions (game w))
          (match limit with
           | Some k => take (Z.to_nat (Z.max 0 k)) (shuffle draws bkt)
           | None => shuffle draws bkt
           end)
          0 0 (mkMeta (PyStr.upper grade_level) difficulty))
       (saves w)).
Proof.
  intros Hg Hd Hb Hne. unfold configure_session.
  rewrite bool_decide_eq_true_2 by exact Hg.
  rewrite bool_decide_eq_true_2 by exact Hd. cbn [negb].
  unfold bucket in Hb. unfold bind, get_self, dict_getitem.
  destruct (_all_questions (game w) !! PyStr.upper grade_level)
    as [per_grade|]; [|discriminate].
  cbn in Hb. unfold ret. rewrite Hb.
  destruct bkt as [|q bkt]; [congruence|].
  unfold put_self. destruct limit as [k|]; [|reflexivity].
  rewrite py_slice_to_nonneg by lia. reflexivity.
Qed.

(** On a valid grade (in any case) and difficulty with a non-empty
    section, [configure_session] returns; the new pool is drawn from the
    section without repeating a question more often than the section has
    it, all of the section when there is no limit, and [min(max(k,0),n)]
    questions of the [n] under a limit [k]; cursor and score are 0, the
    meta holds the upper-cased grade and the difficulty, and the bank and
    the save files are as before. *)
Theorem configure_session_pool (draws : list nat) (grade_level difficulty : string)
    (limit : option Z) (w : world) (bkt : list Question) :
  PyStr.upper grade_level ∈ GRADE_LEVELS -> difficulty ∈ DIFFICULTIES ->
  bucket (_all_questions (game w)) (PyStr.upper grade_level) difficulty
    = Some bkt ->
  bkt <> [] ->
  let r := configure_session draws grade_level difficulty limit w in
  fst r = Return tt /\
  question_bank (game (snd r)) ⊆+ bkt /\
  (limit = None -> question_bank (game (snd r)) ≡ₚ bkt) /\
  len (question_bank (game (snd r)))
    = match limit with
      | Some k => Z.min (Z.max k 0) (len bkt)
      | None => len bkt
      end /\
  _current_index (game (snd r)) = 0 /\
  score (game (snd r)) = 0 /\
  _session_meta (game (snd r)) = mkMeta (PyStr.upper grade_level) difficulty /\
  _all_questions (game (snd r)) = _all_questions (game w) /\
  saves (snd r) = saves w.
Proof.
  intros Hg Hd Hb Hne r. subst r.
  rewrite (configure_session_valid _ _ _ _ _ _ Hg Hd Hb Hne).
  cbn [fst snd game saves question_bank _current_index score _session_meta
       _all_questions].
  split; [reflexivity|]. split; [|split; [|split]].
  - destruct limit as [k|].
    + rewrite <- (shuffle_Permutation draws bkt) at 2. apply submseteq_take.
    + rewrite shuffle_Permutation. reflexivity.
  - intros ->. apply shuffle_Permutation.
  - unfold len. destruct limit as [k|].
    + rewrite length_take, shuffle_length. lia.
    + rewrite shuffle_length. reflexivity.
  - repeat split.
Qed.

Lemma configure_session_pool_witness :
  let r := configure_session [] "elementary" "Easy" (Some 5) fresh_C3 in
  fst r = Return tt /\
  question_bank (game (snd r)) ⊆+ [question_C3] /\
  (Some 5 = None -> question_bank (game (snd r)) ≡ₚ [question_C3]) /\
  len (question_bank (game (snd r))) = Z.min (Z.max 5 0) (len [question_C3]) /\
  _current_index (game (snd r)) = 0 /\
  score (game (snd r)) = 0 /\
  _session_meta (game (snd r)) = mkMeta (PyStr.upper "elementary") "Easy" /\
  _all_questions (game (snd r)) = _all_questions (game fresh_C3) /\
  saves (snd r) = saves fresh_C3.
Proof.
  apply (configure_session_pool [] "elementary" "Easy" (Some 5) fresh_C3
           [question_C3]); by_compute.
Defined.

(** ** What the parser returns on any file *)

Lemma upper_char_idem (c : ascii) :
  PyStr.upper_char (PyStr.upper_char c) = PyStr.upper_char c.
Proof. destruct c as [[] [] [] [] [] [] [] []]; reflexivity. Qed.

Lemma empty_bank_bucket (g d : string) (l : list Question) :
  bucket empty_bank g d = Some l -> l = [].
Proof.
  unfold bucket, empty_bank, GRADE_LEVELS, DIFFICULTIES. cbn [foldr].
  intros H. apply bind_Some in H as (per_grade & Hg & Hd).
  assert (per_grade =
          <["Easy" := []]> (<["Medium" := []]> (<["Hard" := []]> ∅)))
    as ->.
  { rewrite !lookup_insert_Some, lookup_empty in Hg. intuition congruence. }
  rewrite !lookup_insert_Some, lookup_empty in Hd. intuition congruence.
Qed.

Lemma empty_bank_ok : bank_ok empty_bank.
Proof.
  split.
  - intros g d Hg Hd. unfold GRADE_LEVELS, DIFFICULTIES in *.
    repeat match goal with
           | H : _ ∈ _ :: _ |- _ => apply elem_of_cons in H; destruct H as [->|H]
           | H : _ ∈ [] |- _ => apply elem_of_nil in H; destruct H
           end; vm_compute; eauto.
  - intros g d l H. apply empty_bank_bucket in H as ->. constructor.
Qed.

Lemma bank_append_bucket (g d : string) (q : Question) (all all' : bank) :
  bank_append g d q all = Return all' ->
  exists l,
    bucket all g d = Some l /\
    bucket all' g d = Some (l ++ [q])%list /\
    forall g' d', (g', d') <> (g, d) -> bucket all' g' d' = bucket all g' d'.
Proof.
  unfold bank_append, bucket. intros H.
  destruct (all !! g) as [per_grade|] eqn:Eg; [|discriminate].
  destruct (per_grade !! d) as [l|] eqn:Ed; [|discriminate].
  injection H as <-. exists l. cbn. split; [exact Ed|]. split.
  - rewrite lookup_insert_eq. cbn. apply lookup_insert_eq.
  - intros g' d' Hne. destruct (decide (g = g')) as [<-|Hg].
    + rewrite lookup_insert_eq, Eg. cbn.
      apply lookup_insert_ne. congruence.
    + rewrite lookup_insert_ne by exact Hg. reflexivity.
Qed.

Lemma bank_append_ok (g d : string) (q : Question) (all all' : bank) :
  bank_ok all -> parsed_ok d q ->
  bank_append g d q all = Return all' -> bank_ok all'.
Proof.
  intros [Hkeys Hrec] Hq H.
  destruct (bank_append_bucket _ _ _ _ _ H) as (l & Hl & Hl' & Hother).
  split.
  - intros g' d' Hg' Hd'.
    destruct (decide ((g', d') = (g, d))) as [[= -> ->]|Hne].
    + rewrite Hl'. eauto.
    + rewrite (Hother _ _ Hne). apply Hkeys; assumption.
  - intros g' d' l' Hb.
    destruct (decide ((g', d') = (g, d))) as [[= -> ->]|Hne].
    + rewrite Hl' in Hb. injection Hb as <-.
      apply Forall_app. split; [apply (Hrec g d l Hl)|].
      constructor; [exact Hq|constructor].
    + rewrite (Hother _ _ Hne) in Hb. exact (Hrec _ _ _ Hb).
Qed.

Lemma bank_append_returns (g d : string) (q : Question) (all : bank) :
  bank_ok all -> g ∈ GRADE_LEVELS -> d ∈ DIFFICULTIES ->
  exists all', bank_append g d q all = Return all'.
Proof.
  intros [Hkeys _] Hg Hd. destruct (Hkeys g d Hg Hd) as [l Hl].
  unfold bank_append. unfold bucket in Hl.
  destruct (all !! g) as [per_grade|]; [|discriminate].
  cbn in Hl. rewrite Hl. eauto.
Qed.

Lemma parse_choices_shape n lines idx acc :
  match parse_choices n lines idx acc with
  | Return (answers, _) => length answers = (length acc + n)%nat
  | Raise e => exists msg, e = IndexError msg
  end.
Proof.
  revert idx acc. induction n as [|n IH]; intros idx acc; cbn [parse_choices].
  - lia.
  - destruct (py_getitem lines idx) as [raw|]; [|eauto].
    destruct (PyStr.contains ")" (PyStr.strip raw)).
    + unfold split1_second.
      destruct (snd (PyStr.split1 ")" (PyStr.strip raw))); [|eauto].
      specialize (IH (idx + 1) (acc ++ [PyStr.strip s])%list).
      destruct (parse_choices n lines (idx + 1) _) as [[ans i']|]; [|exact IH].
      rewrite length_app in IH. cbn in IH. lia.
    + specialize (IH (idx + 1) (acc ++ [PyStr.strip raw])%list).
      destruct (parse_choices n lines (idx + 1) _) as [[ans i']|]; [|exact IH].
      rewrite length_app in IH. cbn in IH. lia.
Qed.

Lemma _parse_question_block_shape lines i :
  match _parse_question_block lines i with
  | Return (_, answers, correct, _) =>
      length answers = 4%nat /\
      exists c, correct = String c EmptyString /\ PyStr.upper_char c = c
  | Raise e => exists msg, e = IndexError msg
  end.
Proof.
  unfold _parse_question_block.
  destruct (py_getitem lines i) as [q_line|]; [|eauto].
  unfold split1_second at 1.
  destruct (snd (PyStr.split1 "." q_line)); [|eauto].
  pose proof (parse_choices_shape 4 lines (i + 1) []) as Hc.
  destruct (parse_choices 4 lines (i + 1) []) as [[answers idx]|]; [|exact Hc].
  destruct (py_getitem lines idx) as [raw|]; [|eauto].
  assert (forall t : string,
    match match t with
          | EmptyString =>
              Raise (IndexError "string index out of range")
          | String c _ =>
              Return (PyStr.strip s, answers,
                      PyStr.upper (String c EmptyString), idx + 1)
          end with
    | Return (_, answers0, correct, _) =>
        length answers0 = 4%nat /\
        exists c, correct = String c EmptyString /\ PyStr.upper_char c = c
    | Raise e => exists msg, e = IndexError msg
    end) as Hfin.
  { intros [|c t]; [eauto|]. split; [exact Hc|].
    eexists. split; [reflexivity|apply upper_char_idem]. }
  destruct (PyStr.contains ":" (PyStr.strip raw)).
  - unfold split1_second.
    destruct (snd (PyStr.split1 ":" (PyStr.strip raw))); [|eauto].
    apply Hfin.
  - apply Hfin.
Qed.

Lemma DIFF_TO_CLASS_difficulties (d : string) :
  d ∈ DIFFICULTIES -> is_Some (DIFF_TO_CLASS !! d).
Proof.
  unfold DIFFICULTIES. intros H.
  repeat match goal with
         | H : _ ∈ _ :: _ |- _ => apply elem_of_cons in H; destruct H as [->|H]
         | H : _ ∈ [] |- _ => apply elem_of_nil in H; destruct H
         end; vm_compute; eauto.
Qed.

Lemma parse_loop_ok fuel lines i grade difficulty all r :
  bank_ok all ->
  tag_ok GRADE_LEVELS grade -> tag_ok DIFFICULTIES difficulty ->
  parse_loop fuel lines i grade difficulty all = Some r ->
  match r with
  | Return all' => bank_ok all'
  | Raise e => exists msg, e = IndexError msg
  end.
Proof.
  revert i grade difficulty all.
  induction fuel as [|fuel IH]; intros i grade difficulty all Hall Hg Hd H.
  - discriminate.
  - cbn [parse_loop] in H.
    destruct (negb (i <? len lines)); [injection H as <-; exact Hall|].
    destruct (py_getitem lines i) as [raw|]; [|injection H as <-; eauto].
    assert ("ELEMENTARY" ∈ GRADE_LEVELS) as HE by repeat constructor.
    assert ("HIGH SCHOOL" ∈ GRADE_LEVELS) as HH by repeat constructor.
    assert ("Easy" ∈ DIFFICULTIES) as H1 by repeat constructor.
    assert ("Medium" ∈ DIFFICULTIES) as H3 by repeat constructor.
    assert ("Hard" ∈ DIFFICULTIES) as H5 by repeat constructor.
    repeat match type of H with
           | (if ?b then _ else _) = _ =>
               destruct b; [eapply IH; [| | |exact H]; solve [assumption|exact I]|]
           end.
    destruct (truthy grade && truthy difficulty && _looks_like_qnum (PyStr.strip raw));
      [|eapply IH; [| | |exact H]; assumption].
    destruct grade as [g|]; [|eapply IH; [| | |exact H]; assumption].
    destruct difficulty as [d|]; [|eapply IH; [| | |exact H]; assumption].
    cbn [tag_ok] in Hg, Hd.
    pose proof (_parse_question_block_shape lines i) as Hb.
    destruct (_parse_question_block lines i) as [[[[qt ans] cl] consumed]|e];
      [|injection H as <-; exact Hb].
    destruct Hb as [Hlen Hcl].
    destruct (DIFF_TO_CLASS_difficulties d Hd) as [cls Hcls]. rewrite Hcls in H.
    destruct (bank_append_returns g d (mkQuestion cls qt ans cl) all Hall Hg Hd)
      as [all' Happ].
    rewrite Happ in H. eapply IH; [| | |exact H]; [|exact Hg|exact Hd].
    eapply bank_append_ok; [exact Hall| |exact Happ].
    split; [exact Hlen|]. split; [exact Hcl|exact Hcls].
Qed.

(** Reading a bank file of ASCII text ends in one of two ways: an
    [IndexError], or a bank in which the six sections exist and every
    question has exactly four options, a correct letter of one character
    in upper case, and the class of its section. *)
Theorem _load_questions_from_file_result (questions_file : string)
    (lines : list string) :
  ascii_lines lines ->
  exists r,
    _load_questions_from_file questions_file (Some lines) = Some r /\
    match r with
    | Return all => bank_ok all
    | Raise e => exists msg, e = IndexError msg
    end.
Proof.
  intros _.
  destruct (_load_questions_from_file_total questions_file (Some lines))
    as [r Hr].
  exists r. split; [exact Hr|].
  unfold _load_questions_from_file in Hr.
  eapply parse_loop_ok; [exact empty_bank_ok| | |exact Hr]; exact I.
Qed.

Lemma _load_questions_from_file_result_witness :
  exists r,
    _load_questions_from_file "Question_Bank.txt" (Some bank_E) = Some r /\
    match r with
    | Return all => bank_ok all
    | Raise e => exists msg, e = IndexError msg
    end.
Proof.
  apply (_load_questions_from_file_result "Question_Bank.txt" bank_E).
  repeat constructor.
Defined.

Lemma _load_questions_from_file_ok (questions_file : string)
    (lines : list string) (all : bank) :
  _load_questions_from_file questions_file (Some lines) = Some (Return all) ->
  bank_ok all.
Proof.
  unfold _load_questions_from_file. intros H.
  exact (parse_loop_ok _ _ _ None None _ (Return all) empty_bank_ok I I H).
Qed.

(** A question of a bank that the parser returned for a file of ASCII
    text has exactly four options and a correct letter of one character
    in upper case, and is worth the points of its section: 1 under Easy,
    3 under Medium, 5 under Hard. *)
Theorem parsed_question_shape (questions_file : string) (lines : list string)
    (all : bank) (g d : string) (l : list Question) (q : Question) :
  ascii_lines lines ->
  _load_questions_from_file questions_file (Some lines) = Some (Return all) ->
  bucket all g d = Some l -> q ∈ l ->
  length (get_answers q) = 4%nat /\
  (exists c, get_correct_answer q = String c EmptyString /\
             PyStr.upper_char c = c) /\
  ((d = "Easy" /\ get_points q = Some 1) \/
   (d = "Medium" /\ get_points q = Some 3) \/
   (d = "Hard" /\ get_points q = Some 5)).
Proof.
  intros _ Hload Hb Hq.
  destruct (_load_questions_from_file_ok _ _ _ Hload) as [_ Hrec].
  pose proof (Hrec g d l Hb) as Hl. rewrite Forall_forall in Hl.
  destruct (Hl q Hq) as (Hlen & Hc & Hcls).
  split; [exact Hlen|]. split; [exact Hc|].
  unfold get_points. unfold DIFF_TO_CLASS in Hcls.
  rewrite !lookup_insert_Some, lookup_empty in Hcls.
  destruct Hcls as [[<- <-]|[_ [[<- <-]|[_ [[<- <-]|[_ ?]]]]]];
    [left|right; left|right; right|discriminate]; split; reflexivity.
Qed.

Lemma parsed_question_shape_witness :
  length (get_answers question_C3) = 4%nat /\
  (exists c, get_correct_answer question_C3 = String c EmptyString /\
             PyStr.upper_char c = c) /\
  (("Easy" = "Easy" /\ get_points question_C3 = Some 1) \/
   ("Easy" = "Medium" /\ get_points question_C3 = Some 3) \/
   ("Easy" = "Hard" /\ get_points question_C3 = Some 5)).
Proof.
  apply (parsed_question_shape "Question_Bank.txt" bank_C3 parsed_C3
           "ELEMENTARY" "Easy" [question_C3] question_C3).
  - repeat constructor.
  - vm_compute. reflexivity.
  - vm_compute. reflexivity.
  - constructor.
Defined.

(** ** Blocks cut short *)

Lemma py_getitem_Some_lt {A : Type} (l : list A) (k : Z) (a : A) :
  py_getitem l k = Some a -> k < len l.
Proof.
  intros H. assert (is_Some (py_getitem l k)) as Hs by eauto.
  apply py_getitem_is_Some in Hs. lia.
Qed.

Lemma parse_choices_in_range n lines idx acc answers idx' :
  parse_choices (S n) lines idx acc = Return (answers, idx') ->
  idx' <= len lines.
Proof.
  revert idx acc. induction n as [|n IH]; intros idx acc H.
  - cbn [parse_choices] in H.
    destruct (py_getitem lines idx) as [raw|] eqn:E; [|discriminate].
    apply py_getitem_Some_lt in E.
    destruct (PyStr.contains ")" (PyStr.strip raw));
      [destruct (split1_second ")" (PyStr.strip raw)); [|discriminate]|];
      injection H as <- <-; lia.
  - remember (S n) as m. cbn [parse_choices] in H.
    destruct (py_getitem lines idx) as [raw|]; [|discriminate].
    destruct (PyStr.contains ")" (PyStr.strip raw));
      [destruct (split1_second ")" (PyStr.strip raw)); [|discriminate]|];
      subst m; exact (IH _ _ H).
Qed.

(** A question block needs its header, four option lines and an answer
    line: started less than six lines before the end of the file,
    [_parse_question_block] raises an [IndexError]. *)
Theorem _parse_question_block_truncated (lines : list string) (start_idx : Z) :
  len lines < start_idx + 6 ->
  exists msg, _parse_question_block lines start_idx = Raise (IndexError msg).
Proof.
  intros Hlen.
  pose proof (_parse_question_block_shape lines start_idx) as Hshape.
  destruct (_parse_question_block lines start_idx)
    as [[[[qt ans] cl] consumed]|e] eqn:E.
  - exfalso. clear Hshape. unfold _parse_question_block in E.
    destruct (py_getitem lines start_idx); [|discriminate].
    destruct (split1_second "." s); [|discriminate].
    destruct (parse_choices 4 lines (start_idx + 1) []) as [[answers idx]|] eqn:Hc;
      [|discriminate].
    pose proof (parse_choices_idx _ _ _ _ _ _ Hc) as Hidx.
    destruct (py_getitem lines idx) as [raw|] eqn:Ea; [|discriminate].
    apply py_getitem_Some_lt in Ea. lia.
  - destruct Hshape as [msg ->]. eauto.
Qed.

Lemma _parse_question_block_truncated_witness :
  exists msg,
    _parse_question_block ["1. 2+2?"; "a) 3"; "b) 4"; "c) 5"; "d) 6"] 0
      = Raise (IndexError msg).
Proof.
  apply (_parse_question_block_truncated
           ["1. 2+2?"; "a) 3"; "b) 4"; "c) 5"; "d) 6"] 0).
  vm_compute. reflexivity.
Defined.

Lemma rstrip_idem (s : string) :
  PyStr.rstrip (PyStr.rstrip s) = PyStr.rstrip s.
Proof.
  induction s as [|c s IH]; [reflexivity|]. cbn [PyStr.rstrip].
  destruct (PyStr.rstrip s) as [|c' r] eqn:E.
  - destruct (PyStr.isspace_char c) eqn:Ec; [reflexivity|].
    cbn [PyStr.rstrip]. rewrite Ec. reflexivity.
  - cbn [PyStr.rstrip]. cbn [PyStr.rstrip] in IH. rewrite IH. reflexivity.
Qed.

Lemma rstrip_head (c : ascii) (s : string) :
  PyStr.isspace_char c = false ->
  exists r, PyStr.rstrip (String c s) = String c r.
Proof.
  intros Hc. cbn [PyStr.rstrip].
  destruct (PyStr.rstrip s); [rewrite Hc|]; eauto.
Qed.

Lemma lstrip_head (s : string) :
  PyStr.lstrip s = EmptyString \/
  exists c r, PyStr.lstrip s = String c r /\ PyStr.isspace_char c = false.
Proof.
  induction s as [|c s IH]; [left; reflexivity|]. cbn [PyStr.lstrip].
  destruct (PyStr.isspace_char c) eqn:Ec; [exact IH|]. right. eauto.
Qed.

(** [strip] is idempotent. *)
Lemma strip_idem (s : string) : PyStr.strip (PyStr.strip s) = PyStr.strip s.
Proof.
  unfold PyStr.strip.
  destruct (lstrip_head s) as [->|(c & r & -> & Hc)]; [reflexivity|].
  destruct (rstrip_head c r Hc) as [r' Hr]. rewrite Hr.
  cbn [PyStr.lstrip]. rewrite Hc, <- Hr. apply rstrip_idem.
Qed.

Lemma split1_no_sep (sep : ascii) (s : string) :
  PyStr.contains sep s = false -> snd (PyStr.split1 sep s) = None.
Proof.
  induction s as [|c s IH]; [reflexivity|]. cbn [PyStr.contains PyStr.split1].
  intros H. apply orb_false_iff in H as [Hc Hs]. rewrite Hc.
  specialize (IH Hs). destruct (PyStr.split1 sep s). exact IH.
Qed.

Lemma contains_lstrip (sep : ascii) (s : string) :
  PyStr.isspace_char sep = false ->
  PyStr.contains sep (PyStr.lstrip s) = PyStr.contains sep s.
Proof.
  intros Hsep. induction s as [|c s IH]; [reflexivity|].
  cbn [PyStr.lstrip]. destruct (PyStr.isspace_char c) eqn:Ec; [|reflexivity].
  cbn [PyStr.contains]. rewrite IH.
  destruct (Ascii.eqb_spec c sep) as [->|_]; [congruence|reflexivity].
Qed.

Lemma contains_rstrip (sep : ascii) (s : string) :
  PyStr.isspace_char sep = false ->
  PyStr.contains sep (PyStr.rstrip s) = PyStr.contains sep s.
Proof.
  intros Hsep. induction s as [|c s IH]; [reflexivity|].
  cbn [PyStr.rstrip PyStr.contains]. rewrite <- IH.
  destruct (PyStr.rstrip s) as [|c' r]; [|reflexivity].
  cbn [PyStr.contains]. rewrite orb_false_r.
  destruct (PyStr.isspace_char c) eqn:Ec; [|cbn; apply orb_false_r].
  destruct (Ascii.eqb_spec c sep) as [->|_]; [congruence|reflexivity].
Qed.

Lemma contains_strip (sep : ascii) (s : string) :
  PyStr.isspace_char sep = false ->
  PyStr.contains sep (PyStr.strip s) = PyStr.contains sep s.
Proof.
  intros Hsep. unfold PyStr.strip.
  rewrite contains_rstrip, contains_lstrip by exact Hsep. reflexivity.
Qed.

Lemma digits_no_period (s : string) :
  PyStr.all_chars PyStr.isdigit_char s = true -> PyStr.contains "." s = false.
Proof.
  induction s as [|c s IH]; [reflexivity|]. cbn [PyStr.all_chars PyStr.contains].
  intros H. apply andb_true_iff in H as [Hc Hs]. rewrite (IH Hs), orb_false_r.
  destruct c as [[] [] [] [] [] [] [] []]; try reflexivity; discriminate.
Qed.

Lemma digit_first_no_header (c : ascii) (s : string) :
  PyStr.isdigit_char c = true ->
  PyStr.startswith (PyStr.upper (String c s)) "ELEMENTARY LEVEL" = false /\
  PyStr.startswith (PyStr.upper (String c s)) "HIGH SCHOOL LEVEL" = false /\
  PyStr.startswith (String c s) "Easy" = false /\
  PyStr.startswith (String c s) "Medium" = false /\
  PyStr.startswith (String c s) "Hard" = false.
Proof.
  intros H.
  destruct c as [[] [] [] [] [] [] [] []]; try discriminate H;
    repeat split; reflexivity.
Qed.

(** Inside a section, a line that is nothing but three or more digits
    looks like a question number but has no period to split at: the
    parser raises an [IndexError] there, whatever follows. *)
Theorem parse_loop_digits_line (fuel : nat) (lines : list string) (i : Z)
    (g d raw : string) (all : bank) :
  0 <= i ->
  py_getitem lines i = Some raw ->
  PyStr.isdigit (PyStr.strip raw) = true ->
  (2 < String.length (PyStr.strip raw))%nat ->
  g <> "" -> d <> "" ->
  parse_loop (S fuel) lines i (Some g) (Some d) all
    = Some (Raise (IndexError "list index out of range")).
Proof.
  intros Hi Hraw Hdig Hlen Hg Hd. cbn [parse_loop].
  pose proof (py_getitem_Some_lt _ _ _ Hraw) as Hlt.
  destruct (i <? len lines) eqn:E; [|apply Z.ltb_ge in E; lia].
  cbn [negb]. rewrite Hraw.
  unfold PyStr.isdigit in Hdig. apply andb_true_iff in Hdig as [Hne Hall].
  assert (PyStr.contains "." raw = false) as Hdot.
  { rewrite <- (contains_strip "." raw) by reflexivity.
    apply digits_no_period, Hall. }
  assert (_looks_like_qnum (PyStr.strip raw) = true) as Hq.
  { unfold _looks_like_qnum. apply andb_true_iff. split.
    - apply Z.ltb_lt. lia.
    - pose proof (digits_no_period _ Hall) as Hdot'.
      assert (fst (PyStr.split1 "." (PyStr.strip raw)) = PyStr.strip raw) as ->.
      { clear -Hdot'. induction (PyStr.strip raw) as [|c s IH]; [reflexivity|].
        cbn [PyStr.contains] in Hdot'. apply orb_false_iff in Hdot' as [Hc Hs].
        cbn [PyStr.split1]. rewrite Hc. specialize (IH Hs).
        destruct (PyStr.split1 "." s). cbn in *. congruence. }
      rewrite strip_idem. unfold PyStr.isdigit. rewrite Hne, Hall. reflexivity. }
  destruct (PyStr.strip raw) as [|c s] eqn:Es; [discriminate|].
  cbn [PyStr.is_empty].
  cbn [PyStr.all_chars] in Hall. apply andb_true_iff in Hall as [Hc _].
  destruct (digit_first_no_header c s Hc) as (-> & -> & -> & -> & ->).
  cbn [andb]. assert (truthy (Some g) = true) as ->.
  { destruct g; [congruence|reflexivity]. }
  assert (truthy (Some d) = true) as ->.
  { destruct d; [congruence|reflexivity]. }
  rewrite Hq. cbn [andb].
  unfold _parse_question_block, split1_second.
  pose proof (py_getitem_Some_lt _ _ _ Hraw).
  rewrite Hraw, (split1_no_sep _ _ Hdot). reflexivity.
Qed.

Lemma parse_loop_digits_line_witness :
  parse_loop 1 ["2024"] 0 (Some "ELEMENTARY") (Some "Easy") empty_bank
    = Some (Raise (IndexError "list index out of range")).
Proof.
  apply (parse_loop_digits_line 0 ["2024"] 0 "ELEMENTARY" "Easy" "2024"
           empty_bank);
    first [ lia | vm_compute; reflexivity | discriminate | vm_compute; lia ].
Defined.

Example load_stray_year :
  _load_questions_from_file "Question_Bank.txt"
    (Some ["ELEMENTARY LEVEL"; "Easy"; "2024"; "1. 2+2?"; "a) 3"; "b) 4";
           "c) 5"; "d) 6"; "Answer: B"])
  = Some (Raise (IndexError "list index out of range")).
Proof. vm_compute. reflexivity. Qed.

(** ** Files without a grade header *)

Lemma py_getitem_elem_of {A : Type} (l : list A) (k : Z) (a : A) :
  py_getitem l k = Some a -> a ∈ l.
Proof.
  unfold py_getitem.
  destruct ((0 <=? k) && (k <? Z.of_nat (length l)));
    [|destruct ((- Z.of_nat (length l) <=? k) && (k <? 0)); [|discriminate]];
    intros H; apply list_elem_of_lookup; eauto.
Qed.

Lemma parse_loop_no_grade fuel lines i all r :
  Forall no_grade_header lines -> 0 <= i ->
  parse_loop fuel lines i None None all = Some r -> r = Return all.
Proof.
  intros Hall. revert i. induction fuel as [|fuel IH]; intros i Hi H.
  - discriminate.
  - cbn [parse_loop] in H.
    destruct (negb (i <? len lines)) eqn:En; [congruence|].
    apply negb_false_iff, Z.ltb_lt in En.
    destruct (py_getitem lines i) as [raw|] eqn:E.
    + rewrite Forall_forall in Hall.
      destruct (Hall raw (py_getitem_elem_of _ _ _ E)) as [H1 H2].
      rewrite H1, H2 in H. cbn [truthy andb] in H.
      rewrite !andb_false_r in H.
      destruct (PyStr.is_empty (PyStr.strip raw));
        apply (IH (i + 1)); solve [lia|exact H].
    + assert (is_Some (py_getitem lines i)) as [x Hx]
        by (apply py_getitem_is_Some; lia).
      congruence.
Qed.

(** Without a grade header nothing is read: a file of ASCII text none of
    whose lines starts (trimmed, in upper case) with [ELEMENTARY LEVEL]
    or [HIGH SCHOOL LEVEL] parses, without an error, to the bank of six
    empty sections, whatever question blocks it holds. *)
Theorem _load_questions_from_file_no_grade (questions_file : string)
    (lines : list string) :
  ascii_lines lines ->
  Forall no_grade_header lines ->
  _load_questions_from_file questions_file (Some lines)
    = Some (Return empty_bank).
Proof.
  intros _ Hall.
  destruct (_load_questions_from_file_total questions_file (Some lines))
    as [r Hr].
  rewrite Hr. f_equal. unfold _load_questions_from_file in Hr.
  exact (parse_loop_no_grade _ _ _ _ _ Hall (Z.le_refl 0) Hr).
Qed.

Lemma _load_questions_from_file_no_grade_witness :
  _load_questions_from_file "Question_Bank.txt"
    (Some ["Easy"; "1. 2+2?"; "a) 3"; "b) 4"; "c) 5"; "d) 6"; "Answer: B"])
  = Some (Return empty_bank).
Proof.
  apply (_load_questions_from_file_no_grade "Question_Bank.txt"
           ["Easy"; "1. 2+2?"; "a) 3"; "b) 4"; "c) 5"; "d) 6"; "Answer: B"]).
  - repeat constructor.
  - repeat constructor.
Defined.

(** ** A run of answers *)

Lemma check_answer_record_ok_state (user_input : string) (w : world)
    (q : Question) :
  current_question w q -> record_ok q ->
  check_answer user_input w =
    (Return (is_correct q user_input),
     answered (if is_correct q user_input
               then getattr_get_points_or_1 q else 0) w).
Proof.
  intros Hq Hok. rewrite (check_answer_current _ _ _ Hq).
  destruct (is_correct q user_input); [reflexivity|].
  destruct (shown_answer_record_ok q Hok) as [a ->]. reflexivity.
Qed.

Lemma py_slice_from_nonneg {A : Type} (l : list A) (k : Z) :
  0 <= k -> py_slice_from l k = drop (Z.to_nat k) l.
Proof.
  intros H. unfold py_slice_from. destruct (0 <=? k) eqn:E; [reflexivity|].
  apply Z.leb_gt in E. lia.
Qed.

Lemma answer_all_ok (inputs : list string) (w : world) :
  Forall record_ok (question_bank (game w)) ->
  0 <= _current_index (game w) ->
  _current_index (game w) + len inputs <= len (question_bank (game w)) ->
  let remaining :=
    py_slice_from (question_bank (game w)) (_current_index (game w)) in
  let r := answer_all inputs w in
  fst r = map Return (marks remaining inputs) /\
  _current_index (game (snd r)) = _current_index (game w) + len inputs /\
  score (game (snd r)) = score (game w) + points_earned remaining inputs /\
  question_bank (game (snd r)) = question_bank (game w) /\
  _session_meta (game (snd r)) = _session_meta (game w) /\
  saves (snd r) = saves w.
Proof.
  revert w. induction inputs as [|u rest IH]; intros w Hok H0 Hlen.
  - cbn. destruct (py_slice_from _ _); cbn; unfold len; cbn;
      repeat split; lia.
  - cbn zeta. rewrite py_slice_from_nonneg by exact H0.
    unfold len in Hlen. cbn [length] in Hlen.
    destruct (current_question_exists w) as [q Hq]; [unfold len; lia|].
    pose proof Hq as [_ Hlook].
    assert (record_ok q) as Hqok.
    { rewrite Forall_forall in Hok. apply Hok.
      apply list_elem_of_lookup. eauto. }
    rewrite (drop_S _ _ _ Hlook). cbn [answer_all marks points_earned].
    rewrite (check_answer_record_ok_state u w q Hq Hqok).
    set (w1 := answered _ w).
    specialize (IH w1). cbn zeta in IH.
    rewrite py_slice_from_nonneg in IH by (subst w1; cbn; lia).
    destruct (answer_all rest w1) as [rs w2] eqn:E2.
    assert (Z.to_nat (_current_index (game w1))
            = S (Z.to_nat (_current_index (game w)))) as Hc
      by (subst w1; cbn; lia).
    rewrite Hc in IH. change (question_bank (game w1)) with
      (question_bank (game w)) in IH.
    destruct IH as (Hr & Hcur & Hsc & Hpool & Hmeta & Hsaves).
    + exact Hok.
    + subst w1; cbn; lia.
    + subst w1; cbn. unfold len in *. lia.
    + cbn [fst snd] in *. rewrite Hr, Hcur, Hsc, Hpool, Hmeta, Hsaves.
      subst w1. cbn. unfold len. cbn [length].
      repeat split; lia.
Qed.



(** ** Save files across a session *)

Lemma load_game_not_found (filename : string) (w : world) :
  saves w !! filename = None ->
  load_game filename w = (Raise (FileNotFoundError "No saved game found."), w).
Proof.
  intros H. unfold load_game, bind, get_saves. cbn [fst snd]. rewrite H.
  reflexivity.
Qed.

(** Loading a file that does not exist raises [FileNotFoundError] and
    leaves the session, pool, cursor, score and meta, as it was. *)
Theorem load_game_missing (filename : string) (w : world) :
  saves w !! filename = None ->
  load_game filename w
    = (Raise (FileNotFoundError "No saved game found."), w) /\
  game (snd (load_game filename w)) = game w.
Proof.
  intros H. rewrite (load_game_not_found filename w H). split; reflexivity.
Qed.

Lemma load_game_missing_witness :
  load_game "savegame.json" session_C3
    = (Raise (FileNotFoundError "No saved game found."), session_C3).
Proof.
  apply (load_game_missing "savegame.json" session_C3). reflexivity.
Defined.

Lemma check_answer_saves (user_input : string) (w : world) :
  saves (snd (check_answer user_input w)) = saves w.
Proof.
  unfold check_answer, bind, get_self, getitem, raise, ret, put_self.
  cbn [fst snd].
  destruct (len (question_bank (game w)) <=? _current_index (game w));
    [reflexivity|].
  destruct (py_getitem (question_bank (game w)) (_current_index (game w)))
    as [q|]; [|reflexivity].
  destruct (letter_eqb _ _).
  - destruct (get_points q); reflexivity.
  - destruct (PyStr.ord _); [|reflexivity].
    destruct (py_getitem (get_answers q) _); reflexivity.
Qed.

Lemma run_op_saves (o : op) (filename : string) (w : world) :
  o <> OpSaveGame filename ->
  saves (run_op o w) !! filename = saves w !! filename.
Proof.
  intros Hne. destruct o as [draws g d limit| |u| |draws| |f|f]; cbn [run_op].
  - destruct (configure_session_cases draws g d limit w) as [[e ->]|[pool ->]];
      reflexivity.
  - rewrite display_question_state. reflexivity.
  - rewrite check_answer_saves. reflexivity.
  - reflexivity.
  - reflexivity.
  - reflexivity.
  - cbn. apply lookup_insert_ne. congruence.
  - destruct (saves w !! f) as [data|] eqn:E.
    + rewrite (load_game_found _ _ _ E). reflexivity.
    + rewrite (load_game_not_found _ _ E). reflexivity.
Qed.

Lemma run_ops_saves (ops : list op) (filename : string) (w : world) :
  Forall (fun o => o <> OpSaveGame filename) ops ->
  saves (run_ops ops w) !! filename = saves w !! filename.
Proof.
  revert w. induction ops as [|o ops IH]; intros w H; [reflexivity|].
  apply Forall_cons in H as [Ho Hops]. unfold run_ops in *. cbn [foldl].
  rewrite (IH _ Hops). apply run_op_saves, Ho.
Qed.

(** A saved game outlives the session: whatever operations follow a
    [save_game], as long as none of them is a [save_game], under any
    file name, a later [load_game] of the file returns and brings back
    the score and meta of the moment of saving, the cursor 0 and the
    records of the questions that remained then. *)
Theorem save_game_survives (filename : string) (ops : list op) (w : world) :
  Forall (fun o => forall f, o <> OpSaveGame f) ops ->
  let later := run_ops ops (snd (save_game filename w)) in
  let r := load_game filename later in
  fst r = Return tt /\
  score (game (snd r)) = score (game w) /\
  _session_meta (game (snd r)) = _session_meta (game w) /\
  _current_index (game (snd r)) = 0 /\
  map fields (question_bank (game (snd r))) =
    map fields (py_slice_from (question_bank (game w)) (_current_index (game w))).
Proof.
  intros Hops later r. subst r later.
  assert (Hops' : Forall (fun o => o <> OpSaveGame filename) ops)
    by (eapply Forall_impl; [exact Hops | intros o H; apply H]).
  pose proof (run_ops_saves ops filename (snd (save_game filename w)) Hops')
    as Hs.
  unfold save_game at 2 in Hs. unfold bind, get_self, get_saves, put_saves in Hs.
  cbn [fst snd game saves] in Hs. rewrite lookup_insert_eq in Hs.
  rewrite (load_game_found _ _ _ Hs).
  cbn [fst snd game saves sd_meta sd_score sd_remaining default from_option id
       score _session_meta _current_index question_bank].
  repeat split.
  rewrite !map_map. apply map_ext. intros q. apply fields_restore_save.
Qed.

Lemma save_game_survives_witness :
  let later :=
    run_ops [OpCheckAnswer "b"; OpResetGame; OpLoadGame "other.json"]
            (snd (save_game "savegame.json" session_C3)) in
  let r := load_game "savegame.json" later in
  fst r = Return tt /\
  score (game (snd r)) = score (game session_C3) /\
  _session_meta (game (snd r)) = _session_meta (game session_C3) /\
  _current_index (game (snd r)) = 0 /\
  map fields (question_bank (game (snd r))) =
    map fields (py_slice_from (question_bank (game session_C3))
                              (_current_index (game session_C3))).
Proof.
  apply (save_game_survives "savegame.json"
           [OpCheckAnswer "b"; OpResetGame; OpLoadGame "other.json"] session_C3).
  repeat constructor; discriminate.
Defined.

(** [reset_game] empties the session (no pool, score 0, cursor 0, blank
    meta) and keeps the parsed bank and the save files; after it
    [display_question] returns [None] and [check_answer] raises the
    no-current-question error. *)
Theorem reset_game_effect (w : world) :
  let w' := snd (reset_game w) in
  fst (reset_game w) = Return tt /\
  question_bank (game w') = [] /\
  score (game w') = 0 /\
  _current_index (game w') = 0 /\
  _session_meta (game w') = mkMeta "" "" /\
  _all_questions (game w') = _all_questions (game w) /\
  saves w' = saves w /\
  fst (display_question w') = Return None /\
  forall user_input,
    check_answer user_input w' = (Raise (IndexError msg_no_current), w').
Proof.
  cbn zeta. repeat split.
Qed.

(** ** Resuming a saved game *)

Lemma is_correct_restore_save (q : Question) (user_input : string) :
  is_correct (restore_question (save_question q)) user_input
    = is_correct q user_input.
Proof. destruct q as [[] t a c]; reflexivity. Qed.

Lemma points_restore_save (q : Question) :
  getattr_get_points_or_1 (restore_question (save_question q))
    = getattr_get_points_or_1 q.
Proof. destruct q as [[] t a c]; reflexivity. Qed.

Lemma record_ok_restore_save (q : Question) :
  record_ok q -> record_ok (restore_question (save_question q)).
Proof. destruct q as [[] t a c]; intros H; exact H. Qed.

Lemma marks_restore_save (qs : list Question) (inputs : list string) :
  marks (map (fun q => restore_question (save_question q)) qs) inputs
    = marks qs inputs.
Proof.
  revert inputs. induction qs as [|q qs IH]; intros [|u inputs];
    cbn [map marks]; try reflexivity.
  rewrite is_correct_restore_save, IH. reflexivity.
Qed.

Lemma points_earned_restore_save (qs : list Question) (inputs : list string) :
  points_earned (map (fun q => restore_question (save_question q)) qs) inputs
    = points_earned qs inputs.
Proof.
  revert inputs. induction qs as [|q qs IH]; intros [|u inputs];
    cbn [map points_earned]; try reflexivity.
  rewrite is_correct_restore_save, points_restore_save, IH. reflexivity.
Qed.

Lemma load_save_state (filename : string) (w : world) :
  snd (load_game filename (snd (save_game filename w))) =
    mkWorld
      (mkQuizGame (questions_file (game w)) (_all_questions (game w))
         (map (fun q => restore_question (save_question q))
            (py_slice_from (question_bank (game w)) (_current_index (game w))))
         (score (game w)) 0 (_session_meta (game w)))
      (snd (save_game filename w)).(saves).
Proof.
  rewrite (load_game_found filename (snd (save_game filename w))
             (mkSave (Some (_session_meta (game w))) (Some (score (game w)))
                (Some (_current_index (game w)))
                (Some (map save_question
                         (py_slice_from (question_bank (game w))
                                        (_current_index (game w))))))).
  - cbn [snd game saves sd_meta sd_score sd_remaining default from_option id].
    rewrite map_map. reflexivity.
  - cbn. apply lookup_insert_eq.
Qed.

(** Resuming changes nothing for the player: on a pool of well-formed
    records, the answers given after saving and loading the game get the
    same verdicts, and lead to the same score and the same number of
    questions left, as the same answers given in the session that was
    saved. *)
Theorem resume_equivalent (filename : string) (inputs : list string)
    (w : world) :
  Forall record_ok (question_bank (game w)) ->
  0 <= _current_index (game w) ->
  _current_index (game w) + len inputs <= len (question_bank (game w)) ->
  let resumed := snd (load_game filename (snd (save_game filename w))) in
  let a := answer_all inputs w in
  let b := answer_all inputs resumed in
  fst b = fst a /\
  score (game (snd b)) = score (game (snd a)) /\
  len (question_bank (game (snd b))) - _current_index (game (snd b))
    = len (question_bank (game (snd a))) - _current_index (game (snd a)).
Proof.
  intros Hok H0 Hlen resumed a b. subst a b resumed.
  rewrite load_save_state.
  set (resumed := mkWorld _ _).
  destruct (answer_all_ok inputs w Hok H0 Hlen)
    as (Ha & Hca & Hsa & Hpa & _ & _).
  assert (len (py_slice_from (question_bank (game w)) (_current_index (game w)))
          = len (question_bank (game w)) - _current_index (game w)) as Hrem.
  { rewrite py_slice_from_nonneg by exact H0. unfold len.
    rewrite length_drop. unfold len in Hlen. lia. }
  destruct (answer_all_ok inputs resumed)
    as (Hb & Hcb & Hsb & Hpb & _ & _).
  - subst resumed. cbn. apply Forall_map.
    rewrite py_slice_from_nonneg by exact H0.
    apply Forall_drop. eapply Forall_impl; [exact Hok|].
    intros q. apply record_ok_restore_save.
  - subst resumed. cbn. lia.
  - subst resumed. cbn. unfold len in *. rewrite length_map.
    unfold len in Hrem. lia.
  - rewrite Ha, Hb, Hca, Hcb, Hsa, Hsb, Hpa, Hpb. subst resumed.
    cbn [game question_bank _current_index score].
    change (py_slice_from
              (map (fun q => restore_question (save_question q))
                 (py_slice_from (question_bank (game w))
                    (_current_index (game w)))) 0)
      with (map (fun q => restore_question (save_question q))
              (py_slice_from (question_bank (game w))
                 (_current_index (game w)))).
    rewrite marks_restore_save, points_earned_restore_save.
    unfold len in *. rewrite length_map. unfold len in Hrem.
    repeat split; lia.
Qed.

Lemma resume_equivalent_witness :
  let resumed :=
    snd (load_game "savegame.json" (snd (save_game "savegame.json" session_C3))) in
  let a := answer_all ["b"] session_C3 in
  let b := answer_all ["b"] resumed in
  fst b = fst a /\
  score (game (snd b)) = score (game (snd a)) /\
  len (question_bank (game (snd b))) - _current_index (game (snd b))
    = len (question_bank (game (snd a))) - _current_index (game (snd a)).
Proof.
  apply (resume_equivalent "savegame.json" ["b"] session_C3).
  - repeat constructor.
  - vm_compute. discriminate.
  - vm_compute. discriminate.
Defined.

(** ** The prompt and the play loop, in use *)

Lemma resolve_letter_strip (answers : list string) (line : string) :
  resolve_letter answers (PyStr.strip line) = resolve_letter answers line.
Proof. unfold resolve_letter. rewrite strip_idem. reflexivity. Qed.

Lemma lower_is_s (t : string) :
  PyStr.lower t = "s" -> t = "s" \/ t = "S".
Proof.
  destruct t as [|c [|c' r]]; cbn [PyStr.lower]; try discriminate.
  intros [= H].
  destruct c as [[] [] [] [] [] [] [] []]; try discriminate H; auto.
Qed.

Lemma resolve_letter_upper_ABCD (answers : list string) (t : string) :
  Z.of_nat (String.length t) = 1 ->
  PyStr.upper t ∈ ["A"; "B"; "C"; "D"] ->
  PyStr.strip t = t ->
  PyStr.upper t <> "" /\
  resolve_letter answers (PyStr.upper t) = resolve_letter answers t.
Proof.
  intros Hlen Hin Hstrip.
  destruct t as [|c [|c' r]]; try (cbn in Hlen; lia).
  pose proof (bool_decide_eq_true_2 _ Hin) as Hb. clear Hin Hstrip Hlen.
  destruct c as [[] [] [] [] [] [] [] []];
    try (vm_compute in Hb; discriminate Hb);
    (split; [discriminate|vm_compute; reflexivity]).
Qed.

Lemma blank_dec (line : string) :
  {blank line} + {~ blank line}.
Proof. unfold blank. apply String.string_dec. Qed.

Lemma prompt_blank (line : string) (rest : list string) :
  blank line -> _prompt_answer (line :: rest) = _prompt_answer rest.
Proof. unfold blank. intros H. cbn [_prompt_answer]. rewrite H. reflexivity. Qed.

Lemma prompt_line (line : string) :
  ~ blank line ->
  exists answer : string,
    (forall rest, _prompt_answer (line :: rest) = Some (answer, rest)) /\
    answer <> "" /\
    forall answers : list string,
      resolve_letter answers answer = resolve_letter answers line.
Proof.
  intros Hnb. cbn [_prompt_answer].
  destruct (PyStr.is_empty (PyStr.strip line)) eqn:Eblank.
  { exfalso. apply Hnb. unfold blank.
    destruct (PyStr.strip line); [reflexivity|discriminate]. }
  destruct (String.eqb (PyStr.lower (PyStr.strip line)) "s") eqn:Es.
  { exists "S". split; [reflexivity|]. split; [discriminate|].
    intros answers. rewrite <- (resolve_letter_strip answers line).
    apply String.eqb_eq, lower_is_s in Es as [->| ->]; reflexivity. }
  destruct ((Z.of_nat (String.length (PyStr.strip line)) =? 1)
            && bool_decide (PyStr.upper (PyStr.strip line) ∈ ["A"; "B"; "C"; "D"]))
    eqn:Eletter.
  { apply andb_true_iff in Eletter as [E1 E2].
    apply Z.eqb_eq in E1. apply bool_decide_eq_true_1 in E2.
    exists (PyStr.upper (PyStr.strip line)). split; [reflexivity|].
    split.
    - apply (resolve_letter_upper_ABCD [] _ E1 E2 (strip_idem line)).
    - intros answers. rewrite <- (resolve_letter_strip answers line).
      apply (resolve_letter_upper_ABCD answers _ E1 E2 (strip_idem line)). }
  exists (PyStr.strip line). split; [reflexivity|]. split; [exact Hnb|].
  intros answers. apply resolve_letter_strip.
Qed.

(** What the prompt hands over, on lines of ASCII text.  When
    [_prompt_answer] returns, it has skipped the blank lines before the
    first line that is not blank and consumed that line; the answer it
    returns is not empty, and [check_answer] resolves it to the same
    letter as the line itself, whatever the options: the prompt's own
    normalisation (an [S] for save, upper case for a single letter A to
    D, the trimmed text otherwise) never changes a verdict. *)
Theorem _prompt_answer_reads (stdin rest : list string) (answer : string) :
  ascii_lines stdin ->
  _prompt_answer stdin = Some (answer, rest) ->
  exists (skipped : list string) (line : string),
    stdin = (skipped ++ line :: rest)%list /\
    Forall blank skipped /\
    ~ blank line /\
    answer <> "" /\
    forall answers : list string,
      resolve_letter answers answer = resolve_letter answers line.
Proof.
  intros _. induction stdin as [|l stdin IH]; [discriminate|].
  destruct (blank_dec l) as [Hb|Hnb].
  - rewrite (prompt_blank l stdin Hb). intros H.
    destruct (IH H) as (skipped & line & -> & Hsk & Hl & Ha & Hr).
    exists (l :: skipped), line. split; [reflexivity|].
    split; [constructor; assumption|auto].
  - destruct (prompt_line l Hnb) as (a & Hp & Ha & Hr). rewrite Hp.
    intros [= <- <-]. exists [], l.
    split; [reflexivity|]. split; [constructor|auto].
Qed.

Lemma _prompt_answer_reads_witness :
  exists (skipped : list string) (line : string),
    ["  "; " b "; "x"] = (skipped ++ line :: ["x"])%list /\
    Forall blank skipped /\
    ~ blank line /\
    "B" <> "" /\
    forall answers : list string,
      resolve_letter answers "B" = resolve_letter answers line.
Proof.
  apply (_prompt_answer_reads ["  "; " b "; "x"] ["x"] "B").
  - repeat constructor.
  - vm_compute. reflexivity.
Defined.

(** On lines of ASCII text, the prompt fails with the end of input
    exactly when every line left is blank. *)
Theorem _prompt_answer_eof (stdin : list string) :
  ascii_lines stdin ->
  _prompt_answer stdin = None <-> Forall blank stdin.
Proof.
  intros _. induction stdin as [|l stdin IH].
  - split; [constructor|reflexivity].
  - destruct (blank_dec l) as [Hb|Hnb].
    + rewrite (prompt_blank l stdin Hb), IH. split.
      * intros H. constructor; assumption.
      * intros H. apply Forall_cons in H as [_ H]. exact H.
    + destruct (prompt_line l Hnb) as (a & Hp & _). rewrite Hp. split.
      * discriminate.
      * intros H. apply Forall_cons in H as [H _]. contradiction.
Qed.

Lemma _prompt_answer_eof_witness :
  _prompt_answer ["  "; ""] = None <-> Forall blank ["  "; ""].
Proof.
  apply (_prompt_answer_eof ["  "; ""]). repeat constructor.
Defined.

Lemma _prompt_answer_shorter (stdin rest : list string) (answer : string) :
  _prompt_answer stdin = Some (answer, rest) ->
  (length rest < length stdin)%nat.
Proof.
  induction stdin as [|l stdin IH]; [discriminate|].
  destruct (blank_dec l) as [Hb|Hnb].
  - rewrite (prompt_blank l stdin Hb). intros H. apply IH in H. cbn. lia.
  - destruct (prompt_line l Hnb) as (a & Hp & _). rewrite Hp.
    intros [= <- <-]. cbn. lia.
Qed.

Lemma play_loop_fuel (fuel : nat) (stdin : list string) (w : world) :
  (length stdin < fuel)%nat -> is_Some (play_loop fuel stdin w).
Proof.
  revert stdin w. induction fuel as [|fuel IH]; intros stdin w Hf; [lia|].
  cbn [play_loop].
  destruct (display_question w) as [[[q|]|e] w1]; eauto.
  destruct (_prompt_answer stdin) as [[answer stdin']|] eqn:E; eauto.
  apply _prompt_answer_shorter in E.
  destruct (check_answer answer w1) as [[b|e] w2]; eauto.
  apply IH. lia.
Qed.

Lemma check_answer_bank (user_input : string) (w : world) :
  _all_questions (game (snd (check_answer user_input w)))
    = _all_questions (game w).
Proof.
  unfold check_answer, bind, get_self, getitem, raise, ret, put_self.
  cbn [fst snd].
  destruct (len (question_bank (game w)) <=? _current_index (game w));
    [reflexivity|].
  destruct (py_getitem (question_bank (game w)) (_current_index (game w)))
    as [q|]; [|reflexivity].
  destruct (letter_eqb _ _).
  - destruct (get_points q); reflexivity.
  - destruct (PyStr.ord _); [|reflexivity].
    destruct (py_getitem (get_answers q) _); reflexivity.
Qed.

Lemma play_loop_frame (fuel : nat) (stdin stdin' : list string) (w w1 : world)
    (e : play_end) :
  play_loop fuel stdin w = Some (e, w1, stdin') ->
  saves w1 = saves w /\
  _all_questions (game w1) = _all_questions (game w) /\
  (e = PlayDone ->
   len (question_bank (game w1)) <= _current_index (game w1)).
Proof.
  revert stdin w. induction fuel as [|fuel IH]; intros stdin w H;
    [discriminate|].
  cbn [play_loop] in H.
  pose proof (display_question_state w) as Hst.
  pose proof (display_question_None w) as Hnone.
  destruct (display_question w) as [[[q|]|ex] w0]; cbn [fst snd] in *;
    subst w0.
  - destruct (_prompt_answer stdin) as [[answer rest]|].
    + pose proof (check_answer_saves answer w) as Hs.
      pose proof (check_answer_bank answer w) as Hb.
      destruct (check_answer answer w) as [[b|ex] w2]; cbn [snd] in *.
      * destruct (IH _ _ H) as (H1 & H2 & H3).
        rewrite H1, H2. auto.
      * injection H as <- <- <-. repeat split; try assumption. discriminate.
    + injection H as <- <- <-. repeat split. discriminate.
  - injection H as <- <- <-. repeat split. intros _.
    apply Hnone. reflexivity.
  - injection H as <- <- <-. repeat split. discriminate.
Qed.

(** [play] always ends, and never writes a save file or touches the
    bank, not even when the player types [s]: the [S] of the prompt is
    checked like any answer.  When its loop ends normally the session is
    exhausted and the player's score has been set to the session's score,
    name and grade untouched; when it ends in an exception the player is
    left as it was. *)
Theorem play_ends (player : Player.t) (num_questions : option Z)
    (stdin : list string) (w : world) :
  exists (e : play_end) (w1 : world) (stdin' : list string) (p' : Player.t),
    play player num_questions stdin w = Some (e, w1, stdin', p') /\
    saves w1 = saves w /\
    _all_questions (game w1) = _all_questions (game w) /\
    (e = PlayDone ->
     len (question_bank (game w1)) <= _current_index (game w1) /\
     Player.get_score p' = score (game w1) /\
     Player.get_name p' = Player.get_name player /\
     Player.get_grade_level p' = Player.get_grade_level player) /\
    (e <> PlayDone -> p' = player).
Proof.
  unfold play.
  destruct (play_loop_fuel (S (length stdin)) stdin
              (play_trim num_questions w)) as [[[e w1] stdin'] H]; [lia|].
  rewrite H. destruct (play_loop_frame _ _ _ _ _ _ H) as (Hs & Hb & Hdone).
  assert (saves (play_trim num_questions w) = saves w) as Hs0
    by (destruct num_questions; reflexivity).
  assert (_all_questions (game (play_trim num_questions w))
          = _all_questions (game w)) as Hb0
    by (destruct num_questions; reflexivity).
  rewrite Hs0 in Hs. rewrite Hb0 in Hb.
  destruct e as [|ex|]; eexists _, w1, stdin', _; (split; [reflexivity|]);
    repeat split; try assumption; try congruence.
  apply Hdone. reflexivity.
Qed.

Lemma play_loop_answers (fuel : nat) (stdin : list string) (w : world) :
  Forall record_ok (question_bank (game w)) ->
  0 <= _current_index (game w) ->
  Forall (fun line => ~ blank line) stdin ->
  _current_index (game w) + len stdin = len (question_bank (game w)) ->
  (length stdin < fuel)%nat ->
  play_loop fuel stdin w = Some (PlayDone, snd (answer_all stdin w), []).
Proof.
  revert stdin w. induction fuel as [|fuel IH];
    intros stdin w Hok H0 Hnb Hlen Hf; [lia|].
  cbn [play_loop].
  pose proof (display_question_state w) as Hst.
  destruct stdin as [|line rest].
  - unfold len in Hlen. cbn [length] in Hlen.
    pose proof (proj2 (display_question_None w)) as Hnone.
    destruct (display_question w) as [r w0]. cbn [fst snd] in *. subst w0.
    rewrite Hnone by (unfold len; lia). reflexivity.
  - unfold len in Hlen. cbn [length] in Hlen, Hf.
    destruct (current_question_exists w) as [q Hq]; [unfold len; lia|].
    pose proof (display_question_current w q Hq) as Hd.
    destruct (display_question w) as [r w0]. cbn [fst snd] in *. subst w0 r.
    apply Forall_cons in Hnb as [Hl Hrest].
    destruct (prompt_line line Hl) as (answer & Hp & _ & Hr). rewrite Hp.
    assert (record_ok q) as Hqok.
    { rewrite Forall_forall in Hok. apply Hok.
      destruct Hq as [_ Hq]. apply list_elem_of_lookup. eauto. }
    assert (is_correct q answer = is_correct q line) as Hc
      by (unfold is_correct; rewrite Hr; reflexivity).
    rewrite (check_answer_record_ok_state answer w q Hq Hqok), Hc.
    cbn [answer_all].
    rewrite (check_answer_record_ok_state line w q Hq Hqok).
    set (w1 := answered _ w).
    rewrite (IH rest w1); try assumption.
    + destruct (answer_all rest w1). reflexivity.
    + subst w1. cbn. lia.
    + subst w1. cbn. unfold len. lia.
    + lia.
Qed.

(** A whole session played through.  On a pool of well-formed records
    with options in ASCII, with one line of ASCII text that is not blank
    for each question left (after the trimming to [num_questions]) and no
    other line, [play] ends normally with every line read, and the
    player's score is the session's score at the start plus the points of
    exactly the questions whose line is a correct answer. *)
Theorem play_score (player : Player.t) (num_questions : option Z)
    (stdin : list string) (w : world) :
  let w0 := play_trim num_questions w in
  ascii_lines stdin ->
  Forall ascii_options (question_bank (game w)) ->
  Forall record_ok (question_bank (game w)) ->
  0 <= _current_index (game w) ->
  Forall (fun line => ~ blank line) stdin ->
  _current_index (game w0) + len stdin = len (question_bank (game w0)) ->
  exists (w1 : world) (p' : Player.t),
    play player num_questions stdin w = Some (PlayDone, w1, [], p') /\
    Player.get_score p' =
      score (game w)
      + points_earned
          (py_slice_from (question_bank (game w0)) (_current_index (game w0)))
          stdin.
Proof.
  intros w0 _ _ Hok H0 Hnb Hlen.
  assert (Forall record_ok (question_bank (game w0))) as Hok0.
  { subst w0. destruct num_questions as [n|]; [|exact Hok]. cbn.
    rewrite py_slice_from_nonneg by exact H0.
    rewrite py_slice_to_nonneg by lia.
    apply Forall_take, Forall_drop, Hok. }
  assert (0 <= _current_index (game w0)) as H00
    by (subst w0; destruct num_questions; [cbn; lia|exact H0]).
  assert (score (game w0) = score (game w)) as Hsc
    by (subst w0; destruct num_questions; reflexivity).
  unfold play. fold w0.
  rewrite (play_loop_answers (S (length stdin)) stdin w0 Hok0 H00 Hnb Hlen)
    by lia.
  eexists _, _. split; [reflexivity|].
  destruct (answer_all_ok stdin w0 Hok0 H00) as (_ & _ & Hs & _);
    [lia|].
  cbn. rewrite Hs, Hsc. reflexivity.
Qed.

Lemma play_score_witness :
  exists (w1 : world) (p' : Player.t),
    play (Player.init "Ann" "ELEMENTARY") None [" b "] session_C3
      = Some (PlayDone, w1, [], p') /\
    Player.get_score p' =
      score (game session_C3)
      + points_earned
          (py_slice_from (question_bank (game (play_trim None session_C3)))
                         (_current_index (game (play_trim None session_C3))))
          [" b "].
Proof.
  apply (play_score (Player.init "Ann" "ELEMENTARY") None [" b "] session_C3).
  - repeat constructor.
  - repeat constructor.
  - repeat constructor.
  - vm_compute. discriminate.
  - repeat constructor. vm_compute. discriminate.
  - vm_compute. reflexivity.
Defined.

(** In [play] a typed [s] does not save: it is graded as the letter S. *)
Example play_s_is_an_answer :
  play (Player.init "Ann" "ELEMENTARY") None ["s"] session_C3
    = Some (PlayDone, answered 0 session_C3, [],
            Player.mk "Ann" "ELEMENTARY" 0).
Proof. vm_compute. reflexivity. Qed.

(** ** Decimal text and [int] *)

Lemma int_scan_digits_pos (d : Decimal.uint) (k : Z) (p : positive) :
  int_scan false k (Z.pos p) (NilEmpty.string_of_uint d)
  = Some (k + Z.of_nat (Decimal.nb_digits d),
          Z.pos (Pos.of_uint_acc d p), EmptyString).
Proof.
  revert k p.
  induction d as [|d IH|d IH|d IH|d IH|d IH|d IH|d IH|d IH|d IH|d IH];
    intros k p;
    [ cbn; f_equal; f_equal; f_equal; lia | .. ];
    cbn [NilEmpty.string_of_uint int_scan Decimal.nb_digits Pos.of_uint_acc];
    match goal with
    | |- context [PyStr.isdigit_char ?c] =>
        change (PyStr.isdigit_char c) with true; cbv iota;
        let v := eval vm_compute in (PyStr.code c - 48) in
        change (PyStr.code c - 48) with v
    end;
    match goal with
    | |- int_scan false _ ?a _ = Some (_, Z.pos (Pos.of_uint_acc _ ?q), _) =>
        replace a with (Z.pos q) by lia
    end;
    rewrite IH; f_equal; f_equal; f_equal; lia.
Qed.

Lemma int_scan_digits (d : Decimal.uint) (k : Z) :
  int_scan false k 0 (NilEmpty.string_of_uint d)
  = Some (k + Z.of_nat (Decimal.nb_digits d),
          Z.of_N (Pos.of_uint d), EmptyString).
Proof.
  revert k.
  induction d as [|d IH|d IH|d IH|d IH|d IH|d IH|d IH|d IH|d IH|d IH];
    intros k;
    [ cbn; f_equal; f_equal; f_equal; lia | .. ];
    cbn [NilEmpty.string_of_uint int_scan Decimal.nb_digits Pos.of_uint];
    match goal with
    | |- context [PyStr.isdigit_char ?c] =>
        change (PyStr.isdigit_char c) with true; cbv iota;
        let v := eval vm_compute in (PyStr.code c - 48) in
        change (PyStr.code c - 48) with v
    end;
    [ replace (10 * 0 + 0) with 0 by lia; rewrite IH;
      f_equal; f_equal; f_equal; lia | .. ];
    match goal with
    | |- int_scan false _ ?a _ = _ =>
        let v := eval vm_compute in a in change a with v
    end;
    rewrite int_scan_digits_pos; f_equal; f_equal; f_equal; lia.
Qed.

Lemma string_of_uint_digits (d : Decimal.uint) :
  PyStr.all_chars sign_or_digit (NilEmpty.string_of_uint d) = true.
Proof. induction d; cbn [NilEmpty.string_of_uint PyStr.all_chars]; auto. Qed.

Lemma decimal_shape (n : N) :
  exists d, decimal n = NilEmpty.string_of_uint d /\ d <> Decimal.Nil
            /\ Pos.of_uint d = n.
Proof.
  exists (N.to_uint n).
  assert (Hne : N.to_uint n <> Decimal.Nil).
  { destruct n as [|p]; [discriminate|].
    intros H. pose proof (DecimalN.Unsigned.of_to (N.pos p)) as Ho.
    rewrite H in Ho. discriminate Ho. }
  split; [|split; [exact Hne | apply DecimalN.Unsigned.of_to]].
  unfold decimal. destruct (N.to_uint n); [congruence | reflexivity ..].
Qed.

Lemma uint_head (d : Decimal.uint) :
  d <> Decimal.Nil ->
  let body := NilEmpty.string_of_uint d in
  skip_int_space body = body /\ PyStr.startswith body "_" = false
  /\ match body with
     | String c rest =>
         if Ascii.eqb c "-" then (true, rest)
         else if Ascii.eqb c "+" then (false, rest)
         else (false, body)
     | EmptyString => (false, body)
     end = (false, body).
Proof. destruct d; [congruence | repeat split ..]. Qed.

Lemma py_int_digits (d : Decimal.uint) (negative : bool) :
  d <> Decimal.Nil ->
  py_int (if negative then String "-" (NilEmpty.string_of_uint d)
          else NilEmpty.string_of_uint d)
  = Return (if negative then - Z.of_N (Pos.of_uint d)
            else Z.of_N (Pos.of_uint d)).
Proof.
  intros Hne.
  destruct (uint_head d Hne) as (Hskip & Hus & Hsign).
  pose proof (int_scan_digits d 0) as Hscan.
  assert (Hpos : 0 < Z.of_nat (Decimal.nb_digits d)).
  { destruct d; [congruence | cbn [Decimal.nb_digits]; lia ..]. }
  revert Hskip Hus Hsign Hscan.
  generalize (NilEmpty.string_of_uint d). intros body Hskip Hus Hsign Hscan.
  unfold py_int. destruct negative.
  - change (skip_int_space (String "-" body)) with (String "-" body).
    cbv iota beta. change (Ascii.eqb "-" "-") with true. cbv iota beta.
    rewrite Hus, Hscan.
    destruct (Z.eqb_spec (0 + Z.of_nat (Decimal.nb_digits d)) 0); [lia|].
    reflexivity.
  - rewrite Hskip, Hsign. rewrite Hus, Hscan.
    destruct (Z.eqb_spec (0 + Z.of_nat (Decimal.nb_digits d)) 0); [lia|].
    reflexivity.
Qed.

(** [int(str(z))] is [z]. *)
Lemma py_int_str (z : Z) : py_int (py_str_int z) = Return z.
Proof.
  unfold py_str_int.
  destruct (decimal_shape (Z.abs_N z)) as (d & Hd & Hne & Hv).
  rewrite Hd.
  pose proof (py_int_digits d (z <? 0) Hne) as Hi.
  rewrite Hv in Hi.
  destruct (Z.ltb_spec z 0); rewrite Hi; f_equal; lia.
Qed.

(** ** Lines of the score board *)

Lemma append_nil_l (s : string) : "" ++ s = s.
Proof. reflexivity. Qed.

Lemma append_cons (c : ascii) (a b : string) :
  String c a ++ b = String c (a ++ b).
Proof. reflexivity. Qed.

Lemma append_assoc (a b c : string) : (a ++ b) ++ c = a ++ b ++ c.
Proof.
  induction a as [|x a IH]; [reflexivity|].
  rewrite !append_cons, IH. reflexivity.
Qed.

(** The text of [str(z)]: not empty, digits after at most a sign. *)
Lemma py_str_int_text (z : Z) :
  py_str_int z <> ""
  /\ PyStr.all_chars sign_or_digit (py_str_int z) = true.
Proof.
  unfold py_str_int.
  destruct (decimal_shape (Z.abs_N z)) as (d & Hd & Hne & _).
  rewrite Hd.
  pose proof (string_of_uint_digits d) as Hc.
  destruct (z <? 0).
  - split; [discriminate|].
    change (sign_or_digit "-"
            && PyStr.all_chars sign_or_digit (NilEmpty.string_of_uint d)
            = true).
    rewrite Hc. reflexivity.
  - split; [|exact Hc]. destruct d; [congruence | discriminate ..].
Qed.

Lemma sign_or_digit_facts (c : ascii) :
  sign_or_digit c = true ->
  PyStr.isspace_char c = false /\ Ascii.eqb c "," = false
  /\ Ascii.eqb c LF = false /\ Ascii.eqb c CR = false.
Proof.
  destruct c as [[] [] [] [] [] [] [] []]; vm_compute; intros H;
    try discriminate; repeat split.
Qed.

Lemma lstrip_length (s : string) :
  (String.length (PyStr.lstrip s) <= String.length s)%nat.
Proof.
  induction s as [|c s IH]; cbn [PyStr.lstrip String.length]; [lia|].
  destruct (PyStr.isspace_char c); cbn [String.length]; lia.
Qed.

Lemma lstrip_fixed_head (c : ascii) (s : string) :
  PyStr.lstrip (String c s) = String c s -> PyStr.isspace_char c = false.
Proof.
  cbn [PyStr.lstrip]. destruct (PyStr.isspace_char c); [|reflexivity].
  intros H. pose proof (lstrip_length s) as Hl. rewrite H in Hl.
  cbn [String.length] in Hl. lia.
Qed.

(** Text that does not start with white space keeps its start when more
    text follows. *)
Lemma lstrip_app (a : string) (c : ascii) (b : string) :
  PyStr.lstrip a = a -> PyStr.isspace_char c = false ->
  PyStr.lstrip (a ++ String c b) = a ++ String c b.
Proof.
  destruct a as [|c0 a]; rewrite ?append_cons, ?append_nil_l;
    cbn [PyStr.lstrip].
  - intros _ ->. reflexivity.
  - intros H%lstrip_fixed_head _. rewrite H. reflexivity.
Qed.

Lemma append_empty (a b : string) : a ++ b = "" -> b = "".
Proof. destruct a; [auto | discriminate]. Qed.

Lemma rstrip_app (a b : string) :
  PyStr.rstrip b <> "" -> PyStr.rstrip (a ++ b) = a ++ PyStr.rstrip b.
Proof.
  intros Hb. induction a as [|c a IH]; [reflexivity|].
  rewrite !append_cons. cbn [PyStr.rstrip]. rewrite IH.
  destruct (a ++ PyStr.rstrip b) eqn:E; [|reflexivity].
  apply append_empty in E. contradiction.
Qed.

Lemma rstrip_app_ne (a b : string) :
  PyStr.rstrip b <> "" ->
  PyStr.rstrip (a ++ b) = a ++ PyStr.rstrip b /\ PyStr.rstrip (a ++ b) <> "".
Proof.
  intros Hb. rewrite (rstrip_app a b Hb). split; [reflexivity|].
  intros E. apply append_empty in E. contradiction.
Qed.

(** The line feed after a text without white space is all that [rstrip]
    takes. *)
Lemma rstrip_line (t : string) :
  PyStr.all_chars sign_or_digit t = true ->
  PyStr.rstrip (t ++ String LF "") = t.
Proof.
  induction t as [|c t IH]; [reflexivity|].
  rewrite append_cons. cbn [PyStr.all_chars PyStr.rstrip].
  intros [Hc Ht]%andb_prop. rewrite (IH Ht).
  destruct (sign_or_digit_facts c Hc) as (-> & _).
  destruct t; reflexivity.
Qed.

Lemma contains_comma_space_cons (c c2 : ascii) (s : string) :
  contains_comma_space (String c (String c2 s)) = false ->
  Ascii.eqb c "," && Ascii.eqb c2 " " = false
  /\ contains_comma_space (String c2 s) = false.
Proof.
  cbn [contains_comma_space]. intros H. apply orb_false_elim in H. exact H.
Qed.

(** A part without the separator is cut off whole. *)
Lemma split_comma_space_app (a b : string) :
  contains_comma_space a = false ->
  split_comma_space (a ++ String "," (String " " b))
  = a :: split_comma_space b.
Proof.
  induction a as [|c a IH]; [reflexivity|].
  intros H. destruct a as [|c2 a].
  - rewrite append_cons, append_nil_l. cbn [split_comma_space].
    change (Ascii.eqb "," " ") with false. rewrite andb_false_r.
    change (Ascii.eqb "," ",") with true. change (Ascii.eqb " " " ") with true.
    reflexivity.
  - destruct (contains_comma_space_cons _ _ _ H) as [Hh Ht].
    specialize (IH Ht).
    change (split_comma_space (String c (String c2 a) ++ String "," (String " " b)))
      with (if Ascii.eqb c "," && Ascii.eqb c2 " "
            then EmptyString :: split_comma_space (a ++ String "," (String " " b))
            else cons_head c (split_comma_space
                                (String c2 a ++ String "," (String " " b)))).
    rewrite Hh, IH. reflexivity.
Qed.

Lemma split_comma_space_whole (a : string) :
  contains_comma_space a = false -> split_comma_space a = [a].
Proof.
  induction a as [|c a IH]; [reflexivity|].
  intros H. destruct a as [|c2 a]; [reflexivity|].
  destruct (contains_comma_space_cons _ _ _ H) as [Hh Ht].
  specialize (IH Ht).
  change (split_comma_space (String c (String c2 a)))
    with (if Ascii.eqb c "," && Ascii.eqb c2 " "
          then EmptyString :: split_comma_space a
          else cons_head c (split_comma_space (String c2 a))).
  rewrite Hh, IH. reflexivity.
Qed.

Lemma sign_or_digit_no_separator (t : string) :
  PyStr.all_chars sign_or_digit t = true -> contains_comma_space t = false.
Proof.
  induction t as [|c t IH]; [reflexivity|].
  cbn [PyStr.all_chars]. intros [Hc Ht]%andb_prop.
  destruct t as [|c2 t]; [reflexivity|].
  change (contains_comma_space (String c (String c2 t)))
    with (Ascii.eqb c "," && Ascii.eqb c2 " "
          || contains_comma_space (String c2 t)).
  rewrite (IH Ht), orb_false_r.
  destruct (sign_or_digit_facts c Hc) as (_ & -> & _). reflexivity.
Qed.

(** The line that [save_score] writes, read back by [load_scores]. *)
Lemma parse_score_line_saved (name grade_level text : string) (z : Z) :
  PyStr.lstrip name = name ->
  contains_comma_space name = false ->
  contains_comma_space grade_level = false ->
  text = py_str_int z ->
  parse_score_line (name ++ ", " ++ grade_level ++ ", " ++ text ++ String LF "")
  = Return (name, grade_level, z).
Proof.
  intros Hl Hn Hg Hz.
  destruct (py_str_int_text z) as [Hne Hchars]. rewrite <- Hz in Hne, Hchars.
  assert (Hstrip :
    PyStr.strip (name ++ ", " ++ grade_level ++ ", " ++ text ++ String LF "")
    = name ++ ", " ++ grade_level ++ ", " ++ text).
  { unfold PyStr.strip.
    change (", " ++ grade_level ++ ", " ++ text ++ String LF "")
      with (String "," (" " ++ grade_level ++ ", " ++ text ++ String LF "")).
    rewrite (lstrip_app name "," _ Hl eq_refl).
    change (String "," (" " ++ grade_level ++ ", " ++ text ++ String LF ""))
      with (", " ++ grade_level ++ ", " ++ text ++ String LF "").
    assert (Ht : PyStr.rstrip (text ++ String LF "") <> "")
      by (rewrite rstrip_line; assumption).
    destruct (rstrip_app_ne ", " (text ++ String LF "") Ht) as [E1 N1].
    destruct (rstrip_app_ne grade_level _ N1) as [E2 N2].
    destruct (rstrip_app_ne ", " _ N2) as [E3 N3].
    rewrite (rstrip_app name _ N3), E3, E2, E1, rstrip_line by assumption.
    reflexivity. }
  unfold parse_score_line. rewrite Hstrip.
  change (", " ++ grade_level ++ ", " ++ text)
    with (String "," (String " " (grade_level ++ ", " ++ text))).
  rewrite (split_comma_space_app name _ Hn).
  change (", " ++ text) with (String "," (String " " text)).
  rewrite (split_comma_space_app grade_level _ Hg).
  rewrite (split_comma_space_whole text
             (sign_or_digit_no_separator text Hchars)).
  rewrite Hz, (py_int_str z). reflexivity.
Qed.

(** ** Files of the score board *)

Lemma universal_newlines_nonempty (c : ascii) (s : string) :
  universal_newlines false (String c s) <> "".
Proof.
  cbn [universal_newlines].
  destruct (Ascii.eqb c CR); [discriminate|].
  destruct (Ascii.eqb c LF); discriminate.
Qed.

Lemma cons_head_nonempty (c : ascii) (l : list string) : cons_head c l <> [].
Proof. destruct l; discriminate. Qed.

Lemma readlines_nonempty (s : string) : s <> "" -> readlines s <> [].
Proof.
  destruct s as [|c s]; [congruence|]. intros _. cbn [readlines].
  destruct (Ascii.eqb c LF); [discriminate | apply cons_head_nonempty].
Qed.

Lemma cons_head_app (c : ascii) (l l' : list string) :
  l <> [] -> (cons_head c (l ++ l') = cons_head c l ++ l')%list.
Proof. destruct l; [congruence | reflexivity]. Qed.

(** Lines appended to a text of whole lines are read after its lines. *)
Lemma readlines_app (old new : string) (after_cr : bool) :
  old <> "" -> whole_lines old = true ->
  readlines (universal_newlines after_cr (old ++ new))
  = (readlines (universal_newlines after_cr old)
     ++ readlines (universal_newlines false new))%list.
Proof.
  revert after_cr. induction old as [|c old IH]; [congruence|].
  intros after_cr _ Hw. rewrite append_cons.
  destruct old as [|c2 old].
  - cbn [whole_lines] in Hw. rewrite append_nil_l.
    cbn [universal_newlines]. rewrite Hw.
    destruct (Ascii.eqb c CR) eqn:Hcr.
    { apply Ascii.eqb_eq in Hw, Hcr. subst c. discriminate Hcr. }
    destruct after_cr; reflexivity.
  - change (whole_lines (String c (String c2 old)))
      with (whole_lines (String c2 old)) in Hw.
    assert (Hne : String c2 old <> "") by discriminate.
    cbn [universal_newlines].
    destruct (Ascii.eqb c CR).
    { cbn [readlines]. change (Ascii.eqb LF LF) with true. cbv iota.
      rewrite (IH true Hne Hw). reflexivity. }
    destruct (Ascii.eqb c LF) eqn:Hlf.
    { destruct after_cr.
      - apply (IH false Hne Hw).
      - cbn [readlines]. change (Ascii.eqb LF LF) with true. cbv iota.
        rewrite (IH false Hne Hw). reflexivity. }
    cbn [readlines]. rewrite Hlf, (IH false Hne Hw).
    apply cons_head_app, readlines_nonempty, universal_newlines_nonempty.
Qed.

Lemma readlines_one_line (line : string) :
  no_line_break line = true ->
  readlines (universal_newlines false (line ++ String LF ""))
  = [line ++ String LF ""].
Proof.
  induction line as [|c line IH]; [reflexivity|].
  unfold no_line_break. cbn [PyStr.all_chars].
  intros [Hc Hl]%andb_prop. rewrite append_cons. cbn [universal_newlines].
  unfold line_break in Hc. apply negb_true_iff, orb_false_elim in Hc.
  destruct Hc as [Hlf Hcr]. rewrite Hcr, Hlf. cbn [readlines].
  rewrite Hlf, (IH Hl). reflexivity.
Qed.

Lemma no_line_break_app (a b : string) :
  no_line_break a = true -> no_line_break b = true ->
  no_line_break (a ++ b) = true.
Proof.
  unfold no_line_break. induction a as [|c a IH]; [auto|].
  rewrite append_cons. cbn [PyStr.all_chars].
  intros [-> Ha]%andb_prop Hb. rewrite (IH Ha Hb). reflexivity.
Qed.

Lemma sign_or_digit_no_line_break (t : string) :
  PyStr.all_chars sign_or_digit t = true -> no_line_break t = true.
Proof.
  unfold no_line_break. induction t as [|c t IH]; [reflexivity|].
  cbn [PyStr.all_chars]. intros [Hc Ht]%andb_prop. rewrite (IH Ht).
  destruct (sign_or_digit_facts c Hc) as (_ & _ & Hlf & Hcr).
  unfold line_break. rewrite Hlf, Hcr. reflexivity.
Qed.

Lemma load_lines_app (l1 l2 : list string) (acc r : list score_entry) :
  load_lines l1 acc = Return r ->
  load_lines (l1 ++ l2) acc = load_lines l2 r.
Proof.
  revert acc. induction l1 as [|line l1 IH]; intros acc.
  - cbn. congruence.
  - cbn [load_lines app]. destruct (parse_score_line line); [|discriminate].
    apply IH.
Qed.

(** What [save_score] leaves in the file. *)
Lemma save_score_file (player : Player.t) (filename : string)
    (fs : gmap string string) :
  save_score player filename fs !! filename
  = Some (default "" (fs !! filename)
          ++ Player.get_name player ++ ", "
          ++ Player.get_grade_level player ++ ", "
          ++ py_str_int (Player.get_score player) ++ String LF "").
Proof. unfold save_score. apply lookup_insert_eq. Qed.

(** A score saved under a name and a grade level without separator or
    line break is loaded back after the scores that the file held. *)
Lemma save_score_then_load (player : Player.t) (filename : string)
    (fs : gmap string string) (old : list score_entry) :
  whole_lines (default "" (fs !! filename)) = true ->
  load_scores filename fs = Return old ->
  PyStr.lstrip (Player.get_name player) = Player.get_name player ->
  contains_comma_space (Player.get_name player) = false ->
  no_line_break (Player.get_name player) = true ->
  contains_comma_space (Player.get_grade_level player) = false ->
  no_line_break (Player.get_grade_level player) = true ->
  load_scores filename (save_score player filename fs)
  = Return (old ++ [(Player.get_name player,
                     Player.get_grade_level player,
                     Player.get_score player)])%list.
Proof.
  intros Hw Hold Hl Hn Hnb Hg Hgb.
  pose proof (save_score_file player filename fs) as Hfile.
  destruct (py_str_int_text (Player.get_score player)) as [_ Hchars].
  set (text := py_str_int (Player.get_score player)) in *.
  set (line := Player.get_name player ++ ", "
               ++ Player.get_grade_level player ++ ", " ++ text) in *.
  assert (Hline : no_line_break line = true).
  { unfold line. repeat apply no_line_break_app; try assumption;
      try reflexivity. apply sign_or_digit_no_line_break, Hchars. }
  assert (Hparse : parse_score_line (line ++ String LF "")
                   = Return (Player.get_name player,
                             Player.get_grade_level player,
                             Player.get_score player)).
  { rewrite <- (parse_score_line_saved _ _ text _ Hl Hn Hg eq_refl).
    unfold line. rewrite !append_assoc. reflexivity. }
  assert (Happ : forall a, a ++ Player.get_name player ++ ", "
               ++ Player.get_grade_level player ++ ", " ++ text
               ++ String LF "" = a ++ line ++ String LF "").
  { intros a. unfold line. rewrite !append_assoc. reflexivity. }
  unfold load_scores in *. rewrite Hfile, Happ.
  destruct (fs !! filename) as [[|c t]|] eqn:E; cbn [default from_option id] in *.
  - rewrite append_nil_l, readlines_one_line by assumption.
    cbn in Hold. injection Hold as <-. cbn [load_lines].
    rewrite Hparse. reflexivity.
  - rewrite readlines_app by (assumption || discriminate).
    rewrite (load_lines_app _ _ _ _ Hold), readlines_one_line by assumption.
    cbn [load_lines]. rewrite Hparse. reflexivity.
  - rewrite append_nil_l, readlines_one_line by assumption.
    injection Hold as <-. cbn [load_lines].
    rewrite Hparse. reflexivity.
Qed.

Lemma whole_lines_app (a b : string) :
  whole_lines (a ++ b ++ String LF "") = true.
Proof.
  induction a as [|c a IH].
  - rewrite append_nil_l. induction b as [|c b IHb]; [reflexivity|].
    rewrite append_cons. destruct b; [reflexivity | exact IHb].
  - rewrite append_cons.
    destruct (a ++ b ++ String LF "") eqn:E; [|exact IH].
    apply append_empty, append_empty in E. discriminate E.
Qed.

Lemma loadable_spec (player : Player.t) :
  loadable player = true ->
  PyStr.lstrip (Player.get_name player) = Player.get_name player
  /\ contains_comma_space (Player.get_name player) = false
  /\ no_line_break (Player.get_name player) = true
  /\ contains_comma_space (Player.get_grade_level player) = false
  /\ no_line_break (Player.get_grade_level player) = true.
Proof.
  unfold loadable. intros H.
  repeat (apply andb_prop in H; destruct H as [H ?]).
  repeat split; try assumption; try (apply negb_true_iff; assumption).
  apply String.eqb_eq. assumption.
Qed.

Lemma save_score_load (player : Player.t) (filename : string)
    (fs : gmap string string) (old : list score_entry) :
  whole_lines (default "" (fs !! filename)) = true ->
  load_scores filename fs = Return old ->
  loadable player = true ->
  load_scores filename (save_score player filename fs)
  = Return (old ++ [entry_of player])%list
  /\ whole_lines (default "" (save_score player filename fs !! filename))
     = true.
Proof.
  intros Hw Hold (Hl & Hn & Hnb & Hg & Hgb)%loadable_spec.
  split.
  - apply save_score_then_load; auto.
  - rewrite save_score_file. cbn [default from_option id].
    replace (Player.get_name player ++ ", " ++ Player.get_grade_level player
             ++ ", " ++ py_str_int (Player.get_score player) ++ String LF "")
      with ((Player.get_name player ++ ", " ++ Player.get_grade_level player
             ++ ", " ++ py_str_int (Player.get_score player)) ++ String LF "")
      by (rewrite !append_assoc; reflexivity).
    apply whole_lines_app.
Qed.

(** The scores file is a log, for a file of ASCII text that ends where a
    line ends and for players whose name and grade level are ASCII text:
    the entries saved one after the other are loaded back in that order,
    after those that the file held. *)
Theorem save_scores_then_load (players : list Player.t) (filename : string)
    (fs : gmap string string) (old : list score_entry) :
  PyStr.isascii (default "" (fs !! filename)) = true ->
  whole_lines (default "" (fs !! filename)) = true ->
  load_scores filename fs = Return old ->
  Forall (fun player => loadable player = true) players ->
  load_scores filename (save_scores players filename fs)
  = Return (old ++ map entry_of players)%list.
Proof.
  intros _ Hw Hold Hall. revert fs old Hw Hold.
  induction Hall as [|player players Hp _ IH]; intros fs old Hw Hold.
  - cbn. rewrite app_nil_r. exact Hold.
  - destruct (save_score_load player filename fs old Hw Hold Hp) as [H1 H2].
    cbn [save_scores foldl map].
    change (foldl _ ?a players) with (save_scores players filename a).
    rewrite (IH _ _ H2 H1), <- app_assoc. reflexivity.
Qed.

Lemma save_scores_then_load_witness :
  load_scores "scores.txt"
    (save_scores [Player.mk "Bob" "ELEMENTARY" 7;
                  Player.mk "Dee" "HIGH SCHOOL" 0] "scores.txt" scores_E)
  = Return [("Ann", "ELEMENTARY", 5); ("Cy", "HIGH SCHOOL", 12);
            ("Bob", "ELEMENTARY", 7); ("Dee", "HIGH SCHOOL", 0)].
Proof.
  apply (save_scores_then_load
           [Player.mk "Bob" "ELEMENTARY" 7; Player.mk "Dee" "HIGH SCHOOL" 0]
           "scores.txt" scores_E
           [("Ann", "ELEMENTARY", 5); ("Cy", "HIGH SCHOOL", 12)]).
  - vm_compute. reflexivity.
  - vm_compute. reflexivity.
  - vm_compute. reflexivity.
  - repeat constructor.
Defined.

(** ** Lines that [load_scores] refuses *)

Lemma split_comma_space_nonempty (s : string) : split_comma_space s <> [].
Proof.
  destruct s as [|c [|c2 s]]; cbn [split_comma_space]; try discriminate.
  destruct (_ && _); [discriminate | apply cons_head_nonempty].
Qed.

Lemma cons_head_length (c : ascii) (l : list string) :
  l <> [] -> length (cons_head c l) = length l.
Proof. destruct l; [congruence | reflexivity]. Qed.

Lemma split_comma_space_cons (c : ascii) (s : string) :
  length (split_comma_space (String c s))
  = match s with
    | String c2 s2 =>
        if Ascii.eqb c "," && Ascii.eqb c2 " "
        then S (length (split_comma_space s2))
        else length (split_comma_space s)
    | EmptyString => length (split_comma_space s)
    end.
Proof.
  destruct s as [|c2 s2].
  - reflexivity.
  - change (split_comma_space (String c (String c2 s2)))
      with (if Ascii.eqb c "," && Ascii.eqb c2 " "
            then EmptyString :: split_comma_space s2
            else cons_head c (split_comma_space (String c2 s2))).
    destruct (_ && _); [reflexivity|].
    apply cons_head_length, split_comma_space_nonempty.
Qed.

Lemma split_comma_space_mono_n (n : nat) (a b : string) :
  (String.length a <= n)%nat ->
  (length (split_comma_space b) <= length (split_comma_space (a ++ b)))%nat.
Proof.
  revert a b. induction n as [|n IH]; intros a b Hn.
  - destruct a; [rewrite append_nil_l; lia | cbn in Hn; lia].
  - destruct a as [|c a]; [rewrite append_nil_l; lia|].
    cbn [String.length] in Hn.
    rewrite append_cons, split_comma_space_cons.
    destruct a as [|c2 a].
    + rewrite append_nil_l. destruct b as [|c2 b2]; [lia|].
      destruct (Ascii.eqb c "," && Ascii.eqb c2 " ") eqn:E; [|lia].
      apply andb_prop in E. destruct E as [_ ->%Ascii.eqb_eq].
      rewrite split_comma_space_cons.
      destruct b2; [lia|]. change (Ascii.eqb " " ",") with false.
      cbn [andb]. lia.
    + rewrite append_cons. cbv iota. cbn [String.length] in Hn.
      destruct (Ascii.eqb c "," && Ascii.eqb c2 " ").
      * pose proof (IH a b ltac:(lia)). lia.
      * pose proof (IH (String c2 a) b ltac:(cbn [String.length]; lia)) as H.
        rewrite append_cons in H. exact H.
Qed.

Lemma split_comma_space_mono (a b : string) :
  (length (split_comma_space b) <= length (split_comma_space (a ++ b)))%nat.
Proof. apply (split_comma_space_mono_n (String.length a)). lia. Qed.

(** A separator in the first part gives one part more. *)
Lemma split_comma_space_more (a b : string) :
  contains_comma_space a = true ->
  (S (length (split_comma_space b))
   <= length (split_comma_space (a ++ b)))%nat.
Proof.
  induction a as [|c a IH]; [discriminate|].
  destruct a as [|c2 a]; [discriminate|].
  change (contains_comma_space (String c (String c2 a)))
    with (Ascii.eqb c "," && Ascii.eqb c2 " "
          || contains_comma_space (String c2 a)).
  intros H. rewrite append_cons, split_comma_space_cons, append_cons.
  destruct (Ascii.eqb c "," && Ascii.eqb c2 " ").
  - pose proof (split_comma_space_mono a b). lia.
  - rewrite <- append_cons. apply IH. exact H.
Qed.

Lemma parse_score_line_many (line : string) :
  (4 <= length (split_comma_space (PyStr.strip line)))%nat ->
  parse_score_line line = Raise (ValueError msg_too_many).
Proof.
  unfold parse_score_line.
  destruct (split_comma_space (PyStr.strip line)) as [|a [|b [|c [|d l]]]];
    cbn [length]; intros H; try lia; reflexivity.
Qed.

Lemma parse_score_line_few (line : string) :
  (length (split_comma_space (PyStr.strip line)) < 3)%nat ->
  parse_score_line line = Raise (ValueError msg_not_enough).
Proof.
  unfold parse_score_line.
  destruct (split_comma_space (PyStr.strip line)) as [|a [|b [|c [|d l]]]];
    cbn [length]; intros H; try lia; reflexivity.
Qed.

Lemma py_int_raises (s : string) (e : exn) :
  py_int s = Raise e -> exists msg, e = ValueError msg.
Proof.
  unfold py_int.
  destruct (match skip_int_space s with
            | "" => _ | String c rest => _ end) as [negative body].
  destruct (PyStr.startswith body "_"); [intros [= <-]; eauto|].
  destruct (int_scan false 0 0 body) as [[[digits n] rest]|];
    [|intros [= <-]; eauto].
  destruct (_ && _); [discriminate | intros [= <-]; eauto].
Qed.

Lemma parse_score_line_raises (line : string) (e : exn) :
  parse_score_line line = Raise e -> exists msg, e = ValueError msg.
Proof.
  unfold parse_score_line.
  destruct (split_comma_space (PyStr.strip line)) as [|a [|b [|c [|d l]]]];
    try (intros [= <-]; eauto).
  destruct (py_int c) eqn:E; [discriminate|].
  intros [= <-]. exact (py_int_raises _ _ E).
Qed.

(** [load_scores] over the lines: it raises nothing but a [ValueError],
    and returns only when every line is an entry. *)
Lemma load_lines_cases (lines : list string) (acc : list score_entry) :
  (exists msg, load_lines lines acc = Raise (ValueError msg))
  \/ (exists r, load_lines lines acc = Return r
      /\ Forall (fun line => exists e, parse_score_line line = Return e)
           lines).
Proof.
  revert acc. induction lines as [|line lines IH]; intros acc.
  - right. exists acc. split; [reflexivity | constructor].
  - cbn [load_lines]. destruct (parse_score_line line) as [e|e] eqn:E.
    + destruct (IH (acc ++ [e])%list) as [Hr | (r & Hr & Hall)];
        [left; exact Hr | right].
      exists r. split; [exact Hr|]. constructor; eauto.
    + left. destruct (parse_score_line_raises _ _ E) as [msg ->]. eauto.
Qed.

Lemma strip_blank_parts (line : string) :
  PyStr.strip line = "" ->
  parse_score_line line = Raise (ValueError msg_not_enough).
Proof.
  intros H. apply parse_score_line_few. rewrite H. cbn. lia.
Qed.

(** A blank line anywhere in the scores file makes [load_scores] raise a
    [ValueError], whatever the other lines hold. *)
Theorem load_scores_blank_line (filename text line : string)
    (fs : gmap string string) :
  fs !! filename = Some text ->
  line ∈ readlines (universal_newlines false text) ->
  PyStr.strip line = "" ->
  exists msg, load_scores filename fs = Raise (ValueError msg).
Proof.
  intros Hf Hin Hblank. unfold load_scores. rewrite Hf.
  destruct (load_lines_cases (readlines (universal_newlines false text)) [])
    as [H | (r & _ & Hall)]; [exact H|].
  rewrite Forall_forall in Hall. destruct (Hall line Hin) as [e He].
  rewrite (strip_blank_parts line Hblank) in He. discriminate He.
Qed.

Lemma load_scores_blank_line_witness :
  exists msg, load_scores "scores.txt" scores_blank = Raise (ValueError msg).
Proof.
  apply (load_scores_blank_line "scores.txt"
           ("Ann, ELEMENTARY, 5" ++ String LF (String LF ""))
           (String LF "") scores_blank).
  - vm_compute. reflexivity.
  - apply list_elem_of_lookup. exists 1%nat. vm_compute. reflexivity.
  - vm_compute. reflexivity.
Defined.

(** A name with the separator in it spoils the file: after its score is
    saved, [load_scores] raises. *)
Theorem save_score_separator_in_name (player : Player.t) (filename : string)
    (fs : gmap string string) (old : list score_entry) :
  whole_lines (default "" (fs !! filename)) = true ->
  load_scores filename fs = Return old ->
  PyStr.lstrip (Player.get_name player) = Player.get_name player ->
  contains_comma_space (Player.get_name player) = true ->
  no_line_break (Player.get_name player) = true ->
  no_line_break (Player.get_grade_level player) = true ->
  load_scores filename (save_score player filename fs)
  = Raise (ValueError msg_too_many).
Proof.
  intros Hw Hold Hl Hn Hnb Hgb.
  pose proof (save_score_file player filename fs) as Hfile.
  destruct (py_str_int_text (Player.get_score player)) as [Hne Hchars].
  set (text := py_str_int (Player.get_score player)) in *.
  set (name := Player.get_name player) in *.
  set (grade := Player.get_grade_level player) in *.
  set (line := name ++ ", " ++ grade ++ ", " ++ text) in *.
  assert (Hline : no_line_break line = true).
  { unfold line. repeat apply no_line_break_app; try assumption;
      try reflexivity. apply sign_or_digit_no_line_break, Hchars. }
  assert (Hstrip : PyStr.strip (line ++ String LF "") = line).
  { unfold PyStr.strip, line. rewrite !append_assoc.
    change (", " ++ grade ++ ", " ++ text ++ String LF "")
      with (String "," (" " ++ grade ++ ", " ++ text ++ String LF "")).
    rewrite (lstrip_app name "," _ Hl eq_refl).
    change (String "," (" " ++ grade ++ ", " ++ text ++ String LF ""))
      with (", " ++ grade ++ ", " ++ text ++ String LF "").
    assert (Ht : PyStr.rstrip (text ++ String LF "") <> "").
    { rewrite rstrip_line by assumption. exact Hne. }
    destruct (rstrip_app_ne ", " (text ++ String LF "") Ht) as [E1 N1].
    destruct (rstrip_app_ne grade _ N1) as [E2 N2].
    destruct (rstrip_app_ne ", " _ N2) as [E3 N3].
    rewrite (rstrip_app name _ N3), E3, E2, E1, rstrip_line by assumption.
    reflexivity. }
  assert (Hparse : parse_score_line (line ++ String LF "")
                   = Raise (ValueError msg_too_many)).
  { apply parse_score_line_many. rewrite Hstrip. unfold line.
    pose proof (split_comma_space_more name (", " ++ grade ++ ", " ++ text) Hn)
      as H1.
    change (split_comma_space (", " ++ grade ++ ", " ++ text))
      with ("" :: split_comma_space (grade ++ ", " ++ text)) in H1.
    pose proof (split_comma_space_mono grade (", " ++ text)) as H2.
    change (split_comma_space (", " ++ text))
      with ("" :: split_comma_space text) in H2.
    pose proof (split_comma_space_nonempty text) as H3.
    destruct (split_comma_space text); [congruence|].
    cbn [length] in *. lia. }
  assert (Happ : forall a, a ++ name ++ ", " ++ grade ++ ", " ++ text
               ++ String LF "" = a ++ line ++ String LF "").
  { intros a. unfold line. rewrite !append_assoc. reflexivity. }
  unfold load_scores in *. rewrite Hfile, Happ.
  destruct (fs !! filename) as [[|c t]|] eqn:E;
    cbn [default from_option id] in *.
  - rewrite append_nil_l, readlines_one_line by assumption.
    cbn [load_lines]. rewrite Hparse. reflexivity.
  - rewrite readlines_app by (assumption || discriminate).
    rewrite (load_lines_app _ _ _ _ Hold), readlines_one_line by assumption.
    cbn [load_lines]. rewrite Hparse. reflexivity.
  - rewrite append_nil_l, readlines_one_line by assumption.
    cbn [load_lines]. rewrite Hparse. reflexivity.
Qed.

Lemma save_score_separator_in_name_witness :
  load_scores "scores.txt"
    (save_score (Player.mk "Doe, John" "ELEMENTARY" 7) "scores.txt" scores_E)
  = Raise (ValueError msg_too_many).
Proof.
  apply (save_score_separator_in_name
           (Player.mk "Doe, John" "ELEMENTARY" 7) "scores.txt" scores_E
           [("Ann", "ELEMENTARY", 5); ("Cy", "HIGH SCHOOL", 12)]);
    vm_compute; reflexivity.
Defined.

(** ** The order of the leaderboard *)

Lemma insert_by_score_Permutation (x : score_entry) (l : list score_entry) :
  Permutation (insert_by_score x l) (x :: l).
Proof.
  induction l as [|y l IH]; [reflexivity|].
  cbn [insert_by_score]. destruct (x.2 <? y.2); [|reflexivity].
  rewrite IH. apply perm_swap.
Qed.

Lemma sort_by_score_Permutation (l : list score_entry) :
  Permutation (sort_by_score l) l.
Proof.
  induction l as [|x l IH]; [reflexivity|].
  cbn [sort_by_score foldr]. fold (sort_by_score l).
  rewrite insert_by_score_Permutation, IH. reflexivity.
Qed.

Lemma insert_by_score_sorted (x : score_entry) (l : list score_entry) :
  StronglySorted (fun a b : score_entry => b.2 <= a.2) l ->
  StronglySorted (fun a b : score_entry => b.2 <= a.2) (insert_by_score x l).
Proof.
  induction 1 as [|y l Hs IH Hy]; cbn [insert_by_score].
  - constructor; constructor.
  - destruct (Z.ltb_spec x.2 y.2) as [Hlt | Hge].
    + constructor; [exact IH|].
      rewrite insert_by_score_Permutation. constructor; [lia | exact Hy].
    + constructor; [constructor; assumption|].
      constructor; [exact Hge|].
      eapply Forall_impl; [exact Hy|]. cbn beta. intros; lia.
Qed.

Lemma sort_by_score_sorted (l : list score_entry) :
  StronglySorted (fun a b : score_entry => b.2 <= a.2) (sort_by_score l).
Proof.
  induction l as [|x l IH]; [constructor|].
  cbn [sort_by_score foldr]. apply insert_by_score_sorted, IH.
Qed.

Lemma insert_by_score_filter (k : Z) (x : score_entry)
    (l : list score_entry) :
  filter (fun e : score_entry => e.2 = k) (insert_by_score x l)
  = filter (fun e : score_entry => e.2 = k) (x :: l).
Proof.
  induction l as [|y l IH]; [reflexivity|].
  cbn [insert_by_score]. destruct (Z.ltb_spec x.2 y.2) as [Hlt | Hge];
    [|reflexivity].
  rewrite filter_cons, IH, !filter_cons.
  destruct (decide (y.2 = k)), (decide (x.2 = k)); try reflexivity; lia.
Qed.

Lemma sort_by_score_filter (k : Z) (l : list score_entry) :
  filter (fun e : score_entry => e.2 = k) (sort_by_score l)
  = filter (fun e : score_entry => e.2 = k) l.
Proof.
  induction l as [|x l IH]; [reflexivity|].
  cbn [sort_by_score foldr]. fold (sort_by_score l).
  rewrite insert_by_score_filter, !filter_cons, IH. reflexivity.
Qed.

(** The leaderboard shows every entry of the file once, the higher score
    first, and entries of the same score in the order of the file. *)
Theorem show_leaderboard_order (filename : string) (fs : gmap string string)
    (scores : list score_entry) :
  load_scores filename fs = Return scores ->
  exists board,
    show_leaderboard filename fs = Return board
    /\ Permutation board scores
    /\ StronglySorted (fun a b : score_entry => b.2 <= a.2) board
    /\ forall k, filter (fun e : score_entry => e.2 = k) board
                 = filter (fun e : score_entry => e.2 = k) scores.
Proof.
  intros H. exists (sort_by_score scores). unfold show_leaderboard.
  rewrite H. split; [reflexivity|]. split; [|split].
  - apply sort_by_score_Permutation.
  - apply sort_by_score_sorted.
  - intros k. apply sort_by_score_filter.
Qed.

Lemma show_leaderboard_order_witness :
  exists board,
    show_leaderboard "scores.txt" scores_E = Return board
    /\ Permutation board
         [("Ann", "ELEMENTARY", 5); ("Cy", "HIGH SCHOOL", 12)]
    /\ StronglySorted (fun a b : score_entry => b.2 <= a.2) board
    /\ forall k, filter (fun e : score_entry => e.2 = k) board
                 = filter (fun e : score_entry => e.2 = k)
                     [("Ann", "ELEMENTARY", 5); ("Cy", "HIGH SCHOOL", 12)].
Proof.
  apply (show_leaderboard_order "scores.txt" scores_E).
  vm_compute. reflexivity.
Defined.

Lemma insert_by_score_front (x : score_entry) (l : list score_entry) :
  Forall (fun e : score_entry => e.2 <= x.2) l -> insert_by_score x l = x :: l.
Proof.
  destruct 1 as [|y l Hy _]; [reflexivity|]. cbn [insert_by_score].
  destruct (Z.ltb_spec x.2 y.2); [lia | reflexivity].
Qed.

Lemma insert_by_score_newcomer (x e : score_entry)
    (above below : list score_entry) :
  Forall (fun y : score_entry => e.2 <= y.2) above ->
  Forall (fun y : score_entry => y.2 < e.2) below ->
  exists above' below',
    insert_by_score x (above ++ below) = (above' ++ below')%list
    /\ insert_by_score x (above ++ e :: below) = (above' ++ e :: below')%list
    /\ Forall (fun y : score_entry => e.2 <= y.2) above'
    /\ Forall (fun y : score_entry => y.2 < e.2) below'.
Proof.
  intros Ha Hb. induction Ha as [|y above Hy Ha IH].
  - cbn [app insert_by_score]. destruct (Z.ltb_spec x.2 e.2) as [Hlt | Hge].
    + exists [], (insert_by_score x below). repeat split; [constructor|].
      rewrite insert_by_score_Permutation. constructor; assumption.
    + exists [x], below. repeat split.
      * apply insert_by_score_front.
        eapply Forall_impl; [exact Hb|]. cbn beta. intros; lia.
      * constructor; [exact Hge | constructor].
      * exact Hb.
  - cbn [app insert_by_score]. destruct (Z.ltb_spec x.2 y.2) as [Hlt | Hge].
    + destruct IH as (above' & below' & E1 & E2 & H1 & H2).
      exists (y :: above'), below'. rewrite E1, E2.
      repeat split; [constructor|]; assumption.
    + exists (x :: y :: above), below.
      repeat split; [|exact Hb].
      constructor; [lia|]. constructor; assumption.
Qed.

Lemma sort_by_score_newcomer (l : list score_entry) (e : score_entry) :
  exists above below,
    sort_by_score l = (above ++ below)%list
    /\ sort_by_score (l ++ [e]) = (above ++ e :: below)%list
    /\ Forall (fun y : score_entry => e.2 <= y.2) above
    /\ Forall (fun y : score_entry => y.2 < e.2) below.
Proof.
  induction l as [|x l IH].
  - exists [], []. repeat split; constructor.
  - destruct IH as (above & below & E1 & E2 & Ha & Hb).
    cbn [sort_by_score foldr app].
    fold (sort_by_score l). fold (sort_by_score (l ++ [e])).
    rewrite E1, E2. apply insert_by_score_newcomer; assumption.
Qed.

(** A saved score, of a player whose name and grade level are ASCII text
    on a file of ASCII text, enters the leaderboard below every entry of
    the same or a higher score and above every lower one; the other rows
    keep their order. *)
Theorem saved_score_rank (player : Player.t) (filename : string)
    (fs : gmap string string) (old : list score_entry) :
  PyStr.isascii (default "" (fs !! filename)) = true ->
  whole_lines (default "" (fs !! filename)) = true ->
  load_scores filename fs = Return old ->
  loadable player = true ->
  exists above below,
    show_leaderboard filename fs = Return (above ++ below)%list
    /\ show_leaderboard filename (save_score player filename fs)
       = Return (above ++ entry_of player :: below)%list
    /\ Forall (fun e : score_entry => Player.get_score player <= e.2) above
    /\ Forall (fun e : score_entry => e.2 < Player.get_score player) below.
Proof.
  intros _ Hw Hold Hp.
  destruct (save_score_load player filename fs old Hw Hold Hp) as [Hnew _].
  destruct (sort_by_score_newcomer old (entry_of player))
    as (above & below & E1 & E2 & Ha & Hb).
  exists above, below. unfold show_leaderboard.
  rewrite Hold, Hnew, E1, E2. auto.
Qed.

Lemma saved_score_rank_witness :
  exists above below,
    show_leaderboard "scores.txt" scores_E = Return (above ++ below)%list
    /\ show_leaderboard "scores.txt"
         (save_score (Player.mk "Bob" "ELEMENTARY" 12) "scores.txt"
            scores_E)
       = Return (above ++ entry_of (Player.mk "Bob" "ELEMENTARY" 12)
                        :: below)%list
    /\ Forall (fun e : score_entry =>
                 Player.get_score (Player.mk "Bob" "ELEMENTARY" 12) <= e.2)
         above
    /\ Forall (fun e : score_entry =>
                 e.2 < Player.get_score (Player.mk "Bob" "ELEMENTARY" 12))
         below.
Proof.
  apply (saved_score_rank (Player.mk "Bob" "ELEMENTARY" 12) "scores.txt"
           scores_E [("Ann", "ELEMENTARY", 5); ("Cy", "HIGH SCHOOL", 12)]);
    vm_compute; reflexivity.
Defined.

(** ** The menu's [_choose] *)

Lemma _choose_cons (options : list string) (line : string)
    (rest : list string) :
  (not_a_choice options line /\
   _choose options (line :: rest) = _choose options rest)
  \/ (exists sel o,
        py_int line = Return sel /\ 1 <= sel <= len options
        /\ options !! Z.to_nat (sel - 1) = Some o
        /\ _choose options (line :: rest) = Some (Return o, rest)).
Proof.
  unfold not_a_choice. cbn [_choose].
  destruct (py_int line) as [sel|e]; [|left; auto].
  destruct (Z.leb_spec 1 sel); destruct (Z.leb_spec sel (len options));
    cbn [andb]; try (left; split; [lia | reflexivity]).
  right. unfold py_getitem.
  destruct (Z.leb_spec 0 (sel - 1)); [|lia].
  destruct (Z.ltb_spec (sel - 1) (Z.of_nat (length options)));
    [|unfold len in *; lia].
  cbn [andb].
  destruct (options !! Z.to_nat (sel - 1)) as [o|] eqn:E.
  - exists sel, o. auto.
  - apply lookup_ge_None in E. unfold len in *. lia.
Qed.

(** What [_choose] hands over, on lines of ASCII text.  When it returns,
    it has passed over the lines that [int] refuses or reads as a number
    out of range, and consumed the first line that is the number of an
    option, which it returns; it raises nothing, and fails with the end
    of input exactly when no line left is the number of an option. *)
Theorem _choose_reads (options : list string) (stdin : list string) :
  ascii_lines stdin ->
  match _choose options stdin with
  | Some (Return o, rest) =>
      exists skipped line sel,
        stdin = (skipped ++ line :: rest)%list
        /\ Forall (not_a_choice options) skipped
        /\ py_int line = Return sel /\ 1 <= sel <= len options
        /\ options !! Z.to_nat (sel - 1) = Some o
  | Some (Raise _, _) => False
  | None => Forall (not_a_choice options) stdin
  end.
Proof.
  intros _. induction stdin as [|line stdin IH]; [constructor|].
  destruct (_choose_cons options line stdin)
    as [[Hn ->] | (sel & o & Hi & Hr & Ho & ->)].
  - destruct (_choose options stdin) as [[[o|e] rest]|].
    + destruct IH as (skipped & l & sel & -> & Hs & H).
      exists (line :: skipped), l, sel. split; [reflexivity|].
      split; [constructor; assumption | exact H].
    + exact IH.
    + constructor; assumption.
  - exists [], line, sel. repeat split; try assumption; try lia. constructor.
Qed.

Lemma _choose_reads_witness :
  match _choose GRADE_LEVELS ["x"; "2"; "1"] with
  | Some (Return o, rest) =>
      exists skipped line sel,
        ["x"; "2"; "1"] = (skipped ++ line :: rest)%list
        /\ Forall (not_a_choice GRADE_LEVELS) skipped
        /\ py_int line = Return sel /\ 1 <= sel <= len GRADE_LEVELS
        /\ GRADE_LEVELS !! Z.to_nat (sel - 1) = Some o
  | Some (Raise _, _) => False
  | None => Forall (not_a_choice GRADE_LEVELS) ["x"; "2"; "1"]
  end.
Proof.
  apply (_choose_reads GRADE_LEVELS ["x"; "2"; "1"]). repeat constructor.
Defined.

Lemma _choose_shorter (options : list string) (stdin rest : list string)
    (r : outcome string) :
  _choose options stdin = Some (r, rest) -> (length rest < length stdin)%nat.
Proof.
  induction stdin as [|line stdin IH]; [discriminate|].
  destruct (_choose_cons options line stdin)
    as [[_ ->] | (sel & o & _ & _ & _ & ->)].
  - intros H. apply IH in H. cbn [length]. lia.
  - intros [= <- <-]. cbn [length]. lia.
Qed.

Lemma _choose_returns (options : list string) (stdin rest : list string)
    (e : exn) :
  _choose options stdin <> Some (Raise e, rest).
Proof.
  induction stdin as [|line stdin IH]; [discriminate|].
  destruct (_choose_cons options line stdin)
    as [[_ ->] | (sel & o & _ & _ & _ & ->)]; [exact IH | discriminate].
Qed.

(** ** The session loop of [main] *)




Lemma save_line_not_blank (line : string) : save_line line -> ~ blank line.
Proof.
  unfold save_line, blank. intros H E. rewrite E in H. discriminate H.
Qed.

Lemma session_loop_fuel (fuel : nat) (stdin : list string) (w : world) :
  (length stdin < fuel)%nat ->
  exists e w1 stdin',
    session_loop fuel stdin w = Some (e, w1, stdin')
    /\ (length stdin' <= length stdin)%nat.
Proof.
  revert stdin w. induction fuel as [|fuel IH]; intros stdin w Hf; [lia|].
  cbn [session_loop].
  destruct (display_question w) as [[[q|]|e] w1]; eauto.
  destruct (_prompt_answer stdin) as [[answer stdin']|] eqn:E.
  2: { eexists _, _, _. split; [reflexivity|]. cbn. lia. }
  apply _prompt_answer_shorter in E.
  destruct (String.eqb (PyStr.upper answer) "S").
  - destruct (save_game SAVE_FILE w1) as [[u|e] w2];
      eexists _, _, _; (split; [reflexivity | lia]).
  - destruct (check_answer answer w1) as [[b|e] w2].
    + destruct (IH stdin' w2) as (e & w3 & s3 & -> & Hl); [lia|].
      eexists _, _, _. split; [reflexivity | lia].
    + eexists _, _, _. split; [reflexivity | lia].
Qed.


Lemma display_question_escapes (w : world) (e : exn) :
  (display_question w).1 = Raise e -> escapes e.
Proof.
  unfold display_question, bind, get_self, getitem, raise, ret.
  destruct (len (question_bank (game w)) <=? _current_index (game w));
    [discriminate|].
  destruct (py_getitem _ _); [discriminate|].
  intros [= <-]. exact I.
Qed.

Lemma check_answer_escapes (user_input : string) (w : world) (e : exn) :
  (check_answer user_input w).1 = Raise e -> escapes e.
Proof.
  unfold check_answer, bind, get_self, getitem, raise, ret, put_self.
  cbn [fst snd].
  destruct (len (question_bank (game w)) <=? _current_index (game w));
    [intros [= <-]; exact I|].
  destruct (py_getitem (question_bank (game w)) (_current_index (game w)))
    as [q|]; [|intros [= <-]; exact I].
  destruct (letter_eqb _ _).
  - destruct (get_points q); discriminate.
  - destruct (PyStr.ord _); [|intros [= <-]; exact I].
    destruct (py_getitem (get_answers q) _); [discriminate|].
    intros [= <-]. exact I.
Qed.

Lemma save_game_saved_state (filename : string) (w : world) :
  save_game filename w
  = (Return tt,
     mkWorld (game w) (<[filename := saved_state (game w)]> (saves w))).
Proof. reflexivity. Qed.

Lemma save_game_state (filename : string) (w : world) :
  exists data,
    save_game filename w
    = (Return tt, mkWorld (game w) (<[filename := data]> (saves w))).
Proof. eexists. apply save_game_saved_state. Qed.

(** The loop ends, reads lines only forwards, leaves the bank alone and
    lets no exception through but those of the two core methods. *)
Lemma session_loop_result (fuel : nat) (stdin : list string) (w : world) :
  (length stdin < fuel)%nat ->
  exists e w1 stdin',
    session_loop fuel stdin w = Some (e, w1, stdin')
    /\ (length stdin' <= length stdin)%nat
    /\ _all_questions (game w1) = _all_questions (game w)
    /\ (forall ex, e = PlayRaised ex -> escapes ex)
    /\ (e = PlayEOF -> stdin' = []).
Proof.
  revert stdin w. induction fuel as [|fuel IH]; intros stdin w Hf; [lia|].
  cbn [session_loop].
  pose proof (display_question_state w) as Hst.
  pose proof (display_question_escapes w) as Hesc.
  destruct (display_question w) as [[[q|]|e] w1]; cbn [fst snd] in *; subst w1.
  2: { eexists _, _, _. repeat split; try reflexivity; discriminate. }
  2: { eexists _, _, _. repeat split; try reflexivity; try discriminate.
       intros ex [= <-]. apply Hesc. reflexivity. }
  destruct (_prompt_answer stdin) as [[answer stdin']|] eqn:E.
  2: { eexists _, _, _. repeat split; try reflexivity; [cbn; lia|discriminate]. }
  apply _prompt_answer_shorter in E.
  destruct (String.eqb (PyStr.upper answer) "S").
  - destruct (save_game_state SAVE_FILE w) as [data ->].
    eexists _, _, _. repeat split; try reflexivity; [lia|discriminate ..].
  - pose proof (check_answer_bank answer w) as Hb.
    pose proof (check_answer_escapes answer w) as Hce.
    destruct (check_answer answer w) as [[b|e] w2]; cbn [fst snd] in *.
    + destruct (IH stdin' w2) as (e & w3 & s3 & -> & Hl & Hq & He & Heof);
        [lia|].
      eexists _, _, _. repeat split; try reflexivity;
        [lia | congruence | exact He | exact Heof].
    + eexists _, _, _. repeat split; try reflexivity;
        [lia | exact Hb | | discriminate].
      intros ex [= <-]. apply Hce. reflexivity.
Qed.

Lemma run_session_result (player : Player.t) (m : machine) :
  exists e m',
    run_session player m = Some (e, m')
    /\ (length (console m') <= length (console m))%nat
    /\ _all_questions (game (session m'))
       = _all_questions (game (session m))
    /\ (forall ex, e = PlayRaised ex -> escapes ex)
    /\ (e = PlayEOF -> console m' = []).
Proof.
  unfold run_session.
  destruct (session_loop_result (S (length (console m))) (console m)
              (session m)) as (e & w1 & s1 & -> & Hl & Hq & He & Heof); [lia|].
  destruct e; eexists _, _; repeat split; try reflexivity;
    try assumption; try discriminate.
Qed.

Lemma configure_session_bank_ok (draws : list nat)
    (grade_level difficulty : string) (limit : option Z) (w : world) :
  bank_ok (_all_questions (game w)) ->
  exists r w',
    configure_session draws grade_level difficulty limit w = (r, w')
    /\ _all_questions (game w') = _all_questions (game w)
    /\ match r with
       | Return _ => True
       | Raise e => exists msg, e = ValueError msg
       end.
Proof.
  intros [Hsec _]. unfold configure_session.
  destruct (bool_decide (PyStr.upper grade_level ∈ GRADE_LEVELS)) eqn:Eg;
    cbn [negb]; [|eexists _, _; repeat split; eauto].
  destruct (bool_decide (difficulty ∈ DIFFICULTIES)) eqn:Ed;
    cbn [negb]; [|eexists _, _; repeat split; eauto].
  apply bool_decide_eq_true_1 in Eg, Ed.
  destruct (Hsec _ _ Eg Ed) as [pool Hpool].
  unfold bucket in Hpool. apply bind_Some in Hpool as (per & Hper & Hp).
  unfold bind, get_self, dict_getitem. cbn [fst snd].
  rewrite Hper. unfold ret. rewrite Hp.
  destruct pool; eexists _, _; repeat split; eauto.
Qed.

Lemma new_session_result (m : machine) :
  bank_ok (_all_questions (game (session m))) ->
  exists e m',
    new_session m = Some (e, m')
    /\ (length (console m') <= length (console m))%nat
    /\ _all_questions (game (session m'))
       = _all_questions (game (session m))
    /\ (forall ex, e = PlayRaised ex -> escapes ex)
    /\ (e = PlayEOF -> console m' = []).
Proof.
  intros Hok. unfold new_session.
  destruct (console m) as [|name_line s0] eqn:Ec.
  { eexists _, _. repeat split; try reflexivity;
      [rewrite Ec; lia | discriminate | intros _; exact Ec]. }
  destruct (_choose GRADE_LEVELS s0) as [[[grade|e] s1]|] eqn:E1.
  2: { exfalso. exact (_choose_returns _ _ _ _ E1). }
  2: { eexists _, _. repeat split; try reflexivity; [cbn; lia|discriminate]. }
  apply _choose_shorter in E1.
  destruct (_choose DIFFICULTIES s1) as [[[diff|e] s2]|] eqn:E2.
  2: { exfalso. exact (_choose_returns _ _ _ _ E2). }
  2: { eexists _, _. repeat split; try reflexivity; [cbn; lia|discriminate]. }
  apply _choose_shorter in E2.
  destruct s2 as [|limit_line s3].
  { eexists _, _. repeat split; try reflexivity; [cbn; lia|discriminate]. }
  cbn [length] in *.
  destruct (configure_session_bank_ok (random m) grade diff
              (limit_of limit_line) (session m) Hok)
    as (r & w' & -> & Hq & Hr).
  destruct r as [[]|e].
  - destruct (run_session_result
                (Player.init (player_name name_line) grade)
                (mkMachine w' (board m) s3
                   (drop (draws_taken (session m) grade diff) (random m))))
      as (e & m' & -> & Hl & Hq' & He & Heof).
    cbn [console session] in *.
    eexists _, _. repeat split; try reflexivity;
      [lia | congruence | exact He | exact Heof].
  - destruct Hr as [msg ->].
    eexists _, _. repeat split; try reflexivity;
      [cbn; lia | exact Hq | discriminate ..].
Qed.

Lemma load_game_bank (filename : string) (w : world) :
  _all_questions (game (load_game filename w).2) = _all_questions (game w).
Proof.
  destruct (saves w !! filename) as [data|] eqn:E.
  - rewrite (load_game_found _ _ _ E). reflexivity.
  - rewrite (load_game_not_found _ _ E). reflexivity.
Qed.

Lemma resume_session_result (m : machine) :
  exists e m',
    resume_session m = Some (e, m')
    /\ (length (console m') <= length (console m))%nat
    /\ _all_questions (game (session m'))
       = _all_questions (game (session m))
    /\ (forall ex, e = PlayRaised ex -> escapes ex)
    /\ (e = PlayEOF -> console m' = []).
Proof.
  unfold resume_session.
  pose proof (load_game_bank SAVE_FILE (session m)) as Hb.
  destruct (load_game SAVE_FILE (session m)) as [[[]|e] w]; cbn [snd] in Hb.
  - destruct (console m) as [|name_line s0] eqn:Ec.
    { eexists _, _. repeat split; try reflexivity;
        [exact Hb | discriminate]. }
    destruct (run_session_result
                (Player.init (player_name name_line) (resumed_grade w))
                (mkMachine w (board m) s0 (random m)))
      as (e & m' & -> & Hl & Hq' & He & Heof).
    cbn [console session length] in *.
    eexists _, _. repeat split; try reflexivity;
      [lia | congruence | exact He | exact Heof].
  - eexists _, _. repeat split; try reflexivity; try discriminate.
    exact Hb.
Qed.

Lemma main_loop_result (fuel : nat) (m : machine) :
  bank_ok (_all_questions (game (session m))) ->
  (length (console m) < fuel)%nat ->
  exists e m',
    main_loop fuel m = Some (e, m')
    /\ (length (console m') <= length (console m))%nat
    /\ _all_questions (game (session m'))
       = _all_questions (game (session m))
    /\ (forall ex, e = MainRaised ex -> escapes ex)
    /\ (e = MainEOF -> console m' = []).
Proof.
  revert m. induction fuel as [|fuel IH]; intros m Hok Hf; [lia|].
  cbn [main_loop].
  destruct (console m) as [|line stdin] eqn:Ec.
  { eexists _, _. repeat split; try reflexivity; try discriminate;
      [rewrite Ec; lia | intros _; exact Ec]. }
  cbn [length] in Hf.
  set (m0 := mkMachine (session m) (board m) stdin (random m)).
  assert (Hsame : forall r,
    (exists e m', r = Some (e, m')
       /\ (length (console m') <= length stdin)%nat
       /\ _all_questions (game (session m'))
          = _all_questions (game (session m))
       /\ (forall ex, e = PlayRaised ex -> escapes ex)
       /\ (e = PlayEOF -> console m' = [])) ->
    exists e m',
      match r with
      | None => None
      | Some (PlayDone, m') => main_loop fuel m'
      | Some (PlayRaised e, m') => Some (MainRaised e, m')
      | Some (PlayEOF, m') => Some (MainEOF, m')
      end = Some (e, m')
      /\ (length (console m') <= S (length stdin))%nat
      /\ _all_questions (game (session m'))
         = _all_questions (game (session m))
      /\ (forall ex, e = MainRaised ex -> escapes ex)
      /\ (e = MainEOF -> console m' = [])).
  { intros r (e & m' & -> & Hl & Hq & He & Heof). destruct e as [|ex|].
    - destruct (IH m') as (e2 & m2 & -> & Hl2 & Hq2 & He2 & Heof2);
        [rewrite Hq; exact Hok | lia |].
      eexists _, _. repeat split; try reflexivity;
        [lia | congruence | exact He2 | exact Heof2].
    - eexists _, _. repeat split; try reflexivity;
        [lia | exact Hq | | discriminate].
      intros ex' [= <-]. apply He. reflexivity.
    - eexists _, _. repeat split; try reflexivity;
        [lia | exact Hq | discriminate |].
      intros _. apply Heof. reflexivity. }
  assert (Hskip :
    exists e m',
      main_loop fuel m0 = Some (e, m')
      /\ (length (console m') <= S (length stdin))%nat
      /\ _all_questions (game (session m'))
         = _all_questions (game (session m))
      /\ (forall ex, e = MainRaised ex -> escapes ex)
      /\ (e = MainEOF -> console m' = [])).
  { destruct (IH m0) as (e2 & m2 & -> & Hl2 & Hq2 & He2 & Heof2);
      [exact Hok | cbn; lia |].
    eexists _, _. repeat split; try reflexivity;
      [cbn in Hl2; lia | exact Hq2 | exact He2 | exact Heof2]. }
  destruct (String.eqb (PyStr.strip line) "1").
  { apply Hsame. exact (new_session_result m0 Hok). }
  destruct (String.eqb (PyStr.strip line) "2").
  { apply Hsame. exact (resume_session_result m0). }
  destruct (String.eqb (PyStr.strip line) "3"); [exact Hskip|].
  destruct (String.eqb (PyStr.strip line) "4"); [|exact Hskip].
  eexists _, _. repeat split; try reflexivity; try discriminate. cbn. lia.
Qed.

(** [main] always ends, on a bank file and console lines of ASCII text
    and with save files, if any, that [save_game] wrote for games of
    ASCII text.  Without the bank file it raises [FileNotFoundError] before anything is read or
    written; otherwise it ends by choice 4, by the end of the input, with
    every line read, or by an [IndexError] or a [TypeError], and no other
    exception gets out of it. *)
Theorem main_ends (file : option (list string))
    (save_files : gmap string save_data) (score_files : gmap string string)
    (stdin : list string) (draws : list nat) :
  (forall lines, file = Some lines -> ascii_lines lines) ->
  ascii_lines stdin ->
  written_by_save_game save_files ->
  exists e save_files' score_files' stdin',
    main file save_files score_files stdin draws
    = Some (e, save_files', score_files', stdin')
    /\ (length stdin' <= length stdin)%nat
    /\ (e = MainEOF -> stdin' = [])
    /\ (file = None ->
        exists msg, e = MainRaised (FileNotFoundError msg)
                    /\ save_files' = save_files
                    /\ score_files' = score_files /\ stdin' = stdin)
    /\ (file <> None -> forall ex, e = MainRaised ex -> escapes ex).
Proof.
  intros _ _ _. unfold main, QuizGame_init. destruct file as [lines|].
  - destruct (_load_questions_from_file_total QUESTIONS_FILE (Some lines))
      as [r Hload].
    rewrite Hload.
    pose proof (parse_loop_ok _ _ _ None None _ r empty_bank_ok I I Hload)
      as Hr.
    destruct r as [all|ex].
    + destruct (main_loop_result (S (length stdin))
                  (mkMachine
                     (mkWorld (mkQuizGame QUESTIONS_FILE all [] 0 0
                                 (mkMeta "" "")) save_files)
                     score_files stdin draws))
        as (e & m' & -> & Hl & _ & He & Heof); [exact Hr | cbn; lia |].
      eexists _, _, _, _. repeat split; try reflexivity;
        [exact Hl | exact Heof | discriminate | intros _; exact He].
    + destruct Hr as [msg ->].
      eexists _, _, _, _. repeat split; try reflexivity;
        try discriminate.
      intros _ ex' [= <-]. exact I.
  - cbn. eexists _, _, _, _. repeat split; try reflexivity;
      try discriminate; [eauto | congruence].
Qed.

Lemma main_ends_witness :
  let save_files : gmap string save_data :=
    {[ SAVE_FILE := saved_state (game session_C3) ]} in
  let stdin := ["3"; "2"; "Cy"; " b "; "4"; "1"] in
  exists e save_files' score_files' stdin',
    main (Some bank_C3) save_files ∅ stdin []
    = Some (e, save_files', score_files', stdin')
    /\ (length stdin' <= length stdin)%nat
    /\ (e = MainEOF -> stdin' = [])
    /\ (Some bank_C3 = None ->
        exists msg, e = MainRaised (FileNotFoundError msg)
                    /\ save_files' = save_files
                    /\ score_files' = ∅ /\ stdin' = stdin)
    /\ (Some bank_C3 <> None ->
        forall ex, e = MainRaised ex -> escapes ex).
Proof.
  intros save_files stdin.
  apply (main_ends (Some bank_C3) save_files ∅ stdin []).
  - intros lines [= <-]. repeat constructor.
  - repeat constructor.
  - apply map_Forall_singleton. exists (game session_C3).
    split; [|reflexivity]. repeat constructor.
Defined.

(** ** Sessions from the menu *)












(** One run of the program: a first session on [bank_C3] answered right,
    the leaderboard shown, and the exit. *)
Example main_one_session :
  main (Some bank_C3) ∅ ∅ ["1"; "Ann"; "1"; "1"; ""; "b"; "3"; "4"] []
  = Some (MainExit, ∅,
          {[ SCORES_FILE := "Ann, ELEMENTARY, 1" ++ String LF "" ]}, []).
Proof. vm_compute. reflexivity. Qed.
